(** * Scorpius RAG: embedding cache, embedding service and search engine

    A shallow embedding of the parts of

      - [src/utils/embedding_cache.py]           (class [EmbeddingCache])
      - [src/services/openai_embedding_service.py] (methods [embed] and
        [embed_batch])
      - [src/core/scorpius_rag_engine.py]        (methods [search] and
        [add_documents], and their helpers)
      - [src/models/ao_context.py], [src/models/search_result.py],
        [src/models/embedding_config.py]

    that the specification speaks about, followed by the theorems that
    settle its claims and by further properties of the same code.

    Conventions of the embedding.
      - A Python [str] is a Rocq [string] holding its UTF-8 bytes, so that
        [s.encode('utf-8')] is the identity.
      - A Python [float] is an exact rational ([Q]); a Python [int] is a [Z];
        byte counts are [N].
      - A Python exception is a value of [exn]; code that can raise lives in
        the state-and-exception monad [M].
      - Functions of the Python standard library that the repository only
        calls (hashlib, pickle, datetime, [str.lower]) are fields of the
        class [PyRuntime]; every theorem holds for all of its instances.
      - The file system of the cache is a finite map from paths to files;
        deleting a file and reading its size or its date do not fail.
      - Logging is not modelled. *)

From Stdlib Require Import ZArith NArith QArith Qminmax Lqa String Ascii List Lia
  Permutation Sorted.
From stdpp Require Import gmap strings list fin_maps pretty.

Open Scope string_scope.
Set Warnings "-register-all,-clear-no-such-hyp".

(** ** Python values *)

Module Py.

Inductive pyval : Type :=
| PyNone
| PyBool (b : bool)
| PyInt (n : Z)
| PyFloat (x : Q)
| PyStr (s : string)
| PyList (items : list pyval)
| PyDict (entries : list (string * pyval)).

(** Exceptions.  The last five are the repository's own hierarchy
    ([ScorpiusError] and its subclasses); messages are left out. *)
Inductive exn : Type :=
| OSError
| UnpicklingError
| KeyError
| TypeError
| AttributeError
| IndexError
| ValueError
| ZeroDivisionError
| ScorpiusError (error_code : string) (context : list (string * pyval))
| CacheError (error_code cache_key : string) (context : list (string * pyval))
| ValidationError (error_code field_name : string) (field_value : pyval)
                  (context : list (string * pyval))
| OpenAIError (error_code : string)
| ChromaDBError (error_code : string).

(** [isinstance(e, ScorpiusError)] *)
Definition is_ScorpiusError (e : exn) : bool :=
  match e with
  | ScorpiusError _ _ | CacheError _ _ _ | ValidationError _ _ _ _
  | OpenAIError _ | ChromaDBError _ => true
  | _ => false
  end.

(** [isinstance(e, CacheError)] *)
Definition is_CacheError (e : exn) : bool :=
  match e with CacheError _ _ _ => true | _ => false end.

Inductive result (A : Type) : Type :=
| Ok (a : A)
| Raise (e : exn).
Arguments Ok {A} a.
Arguments Raise {A} e.

(** Truth value of an object, as tested by [if x:] and [not x]. *)
Definition truthy (v : pyval) : bool :=
  match v with
  | PyNone => false
  | PyBool b => b
  | PyInt n => negb (n =? 0)%Z
  | PyFloat x => negb (Qeq_bool x 0)
  | PyStr s => negb (String.eqb s "")
  | PyList l => match l with [] => false | _ => true end
  | PyDict d => match d with [] => false | _ => true end
  end.

(** [v == s] for a string [s]. *)
Definition eq_str (v : pyval) (s : string) : bool :=
  match v with PyStr s' => String.eqb s' s | _ => false end.

(** [isinstance(x, (int, float))]; [bool] is a subclass of [int]. *)
Definition is_number (v : pyval) : bool :=
  match v with PyBool _ | PyInt _ | PyFloat _ => true | _ => false end.

(** [d.get(key)] on a dict given by its items. *)
Fixpoint dict_get (d : list (string * pyval)) (key : string) : option pyval :=
  match d with
  | [] => None
  | (k, v) :: d' => if String.eqb k key then Some v else dict_get d' key
  end.

(** [needle in hay] for two strings. *)
Fixpoint str_contains (needle hay : string) : bool :=
  String.prefix needle hay
  || match hay with
     | EmptyString => false
     | String _ hay' => str_contains needle hay'
     end.

(** [key in obj]: membership for a dict, a list and a string; the other
    objects are not iterable. *)
Definition contains (obj : pyval) (key : string) : result bool :=
  match obj with
  | PyDict d => Ok (match dict_get d key with Some _ => true | None => false end)
  | PyList l => Ok (existsb (fun v => eq_str v key) l)
  | PyStr s => Ok (str_contains key s)
  | _ => Raise TypeError
  end.

(** [obj[key]] for a string key. *)
Definition getitem (obj : pyval) (key : string) : result pyval :=
  match obj with
  | PyDict d => match dict_get d key with Some v => Ok v | None => Raise KeyError end
  | _ => Raise TypeError
  end.

(** *** Characters and white space

    A string is cut into its characters by the width announced by each
    UTF-8 lead byte. *)
Definition utf8_width (a : ascii) : nat :=
  let c := N_of_ascii a in
  if (c <? 192)%N then 1 else if (c <? 224)%N then 2 else if (c <? 240)%N then 3 else 4.

Fixpoint chars_from (s : string) (pending : nat) (cur : string) : list string :=
  match s with
  | EmptyString => match cur with EmptyString => [] | _ => [cur] end
  | String a r =>
      match pending with
      | S p => chars_from r p (cur +:+ String a EmptyString)
      | O =>
          match cur with
          | EmptyString => chars_from r (pred (utf8_width a)) (String a EmptyString)
          | _ => cur :: chars_from r (pred (utf8_width a)) (String a EmptyString)
          end
      end
  end.

Definition chars (s : string) : list string := chars_from s 0 EmptyString.

(** [c.isspace()] for one character: the code points U+0009-000D,
    U+001C-0020, U+0085, U+00A0, U+1680, U+2000-200A, U+2028, U+2029,
    U+202F, U+205F and U+3000, read in UTF-8. *)
Definition isspace (c : string) : bool :=
  match map N_of_ascii (list_ascii_of_string c) with
  | [b] => ((9 <=? b) && (b <=? 13)) || ((28 <=? b) && (b <=? 32))
  | [194; b] => (b =? 133) || (b =? 160)
  | [225; 154; 128] => true
  | [226; 128; b] => ((128 <=? b) && (b <=? 138)) || (b =? 168) || (b =? 169) || (b =? 175)
  | [226; 129; 159] => true
  | [227; 128; 128] => true
  | _ => false
  end%N.

Fixpoint dropwhile {A} (p : A -> bool) (l : list A) : list A :=
  match l with
  | [] => []
  | x :: l' => if p x then dropwhile p l' else l
  end.

Definition join_chars (cs : list string) : string := String.concat "" cs.

(** [s.strip()] *)
Definition strip (s : string) : string :=
  join_chars (rev (dropwhile isspace (rev (dropwhile isspace (chars s))))).

Fixpoint words (cs : list string) (cur : string) : list string :=
  match cs with
  | [] => match cur with EmptyString => [] | _ => [cur] end
  | c :: cs' =>
      if isspace c
      then match cur with EmptyString => words cs' "" | _ => cur :: words cs' "" end
      else words cs' (cur +:+ c)
  end.

(** [s.split()] *)
Definition split (s : string) : list string := words (chars s) "".

(** [sep.join(l)] *)
Definition join (sep : string) (l : list string) : string := String.concat sep l.

(** [s[:n]] *)
Definition str_take (n : nat) (s : string) : string := String.substring 0 n s.

(** [len(s)]: the number of characters. *)
Definition str_len (s : string) : nat := length (chars s).

(** [d[key] = v] and [d.update(other)] on a dict given by its items. *)
Fixpoint dict_set (d : list (string * pyval)) (key : string) (v : pyval)
  : list (string * pyval) :=
  match d with
  | [] => [(key, v)]
  | (k, v') :: d' =>
      if String.eqb k key then (key, v) :: d' else (k, v') :: dict_set d' key v
  end.

Definition dict_update (d other : list (string * pyval)) : list (string * pyval) :=
  fold_left (fun d kv => dict_set d kv.1 kv.2) other d.

(** [l[i]] for [0 <= i] and [l[:n]] for any integer [n]. *)
Definition list_get {A} (l : list A) (i : nat) : result A :=
  match l !! i with Some x => Ok x | None => Raise IndexError end.

Definition slice_to {A} (n : Z) (l : list A) : list A :=
  if (0 <=? n)%Z then firstn (Z.to_nat n) l
  else firstn (length l - Z.to_nat (- n)) l.

End Py.
Export Py.

(** ** The state-and-exception monad

    A computation reads and updates a state and either returns a value or
    raises; what it did to the state before raising stays done. *)

Definition M (S A : Type) : Type := S -> result A * S.

Definition ret {S A} (a : A) : M S A := fun s => (Ok a, s).
Definition raise {S A} (e : exn) : M S A := fun s => (Raise e, s).
Definition bind {S A B} (m : M S A) (k : A -> M S B) : M S B :=
  fun s => match m s with
           | (Ok a, s') => k a s'
           | (Raise e, s') => (Raise e, s')
           end.
Definition lift {S A} (r : result A) : M S A := fun s => (r, s).
Definition modify {S} (f : S -> S) : M S unit := fun s => (Ok tt, f s).
Definition gets {S A} (f : S -> A) : M S A := fun s => (Ok (f s), s).

(** [try: m  except Exception as e: handler e] *)
Definition try_except {S A} (m : M S A) (handler : exn -> M S A) : M S A :=
  fun s => match m s with
           | (Ok a, s') => (Ok a, s')
           | (Raise e, s') => handler e s'
           end.

Declare Scope py_scope.
Delimit Scope py_scope with py.
Notation "'let*' x := m 'in' k" := (bind m (fun x => k))
  (at level 10, x pattern, m at level 100, k at level 200) : py_scope.
Notation "'run' m 'then' k" := (bind m (fun _ => k))
  (at level 10, m at level 100, k at level 200) : py_scope.

Open Scope py_scope.

(** [result] alone, for code that touches no state. *)
Definition rbind {A B} (r : result A) (k : A -> result B) : result B :=
  match r with Ok a => k a | Raise e => Raise e end.
Notation "'let?' x := r 'in' k" := (rbind r (fun x => k))
  (at level 10, x pattern, r at level 100, k at level 200) : py_scope.

(** ** Library functions taken as parameters

    [hashlib.sha256(b).hexdigest()], [hashlib.md5(b).hexdigest()], the
    length of [pickle.dumps(v, protocol)], [datetime.isoformat()] of an
    instant counted in microseconds, and [str.lower()]. *)

Inductive pickle_protocol : Type := DEFAULT_PROTOCOL | HIGHEST_PROTOCOL.

Class PyRuntime : Type := {
  sha256_hexdigest : string -> string;
  md5_hexdigest : string -> string;
  pickle_len : pickle_protocol -> pyval -> N;
  isoformat : Z -> string;
  lower : string -> string
}.

(** ** [EmbeddingCache] (src/utils/embedding_cache.py) *)

Module EmbeddingCache.

(** What reading an entry file gives: [open] fails, [pickle.load] fails,
    or an object comes out. *)
Inductive file_data : Type :=
| Unreadable
| Garbage
| Pickled (v : pyval).

(** A [*.pkl] file below the cache directory; [st_mtime] in microseconds. *)
Record file : Type := { st_mtime : Z; st_size : N; data : file_data }.

Record stats : Type := {
  total_requests : Z;
  cache_hits : Z;
  cache_misses : Z;
  cache_errors : Z;
  total_savings_usd : Q;
  cache_size_mb : Q
}.

(** The object [self] together with the [*.pkl] files of its directory,
    keyed by path. *)
Record cache : Type := {
  cache_dir : string;
  ttl_hours : Z;
  max_cache_size_mb : Z;
  compression_enabled : bool;
  _stats : stats;
  disk : gmap string file
}.

(** What the operating system does with the two writing steps of [set]. *)
Record io_env : Type := { mkdir_fails : bool; open_fails : bool }.

Definition with_stats (f : stats -> stats) (self : cache) : cache :=
  {| cache_dir := cache_dir self; ttl_hours := ttl_hours self;
     max_cache_size_mb := max_cache_size_mb self;
     compression_enabled := compression_enabled self;
     _stats := f (_stats self); disk := disk self |}.

Definition with_disk (f : gmap string file -> gmap string file) (self : cache) : cache :=
  {| cache_dir := cache_dir self; ttl_hours := ttl_hours self;
     max_cache_size_mb := max_cache_size_mb self;
     compression_enabled := compression_enabled self;
     _stats := _stats self; disk := f (disk self) |}.

Definition incr_total_requests (st : stats) : stats :=
  {| total_requests := total_requests st + 1; cache_hits := cache_hits st;
     cache_misses := cache_misses st; cache_errors := cache_errors st;
     total_savings_usd := total_savings_usd st; cache_size_mb := cache_size_mb st |}.

Definition incr_cache_hits (st : stats) : stats :=
  {| total_requests := total_requests st; cache_hits := cache_hits st + 1;
     cache_misses := cache_misses st; cache_errors := cache_errors st;
     total_savings_usd := total_savings_usd st; cache_size_mb := cache_size_mb st |}.

Definition incr_cache_misses (st : stats) : stats :=
  {| total_requests := total_requests st; cache_hits := cache_hits st;
     cache_misses := cache_misses st + 1; cache_errors := cache_errors st;
     total_savings_usd := total_savings_usd st; cache_size_mb := cache_size_mb st |}.

Definition incr_cache_errors (st : stats) : stats :=
  {| total_requests := total_requests st; cache_hits := cache_hits st;
     cache_misses := cache_misses st; cache_errors := cache_errors st + 1;
     total_savings_usd := total_savings_usd st; cache_size_mb := cache_size_mb st |}.

Definition add_savings (cost_saved : Q) (st : stats) : stats :=
  {| total_requests := total_requests st; cache_hits := cache_hits st;
     cache_misses := cache_misses st; cache_errors := cache_errors st;
     total_savings_usd := (total_savings_usd st + cost_saved)%Q;
     cache_size_mb := cache_size_mb st |}.

Definition set_cache_size_mb (size : Q) (st : stats) : stats :=
  {| total_requests := total_requests st; cache_hits := cache_hits st;
     cache_misses := cache_misses st; cache_errors := cache_errors st;
     total_savings_usd := total_savings_usd st; cache_size_mb := size |}.

Section Methods.
Context `{PyRuntime}.

Definition _get_cache_key (text model : string) : string :=
  let normalized_text := join " " (split text) in
  let content := normalized_text +:+ "|" +:+ model in
  sha256_hexdigest content.

Definition _get_cache_file_path (self : cache) (cache_key : string) : string :=
  let subdir := str_take 2 cache_key in
  cache_dir self +:+ "/" +:+ subdir +:+ "/" +:+ cache_key +:+ ".pkl".

(** One hour, in microseconds. *)
Definition hour : Z := 3600000000.

Definition _is_cache_entry_valid (now : Z) (file_path : string) (self : cache) : bool :=
  match disk self !! file_path with
  | None => false
  | Some f =>
      let file_time := st_mtime f in
      let expiry_time := (file_time + ttl_hours self * hour)%Z in
      (now <? expiry_time)%Z
  end.

(** [all(key in cache_data for key in required_keys)] *)
Fixpoint all_in (cache_data : pyval) (keys : list string) : result bool :=
  match keys with
  | [] => Ok true
  | key :: keys' =>
      let? present := contains cache_data key in
      if present then all_in cache_data keys' else Ok false
  end.

Definition _validate_cache_data (cache_data : pyval) (text model : string) : result bool :=
  let body : result bool :=
    let required_keys := ["text"; "model"; "embedding"; "text_hash"] in
    let? present := all_in cache_data required_keys in
    if negb present then Ok false else
    let? stored_model := getitem cache_data "model" in
    if negb (eq_str stored_model model) then Ok false else
    let expected_hash := md5_hexdigest text in
    let? stored_hash := getitem cache_data "text_hash" in
    if negb (eq_str stored_hash expected_hash) then Ok false else
    let? embedding := getitem cache_data "embedding" in
    match embedding with
    | PyList items =>
        if negb (truthy embedding) then Ok false
        else if negb (forallb is_number items) then Ok false
        else Ok true
    | _ => Ok false
    end in
  match body with
  | Raise KeyError | Raise TypeError | Raise AttributeError => Ok false
  | r => r
  end.

(** [with open(file_path, 'rb') as f: pickle.load(f)] *)
Definition load (file_path : string) : M cache pyval :=
  fun self =>
    match disk self !! file_path with
    | None => (Raise OSError, self)
    | Some f =>
        match data f with
        | Unreadable => (Raise OSError, self)
        | Garbage => (Raise UnpicklingError, self)
        | Pickled v => (Ok v, self)
        end
    end.

(** [file_path.unlink(missing_ok=True)] *)
Definition unlink (file_path : string) : M cache unit :=
  modify (with_disk (delete file_path)).

Definition get (now : Z) (text model : string) : M cache (option pyval) :=
  run modify (with_stats incr_total_requests) then
  try_except
    (let cache_key := _get_cache_key text model in
     let* file_path := gets (fun self => _get_cache_file_path self cache_key) in
     let* valid := gets (_is_cache_entry_valid now file_path) in
     if negb valid then
       run modify (with_stats incr_cache_misses) then ret None
     else
       let* cache_data := load file_path in
       let* ok := lift (_validate_cache_data cache_data text model) in
       if negb ok then
         run unlink file_path then
         run modify (with_stats incr_cache_misses) then ret None
       else
         let* embedding := lift (getitem cache_data "embedding") in
         run modify (with_stats incr_cache_hits) then
         let token_estimate := (inject_Z (Z.of_nat (length (split text))) * 1.3)%Q in
         let cost_saved := ((token_estimate / 1000) * 0.00013)%Q in
         run modify (with_stats (add_savings cost_saved)) then
         ret (Some embedding))
    (fun e => run modify (with_stats incr_cache_errors) then ret None).

(** [total_size] of the loop in [_get_cache_size_mb], in bytes. *)
Definition total_size (files : list (string * file)) : N :=
  foldr (fun pf acc => (st_size pf.2 + acc)%N) 0%N files.

Definition mb (bytes : N) : Q := (inject_Z (Z.of_N bytes) / 1024 / 1024)%Q.

(** [self.cache_dir.rglob("*.pkl")] *)
Definition rglob (self : cache) : list (string * file) := map_to_list (disk self).

Definition _get_cache_size_mb (self : cache) : Q := mb (total_size (rglob self)).

(** [cache_files.sort(key=lambda x: x[1])]: a stable sort on the second
    component. *)
Fixpoint insert_by_mtime (x : string * Z * N) (l : list (string * Z * N))
  : list (string * Z * N) :=
  match l with
  | [] => [x]
  | y :: l' => if (x.1.2 <=? y.1.2)%Z then x :: y :: l' else y :: insert_by_mtime x l'
  end.

Definition sort_by_mtime (l : list (string * Z * N)) : list (string * Z * N) :=
  foldr insert_by_mtime [] l.

(** The deleting loop of [_cleanup_oldest_entries]. *)
Fixpoint evict (cache_files : list (string * Z * N)) (target_size_mb current_size : Q)
  (cleaned_count : Z) (self : cache) : cache * Q * Z :=
  match cache_files with
  | [] => (self, current_size, cleaned_count)
  | (cache_file, _, file_size) :: rest =>
      if Qle_bool current_size target_size_mb then (self, current_size, cleaned_count)
      else evict rest target_size_mb (current_size - mb file_size)%Q (cleaned_count + 1)%Z
                 (with_disk (delete cache_file) self)
  end.

Definition _cleanup_oldest_entries (target_size_mb : Q) : M cache unit :=
  fun self =>
    let cache_files := map (fun pf : string * file => (pf.1, st_mtime pf.2, st_size pf.2))
                           (rglob self) in
    let cache_files := sort_by_mtime cache_files in
    let current_size := mb (foldr (fun f acc => (f.2 + acc)%N) 0%N cache_files) in
    (Ok tt, (evict cache_files target_size_mb current_size 0 self).1.1).

Definition _cleanup_if_needed : M cache unit :=
  try_except
    (let* current_size := gets _get_cache_size_mb in
     run modify (with_stats (set_cache_size_mb current_size)) then
     let* max := gets max_cache_size_mb in
     if negb (Qle_bool current_size (inject_Z max)) then
       _cleanup_oldest_entries (inject_Z max * 0.8)%Q
     else ret tt)
    (fun e => ret tt).

(** [10 * 1024 * 1024] bytes for one pickled embedding. *)
Definition size_limit : Z := 10 * 1024 * 1024.

(** [file_path.parent.mkdir(parents=True, exist_ok=True)] *)
Definition mkdir (io : io_env) : M cache unit :=
  if mkdir_fails io then raise OSError else ret tt.

(** [with open(file_path, 'wb') as f: pickle.dump(cache_data, f, protocol)].
    The new file replaces what was at the path. *)
Definition dump (io : io_env) (now : Z) (file_path : string)
  (protocol : pickle_protocol) (cache_data : pyval) : M cache unit :=
  if open_fails io then raise OSError
  else modify (with_disk (insert file_path
         {| st_mtime := now; st_size := pickle_len protocol cache_data;
            data := Pickled cache_data |})).

Definition set (io : io_env) (now : Z) (text model : string) (embedding : list pyval)
  : M cache unit :=
  try_except
    (let cache_key := _get_cache_key text model in
     let* file_path := gets (fun self => _get_cache_file_path self cache_key) in
     run mkdir io then
     let embedding_size := Z.of_N (pickle_len DEFAULT_PROTOCOL (PyList embedding)) in
     if (embedding_size >? size_limit)%Z then
       raise (CacheError "CACHE_SIZE_LIMIT_EXCEEDED" cache_key
                [("data_size", PyInt embedding_size); ("max_size", PyInt size_limit)])
     else
       let cache_data := PyDict
         [("text", PyStr text);
          ("model", PyStr model);
          ("embedding", PyList embedding);
          ("cached_at", PyStr (isoformat now));
          ("text_hash", PyStr (md5_hexdigest text));
          ("embedding_dimension", PyInt (Z.of_nat (length embedding)))] in
       let* protocol := gets (fun self =>
         if compression_enabled self then HIGHEST_PROTOCOL else DEFAULT_PROTOCOL) in
       run dump io now file_path protocol cache_data then
       _cleanup_if_needed)
    (fun e =>
       run modify (with_stats incr_cache_errors) then
       if is_CacheError e then raise e else ret tt).

End Methods.

(** *** Notions used in the statements about the cache *)

Section Notions.
Context `{PyRuntime}.

(** The file in which [get] and [set] keep the entry of a text and model. *)
Definition entry_path (self : cache) (text model : string) : string :=
  _get_cache_file_path self (_get_cache_key text model).

(** The time to live of [f] has not elapsed at [now]. *)
Definition fresh (now : Z) (self : cache) (f : file) : Prop :=
  (now < st_mtime f + ttl_hours self * hour)%Z.

(** What [_validate_cache_data] accepts, said without the code: a dict
    with the four required keys whose model and text hash are the expected
    ones and whose embedding is a non-empty list of numbers. *)
Definition valid_entry (v : pyval) (text model : string) : Prop :=
  exists d items,
    v = PyDict d
    /\ is_Some (dict_get d "text")
    /\ dict_get d "model" = Some (PyStr model)
    /\ dict_get d "text_hash" = Some (PyStr (md5_hexdigest text))
    /\ dict_get d "embedding" = Some (PyList items)
    /\ items <> []
    /\ forallb is_number items = true.

(** The entry of [text] and [model] is on disk, fresh, readable and
    valid, and holds the vector [e]. *)
Definition usable (now : Z) (self : cache) (text model : string) (e : pyval) : Prop :=
  exists f v,
    disk self !! entry_path self text model = Some f
    /\ fresh now self f
    /\ data f = Pickled v
    /\ valid_entry v text model
    /\ getitem v "embedding" = Ok e.


(** The entry is on disk but stale, or fresh but not readable as a pickle. *)
Definition stale_or_unreadable (now : Z) (self : cache) (text model : string) : Prop :=
  exists f,
    disk self !! entry_path self text model = Some f
    /\ (~ fresh now self f \/ data f = Unreadable \/ data f = Garbage).

(** The object that [set] pickles, the file it writes, and the size of
    the cache, in MB, once that file is in place. *)
Definition cache_data_of (now : Z) (text model : string) (embedding : list pyval) : pyval :=
  PyDict
    [("text", PyStr text);
     ("model", PyStr model);
     ("embedding", PyList embedding);
     ("cached_at", PyStr (isoformat now));
     ("text_hash", PyStr (md5_hexdigest text));
     ("embedding_dimension", PyInt (Z.of_nat (length embedding)))].

Definition file_of (self : cache) (now : Z) (text model : string) (embedding : list pyval)
  : file :=
  let protocol := if compression_enabled self then HIGHEST_PROTOCOL else DEFAULT_PROTOCOL in
  let cache_data := cache_data_of now text model embedding in
  {| st_mtime := now; st_size := pickle_len protocol cache_data; data := Pickled cache_data |}.

Definition size_after_write (self : cache) (now : Z) (text model : string)
  (embedding : list pyval) : Q :=
  mb (total_size (map_to_list
        (<[entry_path self text model := file_of self now text model embedding]>
           (disk self)))).

(** The list [cache_files] that [_cleanup_oldest_entries] builds: path,
    modification time and size of every file; the paths and the bytes of
    such a list. *)
Definition cache_files (self : cache) : list (string * Z * N) :=
  map (fun pf : string * file => (pf.1, st_mtime pf.2, st_size pf.2)) (rglob self).

Definition paths (l : list (string * Z * N)) : list string := map (fun f => f.1.1) l.

Definition bytes (l : list (string * Z * N)) : N :=
  foldr (fun f acc => (f.2 + acc)%N) 0%N l.

(** The pickled embedding is larger than the ceiling of one entry. *)
Definition oversized (embedding : list pyval) : Prop :=
  (Z.of_N (pickle_len DEFAULT_PROTOCOL (PyList embedding)) > size_limit)%Z.

End Notions.

(** *** Maintenance: expired entries, statistics, clearing *)

Section Maintenance.
Context `{PyRuntime}.

(** The loop of [_cleanup_expired_entries] over [rglob("*.pkl")]. *)
Fixpoint drop_expired (now : Z) (cache_files : list (string * file))
  (cleaned_count : Z) (cleaned_size : N) (self : cache) : cache * Z * N :=
  match cache_files with
  | [] => (self, cleaned_count, cleaned_size)
  | (cache_file, f) :: rest =>
      if negb (_is_cache_entry_valid now cache_file self) then
        let file_size := st_size f in
        drop_expired now rest (cleaned_count + 1)%Z (cleaned_size + file_size)%N
                     (with_disk (delete cache_file) self)
      else drop_expired now rest cleaned_count cleaned_size self
  end.

Definition _cleanup_expired_entries (now : Z) : M cache unit :=
  try_except
    (fun self => (Ok tt, (drop_expired now (rglob self) 0 0 self).1.1))
    (fun e => ret tt).

(** The entry [hit_rate] of [get_stats]. *)
Definition hit_rate (self : cache) : Q :=
  let total_requests := total_requests (_stats self) in
  if (total_requests >? 0)%Z
  then (inject_Z (cache_hits (_stats self)) / inject_Z total_requests)%Q
  else 0%Q.

Definition get_stats (self : cache) : list (string * pyval) :=
  [("hit_rate", PyFloat (hit_rate self));
   ("total_requests", PyInt (total_requests (_stats self)));
   ("cache_hits", PyInt (cache_hits (_stats self)));
   ("cache_misses", PyInt (cache_misses (_stats self)));
   ("cache_errors", PyInt (cache_errors (_stats self)));
   ("total_savings_usd", PyFloat (total_savings_usd (_stats self)));
   ("cache_size_mb", PyFloat (_get_cache_size_mb self));
   ("cache_directory", PyStr (cache_dir self));
   ("ttl_hours", PyInt (ttl_hours self));
   ("max_size_mb", PyInt (max_cache_size_mb self))].

(** The loop of [clear_cache] over [rglob("*.pkl")]. *)
Fixpoint delete_files (cache_files : list (string * file)) (deleted_files : Z)
  (deleted_size : N) (self : cache) : cache * Z * N :=
  match cache_files with
  | [] => (self, deleted_files, deleted_size)
  | (cache_file, f) :: rest =>
      let file_size := st_size f in
      delete_files rest (deleted_files + 1)%Z (deleted_size + file_size)%N
                   (with_disk (delete cache_file) self)
  end.

Definition reset_stats (st : stats) : stats :=
  {| total_requests := 0; cache_hits := 0; cache_misses := 0; cache_errors := 0;
     total_savings_usd := 0; cache_size_mb := 0 |}.

Definition clear_cache : M cache (list (string * pyval)) :=
  try_except
    (let* cache_files := gets rglob in
     let* (deleted_files, deleted_size) :=
       (fun self =>
          let '(self', deleted_files, deleted_size) := delete_files cache_files 0 0 self in
          (Ok (deleted_files, deleted_size), self')) in
     run modify (with_stats reset_stats) then
     ret [("files_deleted", PyInt deleted_files);
          ("size_deleted_mb", PyFloat (mb deleted_size))])
    (fun e => raise (CacheError "CACHE_CLEAR_FAILED" "" [])).

(** The counters of hits and of requests are those of a cache that has
    counted: no more hits than requests, and no negative number of hits. *)
Definition counted (self : cache) : Prop :=
  (0 <= cache_hits (_stats self) <= total_requests (_stats self))%Z.

End Maintenance.

End EmbeddingCache.

(** ** [OpenAIEmbeddingService.embed] (src/services/openai_embedding_service.py) *)

Module OpenAIEmbeddingService.

(** One element of [response.data]: the vector and, as the provider's
    answer states it, the position in the request of the text it embeds.
    The service reads [embedding] only. *)
Record data_item : Type := { index : nat; embedding : list pyval }.

Record response : Type := { data : list data_item; total_tokens : Z }.

Record stats : Type := {
  total_requests : Z;
  total_tokens_used : Z;
  total_cost_usd : Q;
  cache_hits : Z;
  api_calls : Z;
  errors : Z;
  avg_latency_ms : Q
}.

(** The object [self]: the two configuration fields [embed] reads, the
    optional cache, the counters, and [self.client.embeddings.create]. *)
Record service : Type := {
  model : string;
  cost_per_1k_tokens : Q;
  cache : option EmbeddingCache.cache;
  _stats : stats;
  create : list string -> string -> result response
}.

Definition with_stats (f : stats -> stats) (self : service) : service :=
  {| model := model self; cost_per_1k_tokens := cost_per_1k_tokens self;
     cache := cache self; _stats := f (_stats self); create := create self |}.

Definition with_cache (c : EmbeddingCache.cache) (self : service) : service :=
  {| model := model self; cost_per_1k_tokens := cost_per_1k_tokens self;
     cache := Some c; _stats := _stats self; create := create self |}.

Definition incr_total_requests (st : stats) : stats :=
  {| total_requests := total_requests st + 1; total_tokens_used := total_tokens_used st;
     total_cost_usd := total_cost_usd st; cache_hits := cache_hits st;
     api_calls := api_calls st; errors := errors st; avg_latency_ms := avg_latency_ms st |}.

Definition incr_cache_hits (st : stats) : stats :=
  {| total_requests := total_requests st; total_tokens_used := total_tokens_used st;
     total_cost_usd := total_cost_usd st; cache_hits := cache_hits st + 1;
     api_calls := api_calls st; errors := errors st; avg_latency_ms := avg_latency_ms st |}.

Definition incr_api_calls (st : stats) : stats :=
  {| total_requests := total_requests st; total_tokens_used := total_tokens_used st;
     total_cost_usd := total_cost_usd st; cache_hits := cache_hits st;
     api_calls := api_calls st + 1; errors := errors st; avg_latency_ms := avg_latency_ms st |}.

Definition incr_errors (st : stats) : stats :=
  {| total_requests := total_requests st; total_tokens_used := total_tokens_used st;
     total_cost_usd := total_cost_usd st; cache_hits := cache_hits st;
     api_calls := api_calls st; errors := errors st + 1; avg_latency_ms := avg_latency_ms st |}.

Definition add_usage (tokens : Z) (cost : Q) (st : stats) : stats :=
  {| total_requests := total_requests st;
     total_tokens_used := total_tokens_used st + tokens;
     total_cost_usd := (total_cost_usd st + cost)%Q; cache_hits := cache_hits st;
     api_calls := api_calls st; errors := errors st; avg_latency_ms := avg_latency_ms st |}.

Definition set_avg_latency_ms (avg : Q) (st : stats) : stats :=
  {| total_requests := total_requests st; total_tokens_used := total_tokens_used st;
     total_cost_usd := total_cost_usd st; cache_hits := cache_hits st;
     api_calls := api_calls st; errors := errors st; avg_latency_ms := avg |}.

(** [lst[i] = v] *)
Definition list_set (l : list pyval) (i : nat) (v : pyval) : result (list pyval) :=
  if (i <? length l)%nat then Ok (<[i := v]> l) else Raise IndexError.

Section Methods.
Context `{PyRuntime}.

(** A call of a method of [self.cache]. *)
Definition on_cache {A} (m : M EmbeddingCache.cache A) : M service A :=
  fun self =>
    match cache self with
    | None => (Raise AttributeError, self)
    | Some c => let (r, c') := m c in (r, with_cache c' self)
    end.

Definition _call_openai_api (texts : list string) (model : string)
  : M service (list (list pyval)) :=
  try_except
    (run modify (with_stats incr_api_calls) then
     let* create := gets create in
     let* response := lift (create texts model) in
     let embeddings := map embedding (data response) in
     let total_tokens := total_tokens response in
     let* price := gets cost_per_1k_tokens in
     let cost := ((inject_Z total_tokens / 1000) * price)%Q in
     run modify (with_stats (add_usage total_tokens cost)) then
     ret embeddings)
    (fun e =>
       run modify (with_stats incr_errors) then
       raise (OpenAIError "OPENAI_ERROR")).

(** The loop [for i, text in enumerate(text_list)] that consults the
    cache; it carries [cached_embeddings], [texts_to_process] and
    [cache_mapping].  [now] is what the clock shows to the cache. *)
Fixpoint check_cache (now : Z) (i : nat) (text_list : list string) (model : string)
  (cached_embeddings : list (nat * pyval)) (texts_to_process : list string)
  (cache_mapping : gmap nat nat)
  : M service (list (nat * pyval) * list string * gmap nat nat) :=
  match text_list with
  | [] => ret (cached_embeddings, texts_to_process, cache_mapping)
  | text :: rest =>
      let* cached := on_cache (EmbeddingCache.get now text model) in
      if match cached with Some v => truthy v | None => false end then
        let cached_embeddings :=
          (cached_embeddings ++ [(i, default PyNone cached)])%list in
        run modify (with_stats incr_cache_hits) then
        check_cache now (S i) rest model cached_embeddings texts_to_process cache_mapping
      else
        let texts_to_process := (texts_to_process ++ [text])%list in
        let cache_mapping := <[(length texts_to_process - 1)%nat := i]> cache_mapping in
        check_cache now (S i) rest model cached_embeddings texts_to_process cache_mapping
  end.

(** [{i: i for i in range(n)}] *)
Definition identity_mapping (n : nat) : gmap nat nat :=
  list_to_map (map (fun i => (i, i)) (seq 0 n)).

(** The loop that writes the fresh vectors into the cache; an error of one
    [set] is logged and the loop goes on. *)
Fixpoint store_new (io : EmbeddingCache.io_env) (now : Z)
  (pairs : list (string * list pyval)) (model : string) : M service unit :=
  match pairs with
  | [] => ret tt
  | (text, embedding) :: rest =>
      run try_except (on_cache (EmbeddingCache.set io now text model embedding))
                     (fun e => ret tt) then
      store_new io now rest model
  end.

(** [for pos, embedding in cached_embeddings: final_embeddings[pos] = embedding] *)
Fixpoint place_cached (cached_embeddings : list (nat * pyval)) (final_embeddings : list pyval)
  : result (list pyval) :=
  match cached_embeddings with
  | [] => Ok final_embeddings
  | (pos, embedding) :: rest =>
      let? final_embeddings := list_set final_embeddings pos embedding in
      place_cached rest final_embeddings
  end.

(** [for processed_idx, embedding in enumerate(new_embeddings)] *)
Fixpoint place_new (processed_idx : nat) (new_embeddings : list (list pyval))
  (cache_mapping : gmap nat nat) (final_embeddings : list pyval) : result (list pyval) :=
  match new_embeddings with
  | [] => Ok final_embeddings
  | embedding :: rest =>
      match cache_mapping !! processed_idx with
      | None => Raise KeyError
      | Some original_idx =>
          let? final_embeddings :=
            list_set final_embeddings original_idx (PyList embedding) in
          place_new (S processed_idx) rest cache_mapping final_embeddings
      end
  end.

Definition _update_stats (latency_ms : Q) : M service unit :=
  run modify (with_stats incr_total_requests) then
  let* prev_avg := gets (fun self => avg_latency_ms (_stats self)) in
  let* total_requests := gets (fun self => total_requests (_stats self)) in
  if (total_requests =? 0)%Z then raise ZeroDivisionError
  else
    modify (with_stats (set_avg_latency_ms
      ((prev_avg * inject_Z (total_requests - 1) + latency_ms) / inject_Z total_requests)%Q)).

(** [embed(texts, use_cache)]; [texts] is one string or a list of strings.
    [io] and [now] are the file system and the clock as the cache finds
    them, [latency_ms] is what the two clock readings of [embed] give. *)
Definition embed (io : EmbeddingCache.io_env) (now : Z) (latency_ms : Q)
  (texts : string + list string) (use_cache : bool) : M service pyval :=
  let is_single := match texts with inl _ => true | inr _ => false end in
  let text_list := match texts with inl t => [t] | inr l => l end in
  if match text_list with [] => true | _ => false end
     || existsb (fun text => negb (truthy (PyStr (strip text)))) text_list
  then raise (ValidationError "VALIDATION_ERROR" "texts" (PyList (map PyStr text_list)) [])
  else
    let* model := gets model in
    let* has_cache := gets (fun self => match cache self with Some _ => true | None => false end) in
    let* (cached_embeddings, texts_to_process, cache_mapping) :=
      if use_cache && has_cache
      then check_cache now 0 text_list model [] [] ∅
      else ret ([], text_list, identity_mapping (length text_list)) in
    let* new_embeddings :=
      match texts_to_process with
      | [] => ret []
      | _ =>
          let* new_embeddings := _call_openai_api texts_to_process model in
          run (if use_cache && has_cache
               then store_new io now (combine texts_to_process new_embeddings) model
               else ret tt) then
          ret new_embeddings
      end in
    let final_embeddings := repeat PyNone (length text_list) in
    let* final_embeddings := lift (place_cached cached_embeddings final_embeddings) in
    let* final_embeddings :=
      lift (place_new 0 new_embeddings cache_mapping final_embeddings) in
    run _update_stats latency_ms then
    if is_single
    then match final_embeddings with
         | v :: _ => ret v
         | [] => raise IndexError
         end
    else ret (PyList final_embeddings).

End Methods.

(** *** Notions used in the statements about [embed] *)

Section Notions.
Context `{PyRuntime}.

(** The answer of a provider that embeds each text [t] as [vec t] and
    lists its vectors in the order of the request. *)
Definition in_order_response (vec : string -> list pyval) (texts : list string)
  (tokens : Z) : response :=
  {| data := imap (fun i t => {| index := i; embedding := vec t |}) texts;
     total_tokens := tokens |}.

Definition answers_in_order (vec : string -> list pyval) (self : service) : Prop :=
  forall texts model,
    exists tokens, create self texts model = Ok (in_order_response vec texts tokens).

(** Whatever usable entry the cache of the service holds for a text [t]
    holds the vector [vec t]. *)
Definition cache_agrees (vec : string -> list pyval) (self : service) : Prop :=
  forall c now text model e,
    cache self = Some c ->
    EmbeddingCache.usable now c text model e -> e = PyList (vec text).

(** The list a caller expects for [text_list]. *)
Definition vectors_of (vec : string -> list pyval) (text_list : list string) : pyval :=
  PyList (map (fun t => PyList (vec t)) text_list).

(** The position [p] of [final_embeddings] holds the vector of the text
    at the position [p] of [text_list]. *)
Definition placed (vec : string -> list pyval) (text_list : list string)
  (final_embeddings : list pyval) (p : nat) : Prop :=
  exists t, text_list !! p = Some t /\ final_embeddings !! p = Some (PyList (vec t)).

(** The bookkeeping of [embed] once the first [i] texts have been looked
    up: every vector found in the cache is that of the text at its
    position, [cache_mapping] sends the rank of every text to process to
    the position of that text, and every position below [i] is accounted
    for. *)
Definition accounted (vec : string -> list pyval) (text_list : list string) (i : nat)
  (cached_embeddings : list (nat * pyval)) (texts_to_process : list string)
  (cache_mapping : gmap nat nat) : Prop :=
  (forall p e, (p, e) ∈ cached_embeddings ->
     exists t, text_list !! p = Some t /\ e = PyList (vec t))
  /\ (forall k t, texts_to_process !! k = Some t ->
        exists p, cache_mapping !! k = Some p /\ text_list !! p = Some t)
  /\ (forall p, (p < i)%nat ->
        (exists e, (p, e) ∈ cached_embeddings)
        \/ (exists k t, texts_to_process !! k = Some t /\ cache_mapping !! k = Some p)).

End Notions.

(** *** [embed_batch] *)

Section Batches.
Context `{PyRuntime}.

(** [range(0, n, step)] for [0 <= n]: a step of zero is a ValueError, a
    negative step gives the empty range. *)
Fixpoint range_from (fuel : nat) (i n step : Z) : list Z :=
  match fuel with
  | O => []
  | S fuel' => if (i <? n)%Z then i :: range_from fuel' (i + step) n step else []
  end.

Definition range_step (n step : Z) : result (list Z) :=
  if (step =? 0)%Z then Raise ValueError
  else if (step <? 0)%Z then Ok []
  else Ok (range_from (Z.to_nat n) 0 n step).

(** [texts[i:j]] for [0 <= i <= j]. *)
Definition slice {A} (l : list A) (i j : Z) : list A :=
  take (Z.to_nat (j - i)) (drop (Z.to_nat i) l).

(** [asyncio.gather] over [tasks] with [return_exceptions=True], the tasks
    being calls of [embed]: each task runs to its end, here one after the
    other, and its result or its exception is collected. *)
Fixpoint gather (io : EmbeddingCache.io_env) (now : Z) (latency_ms : Q)
  (tasks : list (list string)) (use_cache : bool) : M service (list (result pyval)) :=
  match tasks with
  | [] => ret []
  | batch :: rest =>
      fun self =>
        let (r, self') := embed io now latency_ms (inr batch) use_cache self in
        match gather io now latency_ms rest use_cache self' with
        | (Ok results, self'') => (Ok (r :: results), self'')
        | (Raise e, self'') => (Raise e, self'')
        end
  end.

(** [for result in batch_results: ... all_embeddings.extend(result)] *)
Fixpoint extend_all (batch_results : list (result pyval)) (all_embeddings : list pyval)
  : result (list pyval) :=
  match batch_results with
  | [] => Ok all_embeddings
  | Raise e :: _ => Raise e
  | Ok (PyList vectors) :: rest => extend_all rest (all_embeddings ++ vectors)%list
  | Ok _ :: _ => Raise TypeError
  end.

Definition max_concurrent : nat := 3.

(** The loop [for i in range(0, len(texts), batch_size)]; it carries
    [tasks] and [all_embeddings]. *)
Fixpoint batch_loop (io : EmbeddingCache.io_env) (now : Z) (latency_ms : Q)
  (indices : list Z) (texts : list string) (batch_size : Z) (use_cache : bool)
  (tasks : list (list string)) (all_embeddings : list pyval) : M service (list pyval) :=
  match indices with
  | [] => ret all_embeddings
  | i :: rest =>
      let batch := slice texts i (i + batch_size) in
      let tasks := (tasks ++ [batch])%list in
      if (max_concurrent <=? length tasks)%nat
         || (Z.of_nat (length texts) <=? i + batch_size)%Z
      then
        let* batch_results := gather io now latency_ms tasks use_cache in
        let* all_embeddings := lift (extend_all batch_results all_embeddings) in
        batch_loop io now latency_ms rest texts batch_size use_cache [] all_embeddings
      else
        batch_loop io now latency_ms rest texts batch_size use_cache tasks all_embeddings
  end.

Definition embed_batch (io : EmbeddingCache.io_env) (now : Z) (latency_ms : Q)
  (texts : list string) (batch_size : Z) (use_cache : bool) : M service pyval :=
  match texts with
  | [] => ret (PyList [])
  | _ =>
      if (Z.of_nat (length texts) <=? batch_size)%Z then
        embed io now latency_ms (inr texts) use_cache
      else
        let* indices := lift (range_step (Z.of_nat (length texts)) batch_size) in
        let* all_embeddings :=
          batch_loop io now latency_ms indices texts batch_size use_cache [] [] in
        ret (PyList all_embeddings)
  end.

End Batches.

(** *** The mean latency *)





End OpenAIEmbeddingService.

(** ** [ScorpiusRAGEngine] (src/core/scorpius_rag_engine.py) *)

Module ScorpiusRAGEngine.

(** *** The context of a call for tenders (src/models/ao_context.py) *)

Inductive AOType : Type :=
| MAPA | OUVERT | RESTREINT | DIALOGUE_COMPETITIF | PARTENARIAT_INNOVATION | CONCOURS.

Definition AOType_value (t : AOType) : string :=
  match t with
  | MAPA => "MAPA"
  | OUVERT => "Ouvert"
  | RESTREINT => "Restreint"
  | DIALOGUE_COMPETITIF => "Dialogue compétitif"
  | PARTENARIAT_INNOVATION => "Partenariat d'innovation"
  | CONCOURS => "Concours"
  end.

Inductive Sector : Type :=
| ETAT | TERRITORIAL | HOSPITALIER | EDUCATION | EPA_EPIC | DEFENSE.

Definition Sector_value (s : Sector) : string :=
  match s with
  | ETAT => "État"
  | TERRITORIAL => "Territorial"
  | HOSPITALIER => "Hospitalier"
  | EDUCATION => "Éducation"
  | EPA_EPIC => "EPA/EPIC"
  | DEFENSE => "Défense"
  end.

Inductive TechnicalDomain : Type :=
| DEVELOPPEMENT | INFRA_CLOUD | CYBERSECURITE | DATA_IA | CONSEIL | INTEGRATION | SUPPORT.

Definition TechnicalDomain_value (d : TechnicalDomain) : string :=
  match d with
  | DEVELOPPEMENT => "Développement"
  | INFRA_CLOUD => "Infrastructure/Cloud"
  | CYBERSECURITE => "Cybersécurité"
  | DATA_IA => "Data/IA"
  | CONSEIL => "Conseil"
  | INTEGRATION => "Intégration"
  | SUPPORT => "Support/Maintenance"
  end.

(** The fields of [AOContext] that the engine reads. *)
Record AOContext : Type := {
  ao_type : AOType;
  sector : Sector;
  estimated_amount : option Z;
  technical_domains : list TechnicalDomain;
  organisme : option string
}.

Definition get_amount_range (self : AOContext) : string :=
  match estimated_amount self with
  | None => "Non spécifié"
  | Some amount =>
      if (amount <? 25000)%Z then "0-25k"
      else if (amount <? 100000)%Z then "25k-100k"
      else if (amount <? 500000)%Z then "100k-500k"
      else if (amount <? 1000000)%Z then "500k-1M"
      else if (amount <? 5000000)%Z then "1M-5M"
      else "5M+"
  end.

(** Truth values of the optional fields. *)
Definition amount_given (context : AOContext) : bool :=
  match estimated_amount context with Some n => negb (n =? 0)%Z | None => false end.

Definition organisme_given (context : AOContext) : bool :=
  match organisme context with Some s => negb (String.eqb s "") | None => false end.

(** *** A search result (src/models/search_result.py) *)

Record SearchResult : Type := {
  content : string;
  metadata : list (string * pyval);
  similarity_score : Q;
  collection : string;
  result_ao_type : option pyval;
  result_sector : option pyval;
  amount_range : option pyval;
  relevance_score : option Q
}.

(** [a < b] on floats. *)
Definition Qltb (a b : Q) : bool := negb (Qle_bool b a).

(** [not 0.0 <= x <= 1.0] *)
Definition outside_unit (x : Q) : bool := negb (Qle_bool 0 x && Qle_bool x 1).

(** The constructor with its [__post_init__]. *)
Definition new_SearchResult (content : string) (metadata : list (string * pyval))
  (similarity_score : Q) (collection : string) (ao_type sector amount_range : option pyval)
  (relevance_score : option Q) : result SearchResult :=
  if outside_unit similarity_score then Raise ValueError
  else if match relevance_score with Some r => outside_unit r | None => false end
  then Raise ValueError
  else Ok {| content := content; metadata := metadata;
             similarity_score := similarity_score; collection := collection;
             result_ao_type := ao_type; result_sector := sector;
             amount_range := amount_range; relevance_score := relevance_score |}.

(** *** The engine *)

(** What [collection.query] returns: three parallel lists of lists, each
    absent when ChromaDB leaves it out. *)
Record raw_results : Type := {
  documents : option (list (list string));
  metadatas : option (list (list (option (list (string * pyval)))));
  distances : option (list (list Q))
}.

(** Calls made to the embedding service and to ChromaDB, oldest first. *)
Inductive call : Type :=
| EmbedCall (text : string)
| GetCollectionCall (name : string)
| CreateCollectionCall (name : string)
| QueryCall (collection : string) (n_results : Z) (where_ : option (list (string * pyval))).

(** The collaborators of one [search]: the embedding service, the
    ChromaDB client and the clock. *)
Record services : Type := {
  embedding_service_embed : string -> result pyval;
  embedding_service_get_performance_stats : result (list (string * pyval));
  chroma_get_collection : string -> result unit;
  chroma_create_collection : string -> result unit;
  collection_query :
    string -> pyval -> Z -> option (list (string * pyval)) -> result raw_results;
  search_duration_ms : Q
}.

Record stats : Type := {
  total_searches : Z;
  total_documents_added : Z;
  total_embeddings_generated : Z;
  cache_hit_rate : pyval;
  avg_search_time_ms : Q;
  total_cost_usd : pyval;
  collections_created : Z
}.

Record engine : Type := {
  _stats : stats;
  _collections : list string;
  calls : list call
}.

Definition with_stats (f : stats -> stats) (self : engine) : engine :=
  {| _stats := f (_stats self); _collections := _collections self; calls := calls self |}.

Definition log_call (c : call) : M engine unit :=
  modify (fun self =>
    {| _stats := _stats self; _collections := _collections self;
       calls := (calls self ++ [c])%list |}).

Definition remember_collection (name : string) : M engine unit :=
  modify (fun self =>
    {| _stats := _stats self; _collections := (_collections self ++ [name])%list;
       calls := calls self |}).

Definition incr_total_searches (st : stats) : stats :=
  {| total_searches := total_searches st + 1;
     total_documents_added := total_documents_added st;
     total_embeddings_generated := total_embeddings_generated st;
     cache_hit_rate := cache_hit_rate st; avg_search_time_ms := avg_search_time_ms st;
     total_cost_usd := total_cost_usd st; collections_created := collections_created st |}.

Definition incr_collections_created (st : stats) : stats :=
  {| total_searches := total_searches st;
     total_documents_added := total_documents_added st;
     total_embeddings_generated := total_embeddings_generated st;
     cache_hit_rate := cache_hit_rate st; avg_search_time_ms := avg_search_time_ms st;
     total_cost_usd := total_cost_usd st;
     collections_created := collections_created st + 1 |}.

Definition set_avg_search_time_ms (avg : Q) (st : stats) : stats :=
  {| total_searches := total_searches st;
     total_documents_added := total_documents_added st;
     total_embeddings_generated := total_embeddings_generated st;
     cache_hit_rate := cache_hit_rate st; avg_search_time_ms := avg;
     total_cost_usd := total_cost_usd st; collections_created := collections_created st |}.

Definition set_embedding_figures (hit_rate cost : pyval) (st : stats) : stats :=
  {| total_searches := total_searches st;
     total_documents_added := total_documents_added st;
     total_embeddings_generated := total_embeddings_generated st;
     cache_hit_rate := hit_rate; avg_search_time_ms := avg_search_time_ms st;
     total_cost_usd := cost; collections_created := collections_created st |}.

Section Methods.
Context `{PyRuntime}.

Definition _enrich_query_with_context (query : string) (context : option AOContext) : string :=
  match context with
  | None => query
  | Some context =>
      let context_parts :=
        ([query;
          "appel offres " +:+ AOType_value (ao_type context);
          "secteur " +:+ Sector_value (sector context)]
         ++ (if amount_given context
             then ["montant " +:+ get_amount_range context] else [])
         ++ (match technical_domains context with
             | [] => []
             | ds => ["technologies " +:+ join " " (map TechnicalDomain_value ds)]
             end)
         ++ (if organisme_given context
             then ["organisme " +:+ default "" (organisme context)] else []))%list in
      join " - " context_parts
  end.

Definition _build_metadata_filters (context : option AOContext)
  (additional_filters : option (list (string * pyval))) : option (list (string * pyval)) :=
  let filters : list (string * pyval) := [] in
  let filters :=
    match context with
    | None => filters
    | Some context =>
        let filters := dict_set filters "secteur" (PyStr (Sector_value (sector context))) in
        let filters := dict_set filters "type_ao" (PyStr (AOType_value (ao_type context))) in
        let filters :=
          if amount_given context
          then dict_set filters "fourchette_montant" (PyStr (get_amount_range context))
          else filters in
        match technical_domains context with
        | [] => filters
        | ds =>
            let domain_values := map (fun d => PyStr (TechnicalDomain_value d)) ds in
            dict_set filters "domaine_technique" (PyDict [("$in", PyList domain_values)])
        end
    end in
  let filters :=
    match additional_filters with
    | Some (kv :: more) => dict_update filters (kv :: more)
    | _ => filters
    end in
  match filters with [] => None | _ => Some filters end.

(** [max(0.0, 1.0 - distance)]: the built-in [max] keeps its first
    argument unless the second is greater. *)
Definition py_max (a b : Q) : Q := if Qlt_le_dec a b then b else a.

(** [min(1.0, x)]: the built-in [min] keeps its first argument unless the
    second is smaller. *)
Definition py_min (a b : Q) : Q := if Qlt_le_dec b a then b else a.

Definition similarity_of_distance (distance : Q) : Q := py_max 0 (1 - distance).

(** The loop over [org_types], left at the first institution class named
    by both strings. *)
Fixpoint org_type_bonus (org_types : list string) (context_org meta_org : string)
  (relevance_bonus : Q) : Q :=
  match org_types with
  | [] => relevance_bonus
  | org_type :: rest =>
      if str_contains org_type context_org && str_contains org_type meta_org
      then (relevance_bonus + 0.05)%Q
      else org_type_bonus rest context_org meta_org relevance_bonus
  end.

Definition org_types : list string :=
  ["région"; "département"; "ministère"; "chu"; "université"].

(** [x.lower()] for an object [x]. *)
Definition lower_of (v : pyval) : result string :=
  match v with PyStr s => Ok (lower s) | _ => Raise AttributeError end.

(** [metadata.get(key)] compared or tested for truth; a missing key gives
    [None]. *)
Definition md_get (metadata : list (string * pyval)) (key : string) : pyval :=
  default PyNone (dict_get metadata key).

Definition _calculate_contextual_relevance (metadata : list (string * pyval))
  (context : option AOContext) (base_similarity : Q) : result Q :=
  match context with
  | None => Ok base_similarity
  | Some context =>
      let relevance_bonus := 0%Q in
      let relevance_bonus :=
        if eq_str (md_get metadata "secteur") (Sector_value (sector context))
        then (relevance_bonus + 0.1)%Q else relevance_bonus in
      let relevance_bonus :=
        if eq_str (md_get metadata "type_ao") (AOType_value (ao_type context))
        then (relevance_bonus + 0.1)%Q else relevance_bonus in
      let relevance_bonus :=
        if amount_given context && truthy (md_get metadata "fourchette_montant")
        then
          let context_range := get_amount_range context in
          if eq_str (md_get metadata "fourchette_montant") context_range
          then (relevance_bonus + 0.08)%Q else relevance_bonus
        else relevance_bonus in
      let? relevance_bonus :=
        if organisme_given context && truthy (md_get metadata "organisme")
        then
          let context_org := lower (default "" (organisme context)) in
          let? meta_org := lower_of (default (PyStr "") (dict_get metadata "organisme")) in
          Ok (org_type_bonus org_types context_org meta_org relevance_bonus)
        else Ok relevance_bonus in
      let final_score := py_min 1 (base_similarity + relevance_bonus) in
      Ok final_score
  end.

(** The key of the final sort, [r.relevance_score or r.similarity_score]. *)
Definition sort_key (r : SearchResult) : Q :=
  match relevance_score r with
  | Some x => if Qeq_bool x 0 then similarity_score r else x
  | None => similarity_score r
  end.

(** [sort(key=..., reverse=True)]: stable, greatest key first. *)
Fixpoint insert_by_key (r : SearchResult) (l : list SearchResult) : list SearchResult :=
  match l with
  | [] => [r]
  | r' :: l' =>
      if Qle_bool (sort_key r') (sort_key r) then r :: r' :: l'
      else r' :: insert_by_key r l'
  end.

Definition sort_by_relevance (l : list SearchResult) : list SearchResult :=
  foldr insert_by_key [] l.

(** [obj[0]] where [obj] may be absent. *)
Definition first_row {A} (rows : option (list (list A))) : result (list A) :=
  match rows with
  | None => Raise TypeError
  | Some rows => list_get rows 0
  end.

(** The body of [for i in range(len(raw_results["documents"][0]))]. *)
Fixpoint process_neighbors (indices : list nat) (raw : raw_results) (collection : string)
  (min_similarity_score : Q) (context : option AOContext)
  (processed_results : list SearchResult) : result (list SearchResult) :=
  match indices with
  | [] => Ok processed_results
  | i :: rest =>
      let? docs := first_row (documents raw) in
      let? document := list_get docs i in
      let? mds := first_row (metadatas raw) in
      let? md := list_get mds i in
      let metadata := match md with Some (kv :: more) => kv :: more | _ => [] end in
      let? dists := first_row (distances raw) in
      let? distance := list_get dists i in
      let similarity_score := similarity_of_distance distance in
      if Qltb similarity_score min_similarity_score then
        process_neighbors rest raw collection min_similarity_score context processed_results
      else
        let? relevance_score :=
          _calculate_contextual_relevance metadata context similarity_score in
        let? result :=
          new_SearchResult document metadata similarity_score collection
            (dict_get metadata "type_ao") (dict_get metadata "secteur")
            (dict_get metadata "fourchette_montant") (Some relevance_score) in
        process_neighbors rest raw collection min_similarity_score context
          (processed_results ++ [result])%list
  end.

Definition _process_search_results (raw : raw_results) (collection : string)
  (min_similarity_score : Q) (context : option AOContext) (limit : Z)
  : result (list SearchResult) :=
  match documents raw with
  | None | Some [] | Some ([] :: _) => Ok []
  | Some (docs :: _) =>
      let? processed_results :=
        process_neighbors (seq 0 (length docs)) raw collection min_similarity_score
          context [] in
      Ok (slice_to limit (sort_by_relevance processed_results))
  end.

Definition _update_search_stats (env : services) (duration_ms : Q) (results_count : nat)
  : M engine unit :=
  run modify (with_stats incr_total_searches) then
  let* total_searches := gets (fun self => total_searches (_stats self)) in
  let* prev_avg := gets (fun self => avg_search_time_ms (_stats self)) in
  if (total_searches =? 0)%Z then raise ZeroDivisionError
  else
    run modify (with_stats (set_avg_search_time_ms
      ((prev_avg * inject_Z (total_searches - 1) + duration_ms)
       / inject_Z total_searches)%Q)) then
    let* embedding_stats := lift (embedding_service_get_performance_stats env) in
    modify (with_stats (set_embedding_figures
      (default (PyFloat 0) (dict_get embedding_stats "cache_hit_rate"))
      (default (PyFloat 0) (dict_get embedding_stats "total_cost_usd")))).

Definition _get_or_create_collection (env : services) (collection_name : string)
  : M engine unit :=
  let* known := gets (fun self => existsb (String.eqb collection_name) (_collections self)) in
  if known then ret tt
  else
    try_except
      (run try_except
         (run log_call (GetCollectionCall collection_name) then
          lift (chroma_get_collection env collection_name))
         (fun e =>
            match e with
            | ValueError =>
                run log_call (CreateCollectionCall collection_name) then
                run lift (chroma_create_collection env collection_name) then
                modify (with_stats incr_collections_created)
            | _ => raise e
            end) then
       remember_collection collection_name)
      (fun e => raise (ChromaDBError "COLLECTION_ACCESS_FAILED")).

Definition search (env : services) (query collection : string) (limit : Z)
  (context : option AOContext) (filters : option (list (string * pyval)))
  (min_similarity_score : Q) : M engine (list SearchResult) :=
  if negb (truthy (PyStr query)) || negb (truthy (PyStr (strip query))) then
    raise (ValidationError "VALIDATION_ERROR" "query" (PyStr query) [])
  else if (limit <=? 0)%Z || (limit >? 100)%Z then
    raise (ValidationError "VALUE_OUT_OF_RANGE" "limit" (PyInt limit)
             [("min_value", PyInt 1); ("max_value", PyInt 100)])
  else if outside_unit min_similarity_score then
    raise (ValidationError "VALUE_OUT_OF_RANGE" "min_similarity_score"
             (PyFloat min_similarity_score)
             [("min_value", PyFloat 0); ("max_value", PyFloat 1)])
  else
    try_except
      (let enriched_query := _enrich_query_with_context query context in
       run log_call (EmbedCall enriched_query) then
       let* query_embedding := lift (embedding_service_embed env enriched_query) in
       run _get_or_create_collection env collection then
       let combined_filters := _build_metadata_filters context filters in
       run log_call (QueryCall collection (limit * 2) combined_filters) then
       let* search_results :=
         lift (collection_query env collection query_embedding (limit * 2)
                 combined_filters) in
       let* processed_results :=
         lift (_process_search_results search_results collection min_similarity_score
                 context limit) in
       run _update_search_stats env (search_duration_ms env) (length processed_results) then
       ret processed_results)
      (fun e =>
         run modify (with_stats incr_total_searches) then
         if negb (is_ScorpiusError e) then
           raise (ScorpiusError "RAG_SEARCH_FAILED"
                    [("query_length", PyInt (Z.of_nat (str_len query)));
                     ("collection", PyStr collection);
                     ("limit", PyInt limit)])
         else raise e).

End Methods.

(** *** Notions used in the statements about the engine *)

Section Notions.
Context `{PyRuntime}.

(** The query is empty or made of white space only. *)
Definition blank (query : string) : Prop :=
  Forall (fun c => isspace c = true) (chars query).

(** The institution of a document, when its metadata names one, is a
    string. *)
Definition organisme_is_text (metadata : list (string * pyval)) : Prop :=
  forall v, dict_get metadata "organisme" = Some v -> exists s, v = PyStr s.

(** The four matches between a document and the context of the query
    that earn a bonus: same sector, same kind of call for tenders, same
    range of amounts, same class of institution. *)
Definition sector_matches (metadata : list (string * pyval)) (context : AOContext) : bool :=
  eq_str (md_get metadata "secteur") (Sector_value (sector context)).

Definition ao_type_matches (metadata : list (string * pyval)) (context : AOContext) : bool :=
  eq_str (md_get metadata "type_ao") (AOType_value (ao_type context)).

Definition amount_range_matches (metadata : list (string * pyval)) (context : AOContext)
  : bool :=
  amount_given context
  && eq_str (md_get metadata "fourchette_montant") (get_amount_range context).

Definition institution_class_matches (metadata : list (string * pyval))
  (context : AOContext) : bool :=
  match organisme context, dict_get metadata "organisme" with
  | Some context_org, Some (PyStr meta_org) =>
      negb (String.eqb context_org "") && negb (String.eqb meta_org "")
      && existsb (fun org_type => str_contains org_type (lower context_org)
                                  && str_contains org_type (lower meta_org)) org_types
  | _, _ => false
  end.

Definition bonus (triggered : bool) (amount : Q) : Q := if triggered then amount else 0.

Definition sum_of_bonuses (metadata : list (string * pyval)) (context : AOContext) : Q :=
  (bonus (sector_matches metadata context) 0.1
   + bonus (ao_type_matches metadata context) 0.1
   + bonus (amount_range_matches metadata context) 0.08
   + bonus (institution_class_matches metadata context) 0.05)%Q.

(** The neighbours of the query as rows -- document, metadata, distance --
    and the rows whose similarity reaches the floor. *)
Definition rows (docs : list string) (mds : list (option (list (string * pyval))))
  (dists : list Q) : list (string * (option (list (string * pyval)) * Q)) :=
  zip docs (zip mds dists).

Definition reaches (floor : Q) (row : string * (option (list (string * pyval)) * Q)) : bool :=
  negb (Qltb (similarity_of_distance row.2.2) floor).

(** The result [r] stands for the row [row]. *)
Definition result_of_row (r : SearchResult)
  (row : string * (option (list (string * pyval)) * Q)) : Prop :=
  content r = row.1
  /\ metadata r = default [] row.2.1
  /\ similarity_score r = similarity_of_distance row.2.2.

(** The input checks of [search] let the arguments through. *)
Definition acceptable (query : string) (limit : Z) (min_similarity_score : Q) : Prop :=
  ~ blank query /\ (1 <= limit <= 100)%Z
  /\ (0 <= min_similarity_score)%Q /\ (min_similarity_score <= 1)%Q.

End Notions.

(** *** More of [SearchResult] (src/models/search_result.py) *)

(** [a > b] on floats. *)
Definition Qgtb (a b : Q) : bool := negb (Qle_bool a b).

Definition is_highly_relevant (self : SearchResult) : bool :=
  Qgtb (similarity_score self) 0.8.

Definition confidence_level (self : SearchResult) : string :=
  if Qgtb (similarity_score self) 0.8 then "Haute"
  else if Qgtb (similarity_score self) 0.6 then "Moyenne"
  else "Faible".

(** *** More notions *)

(** Both scores of a result are in [0, 1], and its relevance is at least
    its similarity. *)
Definition well_scored (r : SearchResult) : Prop :=
  (0 <= similarity_score r)%Q /\ (similarity_score r <= 1)%Q
  /\ exists s, relevance_score r = Some s /\ (similarity_score r <= s)%Q /\ (s <= 1)%Q.

(** The engine holds the collection [name]. *)
Definition known (self : engine) (name : string) : Prop :=
  existsb (String.eqb name) (_collections self) = true.

(** *** More of [AOContext] (src/models/ao_context.py) *)

#[global] Instance TechnicalDomain_eq_dec : EqDecision TechnicalDomain.
Proof. solve_decision. Defined.

Definition get_formalism_level (self : AOContext) : string :=
  match ao_type self with
  | MAPA => "Minimum"
  | OUVERT | RESTREINT =>
      if amount_given self
         && match estimated_amount self with
            | Some amount => (amount >? 1000000)%Z
            | None => false
            end
      then "Maximum"
      else "Standard"
  | _ => "Maximum"
  end.

Definition complex_domains : list TechnicalDomain := [CYBERSECURITE; DATA_IA; INTEGRATION].

Definition get_technical_complexity (self : AOContext) : string :=
  match technical_domains self with
  | [] => "Faible"
  | _ =>
      let nb_domains := length (technical_domains self) in
      let has_complex :=
        existsb (fun domain => bool_decide (domain ∈ complex_domains))
          (technical_domains self) in
      if (3 <=? nb_domains)%nat || has_complex then "Élevée"
      else if (nb_domains =? 2)%nat then "Moyenne"
      else "Faible"
  end.

(** *** [add_documents] *)

(** The further collaborators of one [add_documents]: the [add] of the
    ChromaDB collection, the cost estimate of the embedding service (its
    [estimate_cost] catches what the tokenizer raises, and returns) and the
    clock ([added_at i] is the [datetime.utcnow().isoformat()] read for the
    document of rank [i]). *)
Record ingest : Type := {
  collection_add :
    string -> list string -> list (list (string * pyval)) -> list string -> result unit;
  embedding_service_estimate_cost : list string -> Q;
  timestamp_ms : Z;
  added_at : nat -> string;
  add_duration_ms : Q
}.

Definition add_documents_added (n : Z) (st : stats) : stats :=
  {| total_searches := total_searches st;
     total_documents_added := total_documents_added st + n;
     total_embeddings_generated := total_embeddings_generated st + n;
     cache_hit_rate := cache_hit_rate st; avg_search_time_ms := avg_search_time_ms st;
     total_cost_usd := total_cost_usd st; collections_created := collections_created st |}.

Section Documents.
Context `{PyRuntime}.

(** The truth value of an optional list: [None] and [[]] are false. *)
Definition given {A} (l : option (list A)) : bool :=
  match l with Some (_ :: _) => true | _ => false end.

Definition len_of {A} (l : option (list A)) : nat :=
  match l with Some l => length l | None => 0 end.

(** [[f"{collection}_{timestamp}_{i}" for i in range(n)]] *)
Definition generate_ids (collection : string) (timestamp : Z) (n : nat) : list string :=
  map (fun i : nat => collection +:+ "_" +:+ pretty timestamp +:+ "_" +:+ pretty i)
    (seq 0 n).

(** The loop over [enumerate(metadatas)], from rank [i] on. *)
Fixpoint enrich_metadatas (ing : ingest) (collection : string) (documents : list string)
  (i : nat) (metadatas : list (list (string * pyval)))
  (enriched_metadatas : list (list (string * pyval)))
  : result (list (list (string * pyval))) :=
  match metadatas with
  | [] => Ok enriched_metadatas
  | metadata :: rest =>
      let? document := list_get documents i in
      let enriched :=
        dict_update metadata
          [("added_at", PyStr (added_at ing i));
           ("collection", PyStr collection);
           ("document_length", PyInt (Z.of_nat (str_len document)));
           ("scorpius_version", PyStr "1.0.0")] in
      enrich_metadatas ing collection documents (S i) rest
        (enriched_metadatas ++ [enriched])
  end.

Definition add_documents (env : services) (ing : ingest) (collection : string)
  (documents : list string) (metadatas : option (list (list (string * pyval))))
  (ids : option (list string)) : M engine (list (string * pyval)) :=
  if negb (truthy (PyList (map PyStr documents)))
     || negb (forallb (fun doc => truthy (PyStr (strip doc))) documents) then
    raise (ValidationError "VALIDATION_ERROR" "documents"
             (PyStr (pretty (length documents) +:+ " documents")) [])
  else if given metadatas && negb (len_of metadatas =? length documents)%nat then
    raise (ValidationError "VALIDATION_ERROR" "metadatas" PyNone [])
  else if given ids && negb (len_of ids =? length documents)%nat then
    raise (ValidationError "VALIDATION_ERROR" "ids" PyNone [])
  else
    try_except
      (run _get_or_create_collection env collection then
       let ids :=
         match ids with
         | Some (id :: more) => id :: more
         | _ => generate_ids collection (timestamp_ms ing) (length documents)
         end in
       let metadatas :=
         match metadatas with
         | Some (metadata :: more) => metadata :: more
         | _ => map (fun _ => []) documents
         end in
       let* enriched_metadatas :=
         lift (enrich_metadatas ing collection documents 0 metadatas []) in
       run lift (collection_add ing collection documents enriched_metadatas ids) then
       let duration := add_duration_ms ing in
       let total_chars := list_sum (map str_len documents) in
       let estimated_cost := embedding_service_estimate_cost ing documents in
       run modify (with_stats (add_documents_added (Z.of_nat (length documents)))) then
       ret [("documents_added", PyInt (Z.of_nat (length documents)));
            ("collection", PyStr collection);
            ("duration_ms", PyFloat duration);
            ("estimated_cost_usd", PyFloat estimated_cost);
            ("total_characters", PyInt (Z.of_nat total_chars));
            ("ids_generated", PyList (map PyStr ids))])
      (fun e =>
         if negb (is_ScorpiusError e) then
           raise (ScorpiusError "ADD_DOCUMENTS_FAILED"
                    [("collection", PyStr collection);
                     ("documents_count", PyInt (Z.of_nat (length documents)))])
         else raise e).

(** The keys that [add_documents] writes into every metadata. *)
Definition reserved_keys : list string :=
  ["added_at"; "collection"; "document_length"; "scorpius_version"].

(** The metadata written for the document of rank [i]. *)
Definition enriched_of (ing : ingest) (collection : string) (i : nat)
  (metadata : list (string * pyval)) (document : string) : list (string * pyval) :=
  dict_update metadata
    [("added_at", PyStr (added_at ing i));
     ("collection", PyStr collection);
     ("document_length", PyInt (Z.of_nat (str_len document)));
     ("scorpius_version", PyStr "1.0.0")].

(** What [add_documents] uses for the arguments left out. *)
Definition ids_used (ing : ingest) (collection : string) (documents : list string)
  (ids : option (list string)) : list string :=
  if given ids then default [] ids
  else generate_ids collection (timestamp_ms ing) (length documents).

Definition metadatas_used (documents : list string)
  (metadatas : option (list (list (string * pyval)))) : list (list (string * pyval)) :=
  if given metadatas then default [] metadatas else map (fun _ => []) documents.

(** The arguments pass the three checks of [add_documents]. *)
Definition addable (documents : list string)
  (metadatas : option (list (list (string * pyval)))) (ids : option (list string)) : Prop :=
  documents <> [] /\ Forall (fun doc => ~ blank doc) documents
  /\ (given metadatas = true -> len_of metadatas = length documents)
  /\ (given ids = true -> len_of ids = length documents).

End Documents.

End ScorpiusRAGEngine.

(** ** [EmbeddingConfig] (src/models/embedding_config.py) *)

Module EmbeddingConfig.

Record config : Type := {
  api_key : option string;
  model : string;
  base_url : string;
  timeout : Z;
  max_retries : Z;
  retry_delay : Q;
  batch_size : Z;
  rate_limit_rpm : Z;
  cache_enabled : bool;
  cache_ttl_hours : Z
}.

Definition with_api_key (key : option string) (self : config) : config :=
  {| api_key := key; model := model self; base_url := base_url self;
     timeout := timeout self; max_retries := max_retries self;
     retry_delay := retry_delay self; batch_size := batch_size self;
     rate_limit_rpm := rate_limit_rpm self; cache_enabled := cache_enabled self;
     cache_ttl_hours := cache_ttl_hours self |}.

Definition valid_models : list string :=
  ["text-embedding-3-large"; "text-embedding-3-small"; "text-embedding-ada-002"].

(** [__post_init__]; [getenv] is what [os.getenv("OPENAI_API_KEY")]
    returns.  It returns the object as it has left it, or raises. *)
Definition __post_init__ (getenv : option string) (self : config) : result config :=
  let self :=
    match api_key self with
    | None => with_api_key getenv self
    | Some _ => self
    end in
  if negb (match api_key self with Some key => truthy (PyStr key) | None => false end)
  then Raise ValueError
  else if negb (bool_decide (model self ∈ valid_models)) then Raise ValueError
  else if (timeout self <=? 0)%Z then Raise ValueError
  else if (max_retries self <? 0)%Z then Raise ValueError
  else if negb (Qle_bool 0 (retry_delay self)) then Raise ValueError
  else if (batch_size self <=? 0)%Z then Raise ValueError
  else if (rate_limit_rpm self <=? 0)%Z then Raise ValueError
  else if (cache_ttl_hours self <=? 0)%Z then Raise ValueError
  else Ok self.

(** [d.get(key, default)] on a table of the module. *)
Fixpoint table_get {A} (d : list (string * A)) (key : string) (default : A) : A :=
  match d with
  | [] => default
  | (k, v) :: d' => if String.eqb k key then v else table_get d' key default
  end.

Definition embedding_dimensions (self : config) : Z :=
  table_get [("text-embedding-3-large", 3072%Z);
             ("text-embedding-3-small", 1536%Z);
             ("text-embedding-ada-002", 1536%Z)] (model self) 1536%Z.

Definition cost_per_1k_tokens (self : config) : Q :=
  table_get [("text-embedding-3-large", 0.00013%Q);
             ("text-embedding-3-small", 0.00002%Q);
             ("text-embedding-ada-002", 0.0001%Q)] (model self) 0.0001%Q.

(** [60.0 / self.rate_limit_rpm] *)
Definition get_rate_limit_delay (self : config) : result Q :=
  if (rate_limit_rpm self =? 0)%Z then Raise ZeroDivisionError
  else Ok (60 / inject_Z (rate_limit_rpm self))%Q.

Definition estimate_cost (self : config) (total_tokens : Z) : Q :=
  (inject_Z total_tokens / 1000 * cost_per_1k_tokens self)%Q.

End EmbeddingConfig.

(** ** A concrete runtime, to run the model on sample data

    Stand-ins for the library functions: digests that keep their input,
    a pickle length that counts a few bytes per object, a fixed time
    stamp, and lower-casing of the ASCII letters. *)

Module Sample.

Definition lower_ascii_char (a : ascii) : ascii :=
  let c := N_of_ascii a in
  if ((65 <=? c) && (c <=? 90))%N then ascii_of_N (c + 32) else a.

Fixpoint lower_ascii (s : string) : string :=
  match s with
  | EmptyString => EmptyString
  | String a r => String (lower_ascii_char a) (lower_ascii r)
  end.

Fixpoint object_size (v : pyval) : N :=
  match v with
  | PyNone | PyBool _ => 1
  | PyInt _ => 5
  | PyFloat _ => 9
  | PyStr s => 5 + N.of_nat (String.length s)
  | PyList l =>
      4 + (fix go (l : list pyval) : N :=
             match l with [] => 0 | x :: l' => object_size x + go l' end) l
  | PyDict d =>
      4 + (fix go (d : list (string * pyval)) : N :=
             match d with
             | [] => 0
             | (k, x) :: d' => 5 + N.of_nat (String.length k) + object_size x + go d'
             end) d
  end%N.

Definition runtime : PyRuntime :=
  {| sha256_hexdigest := fun s => "sha256:" +:+ s;
     md5_hexdigest := fun s => "md5:" +:+ s;
     pickle_len := fun _ v => object_size v;
     isoformat := fun _ => "2024-01-15T10:00:00";
     lower := lower_ascii |}.

(** *** Sample data for the cache *)

Definition no_stats : EmbeddingCache.stats :=
  {| EmbeddingCache.total_requests := 0; EmbeddingCache.cache_hits := 0;
     EmbeddingCache.cache_misses := 0; EmbeddingCache.cache_errors := 0;
     EmbeddingCache.total_savings_usd := 0; EmbeddingCache.cache_size_mb := 0 |}.

(** A cache as [EmbeddingCache("cache", ttl_hours=24, max_cache_size_mb=n)]
    leaves it, over the files [files]. *)
Definition cache_of (max_cache_size_mb : Z) (files : gmap string EmbeddingCache.file)
  : EmbeddingCache.cache :=
  {| EmbeddingCache.cache_dir := "cache"; EmbeddingCache.ttl_hours := 24;
     EmbeddingCache.max_cache_size_mb := max_cache_size_mb;
     EmbeddingCache.compression_enabled := true;
     EmbeddingCache._stats := no_stats; EmbeddingCache.disk := files |}.

Definition empty_cache : EmbeddingCache.cache := cache_of 500 ∅.


Definition io_ok : EmbeddingCache.io_env :=
  {| EmbeddingCache.mkdir_fails := false; EmbeddingCache.open_fails := false |}.

(** The directory of the entry cannot be made (read-only or full disk). *)
Definition io_no_mkdir : EmbeddingCache.io_env :=
  {| EmbeddingCache.mkdir_fails := true; EmbeddingCache.open_fails := false |}.

Definition vector : list pyval := [PyFloat 0.5; PyFloat (-0.25); PyInt 1].

(** 1 200 000 floats: more than 10 MB once pickled, at 9 bytes each. *)
Definition huge_vector : list pyval := repeat (PyFloat 0) (N.to_nat 1200000).

(** The entry file of ("hello", "m") holds bytes that are no pickle. *)
Definition undecodable_file : EmbeddingCache.file :=
  {| EmbeddingCache.st_mtime := 0; EmbeddingCache.st_size := 3;
     EmbeddingCache.data := EmbeddingCache.Garbage |}.

Definition undecodable_cache : EmbeddingCache.cache :=
  cache_of 500
    {[ EmbeddingCache.entry_path (H := runtime) empty_cache "hello" "m" := undecodable_file ]}.

(** Three entries of 400 000 bytes each, written at the instants 30, 10
    and 20, in a cache of 1 MB. *)
Definition old_file (mtime : Z) : EmbeddingCache.file :=
  {| EmbeddingCache.st_mtime := mtime; EmbeddingCache.st_size := 400000;
     EmbeddingCache.data := EmbeddingCache.Pickled PyNone |}.

Definition full_cache : EmbeddingCache.cache :=
  cache_of 1 {[ "cache/aa/a.pkl" := old_file 30; "cache/bb/b.pkl" := old_file 10;
                "cache/cc/c.pkl" := old_file 20 ]}.

(** *** Sample data for the embedding service *)

(** A provider that embeds a text as its length. *)
Definition vec (t : string) : list pyval := [PyInt (Z.of_nat (String.length t))].

Definition no_service_stats : OpenAIEmbeddingService.stats :=
  {| OpenAIEmbeddingService.total_requests := 0;
     OpenAIEmbeddingService.total_tokens_used := 0;
     OpenAIEmbeddingService.total_cost_usd := 0;
     OpenAIEmbeddingService.cache_hits := 0;
     OpenAIEmbeddingService.api_calls := 0;
     OpenAIEmbeddingService.errors := 0;
     OpenAIEmbeddingService.avg_latency_ms := 0 |}.

Definition service_of (c : option EmbeddingCache.cache)
  (create : list string -> string -> result OpenAIEmbeddingService.response)
  : OpenAIEmbeddingService.service :=
  {| OpenAIEmbeddingService.model := "text-embedding-3-large";
     OpenAIEmbeddingService.cost_per_1k_tokens := 0.00013;
     OpenAIEmbeddingService.cache := c;
     OpenAIEmbeddingService._stats := no_service_stats;
     OpenAIEmbeddingService.create := create |}.

(** The provider lists its vectors in the order of the request. *)
Definition service : OpenAIEmbeddingService.service :=
  service_of (Some empty_cache)
    (fun texts _ => Ok (OpenAIEmbeddingService.in_order_response vec texts 7)).

(** The same provider, for a service that has no cache. *)
Definition plain_service : OpenAIEmbeddingService.service :=
  service_of None
    (fun texts _ => Ok (OpenAIEmbeddingService.in_order_response vec texts 7)).

(** The provider lists its vectors last text first; each item still
    states the position of its text correctly. *)
Definition reversing_service : OpenAIEmbeddingService.service :=
  service_of (Some empty_cache)
    (fun texts _ =>
       Ok {| OpenAIEmbeddingService.data :=
               rev (OpenAIEmbeddingService.data
                      (OpenAIEmbeddingService.in_order_response vec texts 7));
             OpenAIEmbeddingService.total_tokens := 7 |}).

(** The provider cannot be reached. *)
Definition failing_service : OpenAIEmbeddingService.service :=
  service_of None (fun _ _ => Raise OSError).

(** The provider answers with the vector of the first text only. *)
Definition short_service : OpenAIEmbeddingService.service :=
  service_of None
    (fun texts _ =>
       Ok (OpenAIEmbeddingService.in_order_response vec (take 1 texts) 7)).

(** *** Sample data for the engine *)

(** An open call for tenders of a region, about 150 000 euros. *)
Definition context : ScorpiusRAGEngine.AOContext :=
  {| ScorpiusRAGEngine.ao_type := ScorpiusRAGEngine.OUVERT;
     ScorpiusRAGEngine.sector := ScorpiusRAGEngine.TERRITORIAL;
     ScorpiusRAGEngine.estimated_amount := Some 150000%Z;
     ScorpiusRAGEngine.technical_domains := [ScorpiusRAGEngine.DATA_IA];
     ScorpiusRAGEngine.organisme := Some "Région Bretagne" |}.

(** A document that matches [context] on the four counts. *)
Definition matching_metadata : list (string * pyval) :=
  [("secteur", PyStr "Territorial"); ("type_ao", PyStr "Ouvert");
   ("fourchette_montant", PyStr "100k-500k"); ("organisme", PyStr "Région Occitanie")].

Definition documents : list string := ["doc a"; "doc b"; "doc c"].

Definition metadatas : list (option (list (string * pyval))) :=
  [Some matching_metadata; None; Some [("secteur", PyStr "Hospitalier")]].

Definition distances : list Q := [0.2; 1.5; 0.7]%Q.

Definition neighbours : ScorpiusRAGEngine.raw_results :=
  {| ScorpiusRAGEngine.documents := Some [documents];
     ScorpiusRAGEngine.metadatas := Some [metadatas];
     ScorpiusRAGEngine.distances := Some [distances] |}.

(** Collaborators that answer: the collection exists and the query finds
    [neighbours]. *)
Definition env : ScorpiusRAGEngine.services :=
  {| ScorpiusRAGEngine.embedding_service_embed := fun _ => Ok (PyList vector);
     ScorpiusRAGEngine.embedding_service_get_performance_stats :=
       Ok [("cache_hit_rate", PyFloat 0.5); ("total_cost_usd", PyFloat 0.01)];
     ScorpiusRAGEngine.chroma_get_collection := fun _ => Ok tt;
     ScorpiusRAGEngine.chroma_create_collection := fun _ => Ok tt;
     ScorpiusRAGEngine.collection_query := fun _ _ _ _ => Ok neighbours;
     ScorpiusRAGEngine.search_duration_ms := 12 |}.

(** The engine as its constructor leaves it. *)
Definition new_engine : ScorpiusRAGEngine.engine :=
  {| ScorpiusRAGEngine._stats :=
       {| ScorpiusRAGEngine.total_searches := 0;
          ScorpiusRAGEngine.total_documents_added := 0;
          ScorpiusRAGEngine.total_embeddings_generated := 0;
          ScorpiusRAGEngine.cache_hit_rate := PyFloat 0;
          ScorpiusRAGEngine.avg_search_time_ms := 0;
          ScorpiusRAGEngine.total_cost_usd := PyFloat 0;
          ScorpiusRAGEngine.collections_created := 0 |};
     ScorpiusRAGEngine._collections := [];
     ScorpiusRAGEngine.calls := [] |}.

(** The configuration with the defaults of the dataclass, no key given. *)
Definition default_config : EmbeddingConfig.config :=
  {| EmbeddingConfig.api_key := None;
     EmbeddingConfig.model := "text-embedding-3-large";
     EmbeddingConfig.base_url := "https://api.openai.com/v1";
     EmbeddingConfig.timeout := 30;
     EmbeddingConfig.max_retries := 3;
     EmbeddingConfig.retry_delay := 1;
     EmbeddingConfig.batch_size := 100;
     EmbeddingConfig.rate_limit_rpm := 3000;
     EmbeddingConfig.cache_enabled := true;
     EmbeddingConfig.cache_ttl_hours := 24 |}.

(** Collaborators of [add_documents]: a collection that takes what it is
    given. *)
Definition ingest : ScorpiusRAGEngine.ingest :=
  {| ScorpiusRAGEngine.collection_add := fun _ _ _ _ => Ok tt;
     ScorpiusRAGEngine.embedding_service_estimate_cost := fun _ => 0.00013%Q;
     ScorpiusRAGEngine.timestamp_ms := 1705312800000%Z;
     ScorpiusRAGEngine.added_at := fun _ => "2024-01-15T10:00:00";
     ScorpiusRAGEngine.add_duration_ms := 40%Q |}.

(** A collection that refuses what it is given, with an exception of
    ChromaDB's own. *)
Definition refusing_ingest : ScorpiusRAGEngine.ingest :=
  {| ScorpiusRAGEngine.collection_add := fun _ _ _ _ => Raise ValueError;
     ScorpiusRAGEngine.embedding_service_estimate_cost := fun _ => 0.00013%Q;
     ScorpiusRAGEngine.timestamp_ms := 1705312800000%Z;
     ScorpiusRAGEngine.added_at := fun _ => "2024-01-15T10:00:00";
     ScorpiusRAGEngine.add_duration_ms := 40%Q |}.

End Sample.


(** * Theorems *)

(** ** The embedding cache *)

Section CacheFacts.
Import EmbeddingCache.
Context `{PyRuntime}.

Lemma eq_str_true v s : eq_str v s = true <-> v = PyStr s.
Proof.
  destruct v; simpl; try (split; [discriminate | intros [=]]).
  rewrite String.eqb_eq. split; [intros -> | intros [=]]; congruence.
Qed.

Lemma _validate_cache_data_total v text model :
  exists b, _validate_cache_data v text model = Ok b.
Proof.
  unfold _validate_cache_data, all_in, rbind.
  destruct v; simpl; eauto.
  - repeat (match goal with |- context [if ?c then _ else _] => destruct c end;
            simpl; eauto).
  - repeat (match goal with |- context [if ?c then _ else _] => destruct c end;
            simpl; eauto).
  - repeat (match goal with
            | |- context [match dict_get ?d ?k with _ => _ end] =>
                destruct (dict_get d k) as [[]|]
            | |- context [if ?c then _ else _] => destruct c
            | |- context [match ?l with [] => _ | _ => _ end] => destruct l
            end; simpl; eauto).
Qed.

Lemma _validate_cache_data_spec v text model :
  _validate_cache_data v text model = Ok true <-> valid_entry v text model.
Proof.
  split.
  - unfold _validate_cache_data, all_in, rbind, valid_entry.
    destruct v; simpl; try discriminate.
    + repeat (match goal with |- context [if ?c then _ else _] => destruct c end;
              simpl; try discriminate).
    + repeat (match goal with |- context [if ?c then _ else _] => destruct c end;
              simpl; try discriminate).
    + destruct (dict_get entries "text") as [vt|] eqn:Et; simpl; [|discriminate].
      destruct (dict_get entries "model") as [vm|] eqn:Em; simpl; [|discriminate].
      destruct (dict_get entries "embedding") as [ve|] eqn:Ee; simpl; [|discriminate].
      destruct (dict_get entries "text_hash") as [vh|] eqn:Eh; simpl; [|discriminate].
      destruct (eq_str vm model) eqn:Hm; simpl; [|discriminate].
      destruct (eq_str vh (md5_hexdigest text)) eqn:Hh; simpl; [|discriminate].
      apply eq_str_true in Hm, Hh. subst.
      destruct ve; simpl; try discriminate.
      destruct items as [|x items]; simpl; [discriminate|].
      destruct (is_number x && forallb is_number items) eqn:Hn; simpl; [|discriminate].
      intros _. exists entries, (x :: items). repeat split; eauto; discriminate.
  - intros (d & items & -> & [vt Ht] & Hm & Hh & He & Hne & Hnum).
    unfold _validate_cache_data, all_in, rbind. simpl.
    rewrite Ht, Hm, He, Hh. simpl.
    rewrite !String.eqb_refl. simpl.
    destruct items; [congruence|]. simpl in *. rewrite Hnum. reflexivity.
Qed.

End CacheFacts.

Section CacheGetSet.
Import EmbeddingCache.
Context `{PyRuntime}.

Ltac mred :=
  cbv beta iota delta [bind try_except modify gets ret raise lift unlink load mkdir dump];
  repeat (progress (cbv beta; cbn [fst snd disk with_stats with_disk cache_dir ttl_hours
                                    max_cache_size_mb compression_enabled])).

Lemma path_with_stats f self key :
  _get_cache_file_path (with_stats f self) key = _get_cache_file_path self key.
Proof. reflexivity. Qed.

Lemma valid_ltb now self f :
  (now <? st_mtime f + ttl_hours self * hour)%Z = true <-> fresh now self f.
Proof. unfold fresh. apply Z.ltb_lt. Qed.

(** The entry is missing, or its file is too old: a miss, disk untouched. *)
Lemma get_miss now text model self :
  _is_cache_entry_valid now (entry_path self text model) self = false ->
  get now text model self
  = (Ok None, with_stats incr_cache_misses (with_stats incr_total_requests self)).
Proof.
  intros Hv. unfold get, _is_cache_entry_valid, entry_path, _get_cache_file_path in *.
  mred. rewrite Hv. reflexivity.
Qed.

(** The file is fresh but cannot be read as a pickle: the error is counted
    and the file stays. *)
Lemma get_unreadable now text model self f :
  disk self !! entry_path self text model = Some f ->
  fresh now self f ->
  data f = Unreadable \/ data f = Garbage ->
  get now text model self
  = (Ok None, with_stats incr_cache_errors (with_stats incr_total_requests self)).
Proof.
  intros Hf Hfresh Hd. apply valid_ltb in Hfresh.
  unfold get, _is_cache_entry_valid, entry_path, _get_cache_file_path in *.
  destruct Hd as [Hd | Hd];
    repeat progress (mred; rewrite ?Hf, ?Hfresh, ?Hd; cbn [negb]); reflexivity.
Qed.

(** The file is fresh and read, and the validation says no: the file is
    deleted and a miss is counted. *)
Lemma get_invalid now text model self f v :
  disk self !! entry_path self text model = Some f ->
  fresh now self f ->
  data f = Pickled v ->
  _validate_cache_data v text model = Ok false ->
  get now text model self
  = (Ok None,
     with_stats incr_cache_misses
       (with_disk (delete (entry_path self text model))
          (with_stats incr_total_requests self))).
Proof.
  intros Hf Hfresh Hd Hv. apply valid_ltb in Hfresh.
  unfold get, _is_cache_entry_valid, entry_path, _get_cache_file_path in *.
  repeat progress (mred; rewrite ?Hf, ?Hfresh, ?Hd, ?Hv; cbn [negb]). reflexivity.
Qed.

(** The file is fresh, read and valid: its vector is returned. *)
Lemma get_hit now text model self e :
  usable now self text model e ->
  exists self',
    get now text model self = (Ok (Some e), self') /\ disk self' = disk self.
Proof.
  intros (f & v & Hf & Hfresh & Hd & Hv & He). apply valid_ltb in Hfresh.
  apply _validate_cache_data_spec in Hv.
  unfold get, _is_cache_entry_valid, entry_path, _get_cache_file_path in *.
  repeat progress (mred; rewrite ?Hf, ?Hfresh, ?Hd, ?Hv, ?He; cbn [negb]).
  eexists. split; reflexivity.
Qed.


Lemma valid_entry_embedding v text model :
  valid_entry v text model -> exists items, getitem v "embedding" = Ok (PyList items).
Proof.
  intros (d & items & -> & _ & _ & _ & He & _). exists items. simpl. by rewrite He.
Qed.


(** *** [set] *)

Lemma oversized_gtb embedding :
  (Z.of_N (pickle_len DEFAULT_PROTOCOL (PyList embedding)) >? size_limit)%Z = true
  <-> oversized embedding.
Proof. unfold oversized. rewrite Z.gtb_lt. lia. Qed.

Lemma not_oversized_gtb embedding :
  (Z.of_N (pickle_len DEFAULT_PROTOCOL (PyList embedding)) >? size_limit)%Z = false
  <-> ~ oversized embedding.
Proof. rewrite <- oversized_gtb. by destruct (_ >? _)%Z. Qed.

(** The capacity check never raises. *)
Lemma _cleanup_if_needed_returns self :
  exists self', _cleanup_if_needed self = (Ok tt, self').
Proof.
  unfold _cleanup_if_needed, _cleanup_oldest_entries. mred.
  destruct (negb _); mred; eauto.
Qed.

(** Within the budget it only records the size. *)
Lemma _cleanup_if_needed_within self :
  Qle_bool (_get_cache_size_mb self) (inject_Z (max_cache_size_mb self)) = true ->
  _cleanup_if_needed self
  = (Ok tt, with_stats (set_cache_size_mb (_get_cache_size_mb self)) self).
Proof.
  intros Hle. unfold _cleanup_if_needed. mred. rewrite Hle. reflexivity.
Qed.

(** Over the budget it evicts down to 80% of the maximum. *)
Lemma _cleanup_if_needed_over self :
  Qle_bool (_get_cache_size_mb self) (inject_Z (max_cache_size_mb self)) = false ->
  _cleanup_if_needed self
  = _cleanup_oldest_entries (inject_Z (max_cache_size_mb self) * 0.8)%Q
      (with_stats (set_cache_size_mb (_get_cache_size_mb self)) self).
Proof.
  intros Hle. unfold _cleanup_if_needed, _cleanup_oldest_entries. mred.
  rewrite Hle. reflexivity.
Qed.

(** The directory cannot be made: the error is counted and swallowed. *)
Lemma set_mkdir_fails io now text model embedding self :
  mkdir_fails io = true ->
  set io now text model embedding self = (Ok tt, with_stats incr_cache_errors self).
Proof. intros Hm. unfold set. mred. rewrite Hm. reflexivity. Qed.

(** The directory is there and the pickled embedding is too large: the
    capacity error is counted and raised again. *)
Lemma set_oversized io now text model embedding self :
  mkdir_fails io = false ->
  oversized embedding ->
  set io now text model embedding self
  = (Raise (CacheError "CACHE_SIZE_LIMIT_EXCEEDED" (_get_cache_key text model)
              [("data_size", PyInt (Z.of_N (pickle_len DEFAULT_PROTOCOL (PyList embedding))));
               ("max_size", PyInt size_limit)]),
     with_stats incr_cache_errors self).
Proof.
  intros Hm Hbig%oversized_gtb. unfold set. mred. rewrite Hm. mred. rewrite Hbig.
  reflexivity.
Qed.

(** The file cannot be opened for writing: counted and swallowed. *)
Lemma set_open_fails io now text model embedding self :
  mkdir_fails io = false ->
  ~ oversized embedding ->
  open_fails io = true ->
  set io now text model embedding self = (Ok tt, with_stats incr_cache_errors self).
Proof.
  intros Hm Hsmall%not_oversized_gtb Ho. unfold set. mred. rewrite Hm. mred.
  rewrite Hsmall. mred. rewrite Ho. reflexivity.
Qed.

(** Nothing fails: the file is written and the capacity check runs. *)
Lemma set_written io now text model embedding self :
  mkdir_fails io = false ->
  ~ oversized embedding ->
  open_fails io = false ->
  set io now text model embedding self
  = _cleanup_if_needed
      (with_disk (insert (entry_path self text model)
                         (file_of self now text model embedding)) self).
Proof.
  intros Hm Hsmall%not_oversized_gtb Ho. unfold set. mred. rewrite Hm. mred.
  rewrite Hsmall. mred. rewrite Ho. mred.
  fold (cache_data_of now text model embedding).
  change (_get_cache_file_path self (_get_cache_key text model))
    with (entry_path self text model).
  match goal with
  | |- context [insert _ ?f] => change f with (file_of self now text model embedding)
  end.
  destruct (_cleanup_if_needed_returns
              (with_disk (insert (entry_path self text model)
                                 (file_of self now text model embedding)) self))
    as [self' ->].
  reflexivity.
Qed.

(** C3, as amended.  [set] raises exactly when the shard directory could
    be made and the pickled embedding exceeds the ceiling of one entry --
    a failure to make the directory comes first and is swallowed like any
    other, oversized embedding or not.  What it raises is the capacity
    error and nothing else; in every other case, the file written or not,
    it returns normally. *)
Theorem set_raises_only_the_capacity_error io now text model embedding self :
  exists r self',
    set io now text model embedding self = (r, self')
    /\ (mkdir_fails io = false /\ oversized embedding ->
        r = Raise (CacheError "CACHE_SIZE_LIMIT_EXCEEDED" (_get_cache_key text model)
                     [("data_size",
                       PyInt (Z.of_N (pickle_len DEFAULT_PROTOCOL (PyList embedding))));
                      ("max_size", PyInt size_limit)]))
    /\ (~ (mkdir_fails io = false /\ oversized embedding) -> r = Ok tt).
Proof.
  destruct (mkdir_fails io) eqn:Hm.
  { eexists _, _. split; [by apply set_mkdir_fails|]. split; [intros [? _]|]; done. }
  destruct (Z.of_N (pickle_len DEFAULT_PROTOCOL (PyList embedding)) >? size_limit)%Z
    eqn:Hbig.
  { apply oversized_gtb in Hbig.
    eexists _, _. split; [by apply set_oversized|]. split; [done|]. intros []. done. }
  apply not_oversized_gtb in Hbig.
  destruct (open_fails io) eqn:Ho.
  { eexists _, _. split; [by apply set_open_fails|]. split; [intros [_ ?]|]; done. }
  rewrite set_written by done.
  destruct (_cleanup_if_needed_returns
              (with_disk (insert (entry_path self text model)
                                 (file_of self now text model embedding)) self))
    as [self' ->].
  eexists _, _. split; [done|]. split; [intros [_ ?]|]; done.
Qed.

(** *** [set] followed by [get] *)

Lemma entry_path_key self text1 text2 model :
  join " " (split text1) = join " " (split text2) ->
  entry_path self text2 model = entry_path self text1 model.
Proof. unfold entry_path, _get_cache_key. by intros ->. Qed.

(** A write that succeeds and leaves the cache within its maximum size:
    the file is in place and nothing else has changed on disk. *)
Lemma set_stores io now text model embedding self :
  mkdir_fails io = false ->
  open_fails io = false ->
  ~ oversized embedding ->
  (size_after_write self now text model embedding
   <= inject_Z (max_cache_size_mb self))%Q ->
  exists s1,
    set io now text model embedding self = (Ok tt, s1)
    /\ disk s1 = <[entry_path self text model := file_of self now text model embedding]>
                   (disk self)
    /\ cache_dir s1 = cache_dir self
    /\ ttl_hours s1 = ttl_hours self.
Proof.
  intros Hm Ho Hsmall Hsize.
  rewrite set_written by done.
  rewrite _cleanup_if_needed_within.
  - eexists. split; [reflexivity|]. by repeat split.
  - apply Qle_bool_iff. exact Hsize.
Qed.


Lemma cache_data_of_other_text now text1 text2 model embedding :
  md5_hexdigest text1 <> md5_hexdigest text2 ->
  _validate_cache_data (cache_data_of now text1 model embedding) text2 model = Ok false.
Proof.
  intros Hmd5. unfold _validate_cache_data, cache_data_of. cbn.
  rewrite String.eqb_refl. cbn.
  apply String.eqb_neq in Hmd5. by rewrite Hmd5.
Qed.


(** C10.  Two texts that differ only by their white space share a cache
    key; once the first is stored, a [get] of the second before the time to
    live has elapsed finds the entry of the first, rejects it because the
    stored hash is that of the first text, returns nothing and deletes the
    entry.  The two texts are told apart by their MD5 digests. *)
Theorem whitespace_collision io t0 t1 text1 text2 model embedding self :
  join " " (split text1) = join " " (split text2) ->
  md5_hexdigest text1 <> md5_hexdigest text2 ->
  mkdir_fails io = false ->
  open_fails io = false ->
  ~ oversized embedding ->
  (size_after_write self t0 text1 model embedding
   <= inject_Z (max_cache_size_mb self))%Q ->
  (t1 < t0 + ttl_hours self * hour)%Z ->
  _get_cache_key text2 model = _get_cache_key text1 model
  /\ exists s1 s2,
       set io t0 text1 model embedding self = (Ok tt, s1)
       /\ disk s1 !! entry_path self text1 model
          = Some (file_of self t0 text1 model embedding)
       /\ get t1 text2 model s1 = (Ok None, s2)
       /\ disk s2 !! entry_path self text1 model = None.
Proof.
  intros Hnorm Hmd5 Hm Ho Hsmall Hsize Httl.
  split; [unfold _get_cache_key; by rewrite Hnorm|].
  destruct (set_stores io t0 text1 model embedding self) as (s1 & Hset & Hdisk & Hdir & Hh);
    try done.
  assert (entry_path s1 text2 model = entry_path self text1 model) as Hpath.
  { rewrite (entry_path_key s1 text1 text2 model Hnorm).
    unfold entry_path, _get_cache_file_path. by rewrite Hdir. }
  assert (disk s1 !! entry_path self text1 model
          = Some (file_of self t0 text1 model embedding)) as Hfile
    by (by rewrite Hdisk, lookup_insert_eq).
  eexists s1, _. split; [done|]. split; [done|]. split.
  - eapply (get_invalid t1 text2 model s1).
    + rewrite Hpath. exact Hfile.
    + unfold fresh. rewrite Hh. exact Httl.
    + reflexivity.
    + by apply cache_data_of_other_text.
  - cbn. rewrite Hpath. apply lookup_delete_eq.
Qed.

End CacheGetSet.

(** *** The capacity check *)

Section CacheEviction.
Import EmbeddingCache.
Context `{PyRuntime}.

Lemma insert_by_mtime_perm x l : Permutation (insert_by_mtime x l) (x :: l).
Proof.
  induction l as [|y l IH]; simpl; [done|].
  destruct (_ <=? _)%Z; [done|].
  rewrite IH. apply perm_swap.
Qed.

Lemma sort_by_mtime_perm l : Permutation (sort_by_mtime l) l.
Proof.
  induction l as [|x l IH]; simpl; [done|].
  rewrite insert_by_mtime_perm. by constructor.
Qed.

Lemma insert_by_mtime_sorted x l :
  StronglySorted (fun a b => (a.1.2 <= b.1.2)%Z) l ->
  StronglySorted (fun a b => (a.1.2 <= b.1.2)%Z) (insert_by_mtime x l).
Proof.
  induction 1 as [|y l Hs IH Hy]; simpl.
  - repeat constructor.
  - destruct (x.1.2 <=? y.1.2)%Z eqn:Hle.
    + apply Z.leb_le in Hle. constructor; [by constructor|].
      constructor; [done|]. eapply Forall_impl; [exact Hy|]. simpl. intros; lia.
    + apply Z.leb_gt in Hle. constructor; [done|].
      rewrite insert_by_mtime_perm. constructor; [lia|done].
Qed.

Lemma sort_by_mtime_sorted l :
  StronglySorted (fun a b => (a.1.2 <= b.1.2)%Z) (sort_by_mtime l).
Proof.
  induction l; simpl; [constructor|]. by apply insert_by_mtime_sorted.
Qed.

Lemma sorted_app_le (l1 l2 : list (string * Z * N)) :
  StronglySorted (fun a b => (a.1.2 <= b.1.2)%Z) (l1 ++ l2) ->
  forall d k, d ∈ l1 -> k ∈ l2 -> (d.1.2 <= k.1.2)%Z.
Proof.
  induction l1 as [|x l1 IH]; simpl; intros Hs d k Hd Hk.
  - by apply elem_of_nil in Hd.
  - apply StronglySorted_inv in Hs as [Hs Hx].
    apply elem_of_cons in Hd as [->|Hd]; [|by eapply IH].
    rewrite Forall_forall in Hx. apply Hx. apply elem_of_app. by right.
Qed.

Lemma bytes_perm l l' : Permutation l l' -> bytes l = bytes l'.
Proof. induction 1; simpl; lia. Qed.

Lemma bytes_app l l' : bytes (l ++ l') = (bytes l + bytes l')%N.
Proof. induction l; simpl; lia. Qed.

Lemma bytes_cache_files self : bytes (cache_files self) = total_size (rglob self).
Proof.
  unfold cache_files. induction (rglob self) as [|pf l IH]; simpl; [done|].
  by rewrite IH.
Qed.

Lemma mb_add a b : (mb (a + b) == mb a + mb b)%Q.
Proof. unfold mb. rewrite N2Z.inj_add, inject_Z_plus. field. Qed.

Lemma mb_0 : (mb 0 == 0)%Q.
Proof. reflexivity. Qed.

(** The deleting loop, on the list alone: it deletes a prefix, stops at
    the first moment the size is within the target, and not before. *)
Lemma evict_spec files target cur n self :
  (cur == mb (bytes files))%Q ->
  exists deleted kept,
    files = (deleted ++ kept)%list
    /\ (evict files target cur n self).1.1
       = foldl (fun s p => with_disk (delete p) s) self (paths deleted)
    /\ (kept = [] \/ (mb (bytes kept) <= target)%Q)
    /\ (forall d1 x d2, deleted = (d1 ++ x :: d2)%list ->
          ~ (mb (bytes (x :: d2 ++ kept)) <= target)%Q).
Proof.
  revert cur n self. induction files as [|[[p m] sz] files IH]; intros cur n self Hcur.
  - exists [], []. repeat split; auto. intros [] ? ? [=].
  - simpl evict. destruct (Qle_bool cur target) eqn:Hle.
    + exists [], ((p, m, sz) :: files). repeat split; auto.
      * right. apply Qle_bool_iff in Hle. by rewrite <- Hcur.
      * intros [] ? ? [=].
    + destruct (IH (cur - mb sz)%Q (n + 1)%Z (with_disk (delete p) self))
        as (deleted & kept & -> & Hst & Hend & Hmin).
      { rewrite Hcur. simpl bytes. rewrite mb_add. ring. }
      exists ((p, m, sz) :: deleted), kept. repeat split; auto.
      intros [|y d1] x d2; simpl; intros [=]; subst.
      * intros Hle'. rewrite <- Hcur in Hle'. apply Qle_bool_iff in Hle'. congruence.
      * by eapply Hmin.
Qed.

Lemma disk_foldl_delete ps self :
  disk (foldl (fun s p => with_disk (delete p) s) self ps)
  = foldl (fun d p => delete p d) (disk self) ps.
Proof. revert self. induction ps; simpl; intros; [done|]. by rewrite IHps. Qed.

Lemma lookup_foldl_delete (ps : list string) (d : gmap string file) p :
  foldl (fun d p => delete p d) d ps !! p
  = if decide (p ∈ ps) then None else d !! p.
Proof.
  revert d. induction ps as [|q ps IH]; cbn [foldl]; intros d.
  - by rewrite decide_False by apply not_elem_of_nil.
  - rewrite IH. destruct (decide (p ∈ ps)) as [Hin|Hin].
    + by rewrite decide_True by (by right).
    + destruct (decide (p = q)) as [->|Hne].
      * rewrite decide_True by left. apply lookup_delete_eq.
      * rewrite decide_False by (by intros [?|?]%elem_of_cons).
        by apply lookup_delete_ne.
Qed.

Lemma total_size_perm l l' : Permutation l l' -> total_size l = total_size l'.
Proof. induction 1; simpl; lia. Qed.

Lemma bytes_triples (l : list (string * file)) :
  bytes (map (fun pf : string * file => (pf.1, st_mtime pf.2, st_size pf.2)) l)
  = total_size l.
Proof. induction l; simpl; [done|]. by rewrite IHl. Qed.

(** What is left on disk after the deletions weighs what the kept files
    weigh. *)
Lemma total_size_after_deletions deleted kept (d : gmap string file) :
  Permutation (deleted ++ kept)
    (map (fun pf : string * file => (pf.1, st_mtime pf.2, st_size pf.2)) (map_to_list d)) ->
  total_size (map_to_list (foldl (fun d p => delete p d) d (paths deleted))) = bytes kept.
Proof.
  revert d. induction deleted as [|[[p m] sz] deleted IH]; simpl; intros d Hperm.
  - rewrite (bytes_perm _ _ Hperm). by rewrite bytes_triples.
  - assert ((p, m, sz) ∈ map (fun pf : string * file => (pf.1, st_mtime pf.2, st_size pf.2))
                            (map_to_list d)) as Hin
      by (rewrite <- Hperm; left).
    apply (list_elem_of_fmap (A := string * file)) in Hin as ([p' f] & [= -> -> ->] & Hin).
    apply elem_of_map_to_list in Hin.
    apply IH.
    apply (Permutation_cons_inv (a := (p', st_mtime f, st_size f))).
    rewrite Hperm. rewrite <- (map_to_list_delete d p' f Hin). done.
Qed.

(** C4.  When the cache is larger than its maximum size, the capacity
    check deletes files in the order of their modification times, oldest
    first, and stops as soon as what is left weighs at most 80% of the
    maximum, not before: the files deleted are a prefix of the files sorted
    by modification time, every file kept is at least as recent as every
    file deleted, the cache ends within the target, and before each
    deletion it was still above it.  The modification time of an entry is
    the instant of the [set] that wrote it.  The maximum size is not
    negative. *)
Theorem capacity_eviction self :
  (0 <= max_cache_size_mb self)%Z ->
  (inject_Z (max_cache_size_mb self) < _get_cache_size_mb self)%Q ->
  exists self' deleted kept,
    _cleanup_if_needed self = (Ok tt, self')
    /\ sort_by_mtime (cache_files self) = (deleted ++ kept)%list
    /\ (forall p, disk self' !! p
                  = if decide (p ∈ paths deleted) then None else disk self !! p)
    /\ (_get_cache_size_mb self' <= inject_Z (max_cache_size_mb self) * 0.8)%Q
    /\ (forall d k, d ∈ deleted -> k ∈ kept -> (d.1.2 <= k.1.2)%Z)
    /\ (forall d1 x d2, deleted = (d1 ++ x :: d2)%list ->
          ~ (mb (bytes (x :: d2 ++ kept)) <= inject_Z (max_cache_size_mb self) * 0.8)%Q).
Proof.
  intros Hmax Hover.
  assert (Qle_bool (_get_cache_size_mb self) (inject_Z (max_cache_size_mb self)) = false)
    as Hb.
  { destruct (Qle_bool _ _) eqn:E; [|done]. apply Qle_bool_iff in E.
    by apply Qlt_not_le in Hover. }
  rewrite (_cleanup_if_needed_over self Hb).
  unfold _cleanup_oldest_entries.
  set (self1 := with_stats _ self).
  change (rglob self1) with (rglob self).
  fold (cache_files self).
  set (target := (inject_Z (max_cache_size_mb self) * 0.8)%Q).
  destruct (evict_spec (sort_by_mtime (cache_files self)) target
              (mb (bytes (sort_by_mtime (cache_files self)))) 0 self1)
    as (deleted & kept & Hsplit & Hst & Hend & Hmin); [reflexivity|].
  set (self' := (evict (sort_by_mtime (cache_files self)) target
                   (mb (bytes (sort_by_mtime (cache_files self)))) 0 self1).1.1) in *.
  exists self', deleted, kept. split; [reflexivity|].
  split; [done|].
  assert (disk self' = foldl (fun d p => delete p d) (disk self) (paths deleted)) as Hdisk
    by (rewrite Hst; apply (disk_foldl_delete (paths deleted) self1)).
  assert (Permutation (deleted ++ kept) (cache_files self)) as Hperm
    by (rewrite <- Hsplit; apply sort_by_mtime_perm).
  split; [|split; [|split]].
  - intros p. rewrite Hdisk. apply lookup_foldl_delete.
  - unfold _get_cache_size_mb, rglob. rewrite Hdisk.
    rewrite (total_size_after_deletions deleted kept) by exact Hperm.
    destruct Hend as [-> | Hle]; [|done].
    unfold target. rewrite mb_0.
    apply Qmult_le_0_compat; [|done].
    change 0%Q with (inject_Z 0). by rewrite <- Zle_Qle.
  - apply sorted_app_le. rewrite <- Hsplit. apply sort_by_mtime_sorted.
  - exact Hmin.
Qed.

End CacheEviction.

(** *** The cache on sample data *)

Section CacheExamples.
Import EmbeddingCache.
#[local] Existing Instance Sample.runtime.



Lemma whitespace_collision_witness :
  _get_cache_key "hello world" "m" = _get_cache_key "hello  world" "m"
  /\ exists s1 s2,
       set Sample.io_ok 0 "hello  world" "m" Sample.vector Sample.empty_cache = (Ok tt, s1)
       /\ disk s1 !! entry_path Sample.empty_cache "hello  world" "m"
          = Some (file_of Sample.empty_cache 0 "hello  world" "m" Sample.vector)
       /\ get 5 "hello world" "m" s1 = (Ok None, s2)
       /\ disk s2 !! entry_path Sample.empty_cache "hello  world" "m" = None.
Proof.
  apply (whitespace_collision Sample.io_ok 0 5 "hello  world" "hello world" "m"
           Sample.vector Sample.empty_cache).
  - reflexivity.
  - discriminate.
  - reflexivity.
  - reflexivity.
  - unfold oversized. vm_compute. discriminate.
  - apply Qle_bool_iff. vm_compute. reflexivity.
  - vm_compute. reflexivity.
Defined.

Lemma object_size_floats n :
  Sample.object_size (PyList (repeat (PyFloat 0) n)) = (4 + 9 * N.of_nat n)%N.
Proof.
  induction n as [|n IH]; [reflexivity|].
  rewrite Nat2N.inj_succ. cbn [repeat]. cbn [Sample.object_size] in *. lia.
Qed.

Lemma huge_vector_oversized : oversized Sample.huge_vector.
Proof.
  unfold oversized, Sample.huge_vector. cbn [pickle_len Sample.runtime].
  rewrite object_size_floats, N2Nat.id. reflexivity.
Qed.

(** The directory of the entry cannot be made and the vector is larger
    than the ceiling of one entry: [set] returns normally. *)
Lemma set_absorbs_an_oversized_vector :
  oversized Sample.huge_vector
  /\ (set Sample.io_no_mkdir 0 "hello" "m" Sample.huge_vector Sample.empty_cache).1
     = Ok tt.
Proof.
  split; [exact huge_vector_oversized|].
  by rewrite set_mkdir_fails.
Qed.

Lemma capacity_eviction_witness :
  exists self' deleted kept,
    _cleanup_if_needed Sample.full_cache = (Ok tt, self')
    /\ sort_by_mtime (cache_files Sample.full_cache) = (deleted ++ kept)%list
    /\ (forall p, disk self' !! p
                  = if decide (p ∈ paths deleted) then None
                    else disk Sample.full_cache !! p)
    /\ (_get_cache_size_mb self' <= inject_Z 1 * 0.8)%Q
    /\ (forall d k, d ∈ deleted -> k ∈ kept -> (d.1.2 <= k.1.2)%Z)
    /\ (forall d1 x d2, deleted = (d1 ++ x :: d2)%list ->
          ~ (mb (bytes (x :: d2 ++ kept)) <= inject_Z 1 * 0.8)%Q).
Proof.
  apply (capacity_eviction Sample.full_cache).
  - vm_compute. discriminate.
  - vm_compute. reflexivity.
Defined.

(** In the cache of the witness the oldest of the three files goes and
    the two more recent ones stay. *)
Example capacity_eviction_deletes_the_oldest :
  let self' := (_cleanup_if_needed Sample.full_cache).2 in
  disk self' !! "cache/bb/b.pkl" = None
  /\ disk self' !! "cache/cc/c.pkl" = Some (Sample.old_file 20)
  /\ disk self' !! "cache/aa/a.pkl" = Some (Sample.old_file 30).
Proof. repeat split; vm_compute; reflexivity. Qed.

End CacheExamples.

(** ** The search engine *)

Section Relevance.
Import ScorpiusRAGEngine.
Context `{PyRuntime}.

Lemma py_min_Qmin a b : (py_min a b == Qmin a b)%Q.
Proof.
  unfold py_min. destruct (Qlt_le_dec b a) as [Hlt|Hle].
  - symmetry. apply Q.min_r. by apply Qlt_le_weak.
  - symmetry. by apply Q.min_l.
Qed.

Lemma py_max_Qmax a b : (py_max a b == Qmax a b)%Q.
Proof.
  unfold py_max. destruct (Qlt_le_dec a b) as [Hlt|Hle].
  - symmetry. apply Q.max_r. by apply Qlt_le_weak.
  - symmetry. by apply Q.max_l.
Qed.

Lemma get_amount_range_nonempty context : get_amount_range context <> "".
Proof.
  unfold get_amount_range. destruct (estimated_amount context); [|done].
  repeat (destruct (_ <? _)%Z; [done|]). done.
Qed.

Lemma eq_str_truthy v s : s <> "" -> eq_str v s = true -> truthy v = true.
Proof.
  intros Hs [= ->]%eq_str_true. simpl. by apply negb_true_iff, String.eqb_neq.
Qed.

Lemma org_type_bonus_spec types context_org meta_org b :
  (org_type_bonus types context_org meta_org b
   == b + bonus (existsb (fun org_type => str_contains org_type context_org
                                          && str_contains org_type meta_org) types) 0.05)%Q.
Proof.
  induction types as [|t types IH]; simpl.
  - unfold bonus. ring.
  - destruct (str_contains t context_org && str_contains t meta_org); simpl.
    + reflexivity.
    + exact IH.
Qed.

(** The score is computed whenever the institution of the document is a
    string, and is the clamped sum. *)
Lemma _calculate_contextual_relevance_spec metadata context base :
  organisme_is_text metadata ->
  exists score,
    _calculate_contextual_relevance metadata (Some context) base = Ok score
    /\ (score == Qmin 1 (base + sum_of_bonuses metadata context))%Q.
Proof.
  intros Htext. unfold _calculate_contextual_relevance, sum_of_bonuses.
  unfold sector_matches, ao_type_matches, amount_range_matches, institution_class_matches.
  set (b1 := eq_str (md_get metadata "secteur") _).
  set (b2 := eq_str (md_get metadata "type_ao") _).
  set (b3 := eq_str (md_get metadata "fourchette_montant") _).
  assert (b3 = true -> truthy (md_get metadata "fourchette_montant") = true) as Hb3
    by apply eq_str_truthy, get_amount_range_nonempty.
  set (before := if amount_given context && truthy (md_get metadata "fourchette_montant")
                 then _ else _).
  assert (before == bonus b1 0.1 + bonus b2 0.1 + bonus (amount_given context && b3) 0.08)%Q
    as Hbefore.
  { subst before. destruct b1, b2, (amount_given context), b3;
      try rewrite (Hb3 eq_refl);
      try destruct (truthy (md_get metadata "fourchette_montant"));
      cbn [andb bonus]; ring. }
  clearbody before b1 b2 b3. clear Hb3.
  unfold organisme_given, md_get.
  destruct (organisme context) as [context_org|]; cbn [andb rbind].
  2:{ eexists. split; [reflexivity|]. rewrite py_min_Qmin.
      apply Q.min_compat; [reflexivity|]. rewrite Hbefore. cbn [bonus]. ring. }
  destruct (dict_get metadata "organisme") as [v|] eqn:Hv; cbn [default].
  2:{ rewrite andb_false_r. cbn [rbind]. eexists. split; [reflexivity|].
      rewrite py_min_Qmin. apply Q.min_compat; [reflexivity|].
      rewrite Hbefore. cbn [bonus]. ring. }
  destruct (Htext v Hv) as [meta_org ->]. unfold id. cbn [truthy lower_of].
  generalize org_types. intros types.
  destruct (negb (String.eqb context_org "")), (negb (String.eqb meta_org ""));
    cbn [andb rbind]; (eexists; split; [reflexivity|]);
    rewrite py_min_Qmin; (apply Q.min_compat; [reflexivity|]);
    rewrite ?org_type_bonus_spec, Hbefore; cbn [bonus]; ring.
Qed.

Lemma sum_of_bonuses_nonneg metadata context : (0 <= sum_of_bonuses metadata context)%Q.
Proof.
  unfold sum_of_bonuses.
  destruct (sector_matches _ _), (ao_type_matches _ _), (amount_range_matches _ _),
    (institution_class_matches _ _); cbn [bonus]; by vm_compute.
Qed.

(** The relevance score is computed and lies between the similarity it
    starts from and 1. *)
Lemma relevance_bounds metadata context base :
  organisme_is_text metadata ->
  (base <= 1)%Q ->
  exists score,
    _calculate_contextual_relevance metadata context base = Ok score
    /\ (base <= score)%Q /\ (score <= 1)%Q.
Proof.
  intros Htext Hbase. destruct context as [context|].
  - destruct (_calculate_contextual_relevance_spec metadata context base Htext)
      as (score & Hscore & Heq).
    exists score. split; [done|]. rewrite Heq. split.
    + apply Q.min_glb; [done|].
      pose proof (sum_of_bonuses_nonneg metadata context) as Hb.
      rewrite <- (Qplus_0_r base) at 1. by apply Qplus_le_r.
    + apply Q.le_min_l.
  - exists base. split; [reflexivity|]. split; [apply Qle_refl|done].
Qed.


End Relevance.

Section ScoreAndFilter.
Import ScorpiusRAGEngine.
Context `{PyRuntime}.

Lemma similarity_nonneg d : (0 <= similarity_of_distance d)%Q.
Proof.
  unfold similarity_of_distance, py_max.
  destruct (Qlt_le_dec 0 (1 - d)); [by apply Qlt_le_weak | apply Qle_refl].
Qed.

Lemma similarity_le_1 d : (0 <= d)%Q -> (similarity_of_distance d <= 1)%Q.
Proof.
  intros Hd. unfold similarity_of_distance, py_max.
  destruct (Qlt_le_dec 0 (1 - d)); lra.
Qed.



Lemma Qltb_false a b : Qltb a b = false <-> (b <= a)%Q.
Proof. unfold Qltb. rewrite negb_false_iff. apply Qle_bool_iff. Qed.

Lemma outside_unit_false x : (0 <= x)%Q -> (x <= 1)%Q -> outside_unit x = false.
Proof.
  intros H0 H1. unfold outside_unit.
  apply Qle_bool_iff in H0, H1. by rewrite H0, H1.
Qed.

Lemma insert_by_key_perm r l : Permutation (insert_by_key r l) (r :: l).
Proof.
  induction l as [|r' l IH]; simpl; [done|].
  destruct (Qle_bool _ _); [done|]. rewrite IH. apply perm_swap.
Qed.

Lemma sort_by_relevance_perm l : Permutation (sort_by_relevance l) l.
Proof.
  induction l as [|r l IH]; simpl; [done|].
  rewrite insert_by_key_perm. by constructor.
Qed.

Lemma slice_to_Forall {A} (P : A -> Prop) n l : Forall P l -> Forall P (slice_to n l).
Proof. intros Hl. unfold slice_to. destruct (0 <=? n)%Z; by apply Forall_take. Qed.

(** The loop over the neighbours from the position [k] on. *)
Lemma process_neighbors_spec raw docs mds dists collection floor context :
  first_row (documents raw) = Ok docs ->
  first_row (metadatas raw) = Ok mds ->
  first_row (distances raw) = Ok dists ->
  length mds = length docs ->
  length dists = length docs ->
  Forall (fun d => 0 <= d)%Q dists ->
  Forall (fun md => organisme_is_text (default [] md)) mds ->
  forall n k acc,
    (k + n = length docs)%nat ->
    exists new,
      process_neighbors (seq k n) raw collection floor context acc = Ok (acc ++ new)%list
      /\ Forall2 result_of_row new
           (List.filter (reaches floor) (drop k (rows docs mds dists))).
Proof.
  intros Hdocs Hmds Hdists Hlm Hld Hpos Htext.
  induction n as [|n IH]; intros k acc Hk.
  - exists []. split; [by rewrite app_nil_r|].
    rewrite drop_ge; [constructor|].
    unfold rows. rewrite !length_zip_with. lia.
  - destruct (lookup_lt_is_Some_2 docs k) as [doc Hdoc]; [lia|].
    destruct (lookup_lt_is_Some_2 mds k) as [md Hmd]; [lia|].
    destruct (lookup_lt_is_Some_2 dists k) as [d Hd]; [lia|].
    assert (rows docs mds dists !! k = Some (doc, (md, d))) as Hrow.
    { unfold rows. apply lookup_zip_with_Some. exists doc, (md, d).
      repeat split; [done|]. apply lookup_zip_with_Some. by exists md, d. }
    rewrite (drop_S _ _ _ Hrow). cbn [List.filter seq process_neighbors].
    unfold list_get.
    rewrite Hdocs; cbn [rbind]; rewrite Hdoc; cbn [rbind].
    rewrite Hmds; cbn [rbind]; rewrite Hmd; cbn [rbind].
    rewrite Hdists; cbn [rbind]; rewrite Hd; cbn [rbind].
    unfold reaches. cbn [fst snd].
    assert (match md with Some (kv :: more) => kv :: more | _ => [] end = default [] md)
      as -> by (by destruct md as [[|]|]).
    destruct (Qltb (similarity_of_distance d) floor) eqn:Hlow; cbn [negb].
    + apply IH. lia.
    + assert (0 <= d)%Q as Hd0
        by (rewrite Forall_forall in Hpos; apply Hpos; by eapply list_elem_of_lookup_2).
      assert (organisme_is_text (default [] md)) as Hmdt
        by (rewrite Forall_forall in Htext; apply (Htext md); by eapply list_elem_of_lookup_2).
      destruct (relevance_bounds (default [] md) context (similarity_of_distance d) Hmdt
                  (similarity_le_1 d Hd0)) as (score & -> & Hlo & Hhi).
      cbn [rbind]. unfold new_SearchResult.
      rewrite (outside_unit_false (similarity_of_distance d))
        by (apply similarity_nonneg || by apply similarity_le_1).
      rewrite (outside_unit_false score)
        by (done || (eapply Qle_trans; [apply (similarity_nonneg d)|done])).
      cbn [rbind].
      match goal with
      | |- context [process_neighbors _ _ _ _ _ (acc ++ [?r])%list] =>
          destruct (IH (S k) (acc ++ [r])%list) as (new & Hnew & Hrel); [lia|];
          exists (r :: new)
      end.
      split.
      * rewrite Hnew. by rewrite <- app_assoc.
      * constructor; [|done]. by repeat split.
Qed.

Lemma results_reach_the_floor floor new l :
  Forall2 result_of_row new (List.filter (reaches floor) l) ->
  Forall (fun r => (floor <= similarity_score r)%Q) new.
Proof.
  revert new. induction l as [|row l IH]; cbn [List.filter]; intros new Hrel.
  - apply Forall2_nil_inv_r in Hrel as ->. constructor.
  - destruct (reaches floor row) eqn:Hrow; [|by apply IH].
    apply Forall2_cons_inv_r in Hrel as (r & new' & (_ & _ & Hscore) & Hrel & ->).
    constructor; [|by apply IH].
    rewrite Hscore. apply Qltb_false. unfold reaches in Hrow.
    by apply negb_true_iff in Hrow.
Qed.


End ScoreAndFilter.

Section WhiteSpace.

Lemma chars_from_nonempty s pending cur :
  Forall (fun c => c <> "") (chars_from s pending cur).
Proof.
  revert pending cur. induction s as [|a r IH]; intros pending cur; simpl.
  - destruct cur; by repeat constructor.
  - destruct pending; [|apply IH].
    destruct cur; [apply IH|]. constructor; [done|apply IH].
Qed.

Lemma join_chars_empty cs :
  Forall (fun c => c <> "") cs -> join_chars cs = "" -> cs = [].
Proof.
  intros Hne. destruct Hne as [|c cs Hc Hcs]; [done|].
  unfold join_chars. simpl. destruct c as [|a c]; [done|].
  destruct cs; simpl; discriminate.
Qed.

Lemma dropwhile_nil {A} (p : A -> bool) l :
  dropwhile p l = [] <-> Forall (fun x => p x = true) l.
Proof.
  induction l as [|x l IH]; simpl.
  - split; [constructor|done].
  - destruct (p x) eqn:Hx.
    + rewrite IH. split; [by constructor|by inversion 1].
    + split; [done|]. inversion 1; congruence.
Qed.

Lemma dropwhile_Forall {A} (P : A -> Prop) (p : A -> bool) l :
  Forall P l -> Forall P (dropwhile p l).
Proof.
  induction 1 as [|x l Hx Hl IH]; simpl; [constructor|].
  destruct (p x); [done|by constructor].
Qed.

Lemma dropwhile_head {A} (p : A -> bool) l x l' :
  dropwhile p l = x :: l' -> p x = false.
Proof.
  induction l as [|y l IH]; simpl; [done|].
  destruct (p y) eqn:Hy; [done|]. by intros [= <- <-].
Qed.

(** [strip] leaves nothing exactly of the strings made of white space. *)
Lemma strip_empty s :
  strip s = "" <-> Forall (fun c => isspace c = true) (chars s).
Proof.
  unfold strip. split.
  - intros Hs. apply join_chars_empty in Hs.
    2:{ apply Forall_rev, dropwhile_Forall, Forall_rev, dropwhile_Forall, chars_from_nonempty. }
    apply (f_equal (@rev _)) in Hs. rewrite rev_involutive in Hs. simpl in Hs.
    apply dropwhile_nil.
    destruct (dropwhile isspace (chars s)) as [|c cs] eqn:Hd; [done|].
    apply dropwhile_nil, Forall_rev in Hs. rewrite rev_involutive in Hs.
    apply dropwhile_head in Hd. inversion Hs; congruence.
  - intros Hs. apply dropwhile_nil in Hs. by rewrite Hs.
Qed.

End WhiteSpace.

Section Search.
Import ScorpiusRAGEngine.
Context `{PyRuntime}.

Lemma blank_test query :
  negb (truthy (PyStr query)) || negb (truthy (PyStr (strip query))) = true
  <-> blank query.
Proof.
  unfold blank. cbn [truthy]. rewrite !negb_involutive, orb_true_iff, !String.eqb_eq.
  rewrite strip_empty. split; [|by right].
  intros [-> | Hs]; [constructor|done].
Qed.


Lemma not_blank_test query :
  ~ blank query ->
  negb (truthy (PyStr query)) || negb (truthy (PyStr (strip query))) = false.
Proof.
  intros Hq. destruct (_ || _) eqn:E; [|done]. by apply blank_test in E.
Qed.

Lemma outside_unit_true x : ~ ((0 <= x)%Q /\ (x <= 1)%Q) -> outside_unit x = true.
Proof.
  intros Hx. unfold outside_unit. apply negb_true_iff, andb_false_iff.
  destruct (Qle_bool 0 x) eqn:H0; [|by left]. right.
  destruct (Qle_bool x 1) eqn:H1; [|done].
  apply Qle_bool_iff in H0, H1. by destruct Hx.
Qed.

Ltac mstep :=
  cbv beta iota delta [bind try_except modify gets ret raise lift log_call
                       remember_collection];
  repeat (progress (cbv beta; cbn [fst snd calls _stats _collections with_stats
                                   total_searches incr_total_searches
                                   incr_collections_created set_avg_search_time_ms
                                   set_embedding_figures negb is_ScorpiusError])).

(** Getting or creating a collection only adds to the calls made and
    does not touch the count of searches. *)
Lemma _get_or_create_collection_spec env name self :
  exists r self' more,
    _get_or_create_collection env name self = (r, self')
    /\ calls self' = (calls self ++ more)%list
    /\ total_searches (_stats self') = total_searches (_stats self).
Proof.
  unfold _get_or_create_collection. mstep.
  destruct (existsb _ _).
  { eexists _, _, []. by rewrite app_nil_r. }
  destruct (chroma_get_collection env name) as [[]|e].
  { eexists _, _, _. repeat split. }
  destruct e; mstep;
    try (eexists _, _, _; repeat split; fail).
  destruct (chroma_create_collection env name) as [[]|e]; mstep;
    eexists _, _, _; repeat split; cbn; by rewrite <- app_assoc.
Qed.

Lemma search_blank env query collection limit context filters floor self :
  blank query ->
  search env query collection limit context filters floor self
  = (Raise (ValidationError "VALIDATION_ERROR" "query" (PyStr query) []), self).
Proof. intros Hq%blank_test. unfold search. by rewrite Hq. Qed.

Lemma search_bad_limit env query collection limit context filters floor self :
  ~ blank query ->
  (limit < 1 \/ 100 < limit)%Z ->
  search env query collection limit context filters floor self
  = (Raise (ValidationError "VALUE_OUT_OF_RANGE" "limit" (PyInt limit)
              [("min_value", PyInt 1); ("max_value", PyInt 100)]), self).
Proof.
  intros Hq%not_blank_test Hl. unfold search. rewrite Hq.
  assert ((limit <=? 0)%Z || (limit >? 100)%Z = true) as ->; [|done].
  apply orb_true_iff. rewrite Z.leb_le, Z.gtb_lt. lia.
Qed.

Lemma limit_test limit :
  (1 <= limit <= 100)%Z -> (limit <=? 0)%Z || (limit >? 100)%Z = false.
Proof.
  intros Hl. apply orb_false_iff. split; [apply Z.leb_gt; lia|].
  rewrite Z.gtb_ltb. apply Z.ltb_ge. lia.
Qed.

Lemma search_bad_floor env query collection limit context filters floor self :
  ~ blank query ->
  (1 <= limit <= 100)%Z ->
  ~ ((0 <= floor)%Q /\ (floor <= 1)%Q) ->
  search env query collection limit context filters floor self
  = (Raise (ValidationError "VALUE_OUT_OF_RANGE" "min_similarity_score" (PyFloat floor)
              [("min_value", PyFloat 0); ("max_value", PyFloat 1)]), self).
Proof.
  intros Hq%not_blank_test Hl%limit_test Hf%outside_unit_true. unfold search.
  by rewrite Hq, Hl, Hf.
Qed.

(** Arguments that pass the checks: the engine goes to work -- the first
    thing it does is to ask for the embedding of the enriched query -- and
    the search is counted once, whether it returns or raises, as long as
    the statistics of the embedding service can be read and the counter is
    not at -1. *)
Lemma search_accepted env query collection limit context filters floor self :
  acceptable query limit floor ->
  exists r self' more,
    search env query collection limit context filters floor self = (r, self')
    /\ calls self'
       = (calls self ++ EmbedCall (_enrich_query_with_context query context) :: more)%list
    /\ (total_searches (_stats self) <> (-1)%Z ->
        (exists st, embedding_service_get_performance_stats env = Ok st) ->
        total_searches (_stats self') = (total_searches (_stats self) + 1)%Z).
Proof.
  intros (Hq%not_blank_test & Hl%limit_test & Hf0 & Hf1).
  unfold search. rewrite Hq, Hl, (outside_unit_false floor Hf0 Hf1).
  mstep.
  destruct (embedding_service_embed env _) as [query_embedding|e]; mstep.
  2:{ destruct (is_ScorpiusError e); eexists _, _, []; repeat split. }
  match goal with
  | |- context [_get_or_create_collection env collection ?s] =>
      destruct (_get_or_create_collection_spec env collection s)
        as (r & s2 & more & -> & Hcalls & Hcount)
  end.
  cbn [calls _stats] in Hcalls, Hcount.
  destruct r as [[]|e]; mstep.
  2:{ destruct (is_ScorpiusError e); eexists _, _, more; repeat split.
      all: cbn; try (by rewrite Hcalls, <- app_assoc); intros; lia. }
  destruct (collection_query env _ _ _ _) as [search_results|e]; mstep.
  2:{ destruct (is_ScorpiusError e); eexists _, _, _; repeat split;
        cbn; try (by rewrite Hcalls, <- !app_assoc); intros; lia. }
  destruct (_process_search_results _ _ _ _ _) as [processed_results|e]; mstep.
  2:{ destruct (is_ScorpiusError e); eexists _, _, _; repeat split;
        cbn; try (by rewrite Hcalls, <- !app_assoc); intros; lia. }
  unfold _update_search_stats. mstep.
  destruct (total_searches (_stats s2) + 1 =? 0)%Z eqn:Hz; mstep.
  { eexists _, _, _; repeat split; [by rewrite Hcalls, <- !app_assoc|].
    intros Hne _. apply Z.eqb_eq in Hz. lia. }
  destruct (embedding_service_get_performance_stats env) as [st|e]; mstep.
  - eexists _, _, _; repeat split; [by rewrite Hcalls, <- !app_assoc|].
    cbn; intros; lia.
  - destruct (is_ScorpiusError e); eexists _, _, _; repeat split;
      solve [by rewrite Hcalls, <- !app_assoc | by intros _ [? [=]]].
Qed.

(** C8.  [search] checks its arguments in the order query, limit, floor
    and raises a ValidationError that names the first offending field and
    carries its value; the engine is then exactly as it was, so that
    nothing has been enriched, embedded or asked of the vector store.  A
    query that is not blank, a limit from 1 to 100 and a floor from 0.0 to
    1.0, bounds included, are accepted: the engine goes on to ask for the
    embedding of the enriched query. *)
Theorem search_validates_its_input env query collection limit context filters floor self :
  (blank query ->
   search env query collection limit context filters floor self
   = (Raise (ValidationError "VALIDATION_ERROR" "query" (PyStr query) []), self))
  /\ (~ blank query -> (limit < 1 \/ 100 < limit)%Z ->
      search env query collection limit context filters floor self
      = (Raise (ValidationError "VALUE_OUT_OF_RANGE" "limit" (PyInt limit)
                  [("min_value", PyInt 1); ("max_value", PyInt 100)]), self))
  /\ (~ blank query -> (1 <= limit <= 100)%Z -> ~ ((0 <= floor)%Q /\ (floor <= 1)%Q) ->
      search env query collection limit context filters floor self
      = (Raise (ValidationError "VALUE_OUT_OF_RANGE" "min_similarity_score" (PyFloat floor)
                  [("min_value", PyFloat 0); ("max_value", PyFloat 1)]), self))
  /\ (~ blank query -> (1 <= limit <= 100)%Z -> (0 <= floor)%Q /\ (floor <= 1)%Q ->
      exists r self' more,
        search env query collection limit context filters floor self = (r, self')
        /\ calls self'
           = (calls self
              ++ EmbedCall (_enrich_query_with_context query context) :: more)%list).
Proof.
  split; [apply search_blank|]. split; [apply search_bad_limit|].
  split; [apply search_bad_floor|].
  intros Hq Hl [Hf0 Hf1].
  destruct (search_accepted env query collection limit context filters floor self)
    as (r & self' & more & Hs & Hcalls & _); [done|].
  by exists r, self', more.
Qed.


End Search.

(** *** The engine on sample data *)

Section EngineExamples.
Import ScorpiusRAGEngine.
#[local] Existing Instance Sample.runtime.

Lemma matching_metadata_is_text : organisme_is_text Sample.matching_metadata.
Proof. intros v [= <-]. by eexists. Qed.



(** Of the three sample neighbours, at the distances 0.2, 1.5 and 0.7,
    only the first reaches the floor 0.5. *)
Example score_and_filter_keeps_the_near_neighbour :
  map content
    (match _process_search_results Sample.neighbours "historique_ao" 0.5
             (Some Sample.context) 5 with
     | Ok results => results
     | Raise _ => []
     end)
  = ["doc a"].
Proof. vm_compute. reflexivity. Qed.

Lemma sample_query_not_blank : ~ blank "marché informatique".
Proof. unfold blank. vm_compute. inversion 1. discriminate. Qed.

Lemma search_validates_its_input_witness :
  (search Sample.env "  " "historique_ao" 5 None None 0.5 Sample.new_engine
   = (Raise (ValidationError "VALIDATION_ERROR" "query" (PyStr "  ") []),
      Sample.new_engine))
  /\ (search Sample.env "marché informatique" "historique_ao" 0 None None 0.5
        Sample.new_engine
      = (Raise (ValidationError "VALUE_OUT_OF_RANGE" "limit" (PyInt 0)
                  [("min_value", PyInt 1); ("max_value", PyInt 100)]),
         Sample.new_engine))
  /\ (search Sample.env "marché informatique" "historique_ao" 101 None None 0.5
        Sample.new_engine
      = (Raise (ValidationError "VALUE_OUT_OF_RANGE" "limit" (PyInt 101)
                  [("min_value", PyInt 1); ("max_value", PyInt 100)]),
         Sample.new_engine))
  /\ (search Sample.env "marché informatique" "historique_ao" 5 None None (-0.01)
        Sample.new_engine
      = (Raise (ValidationError "VALUE_OUT_OF_RANGE" "min_similarity_score"
                  (PyFloat (-0.01)) [("min_value", PyFloat 0); ("max_value", PyFloat 1)]),
         Sample.new_engine))
  /\ (search Sample.env "marché informatique" "historique_ao" 5 None None 1.01
        Sample.new_engine
      = (Raise (ValidationError "VALUE_OUT_OF_RANGE" "min_similarity_score"
                  (PyFloat 1.01) [("min_value", PyFloat 0); ("max_value", PyFloat 1)]),
         Sample.new_engine))
  /\ (exists r self' more,
        search Sample.env "marché informatique" "historique_ao" 1 None None 0
          Sample.new_engine = (r, self')
        /\ calls self' = ([] ++ EmbedCall "marché informatique" :: more)%list)
  /\ (exists r self' more,
        search Sample.env "marché informatique" "historique_ao" 100 None None 1
          Sample.new_engine = (r, self')
        /\ calls self' = ([] ++ EmbedCall "marché informatique" :: more)%list).
Proof.
  pose proof sample_query_not_blank as Hq.
  repeat apply conj.
  - apply search_validates_its_input. unfold blank. vm_compute. by repeat constructor.
  - apply search_validates_its_input; [done|lia].
  - apply search_validates_its_input; [done|lia].
  - apply search_validates_its_input; [done|lia|]. intros [H0 _]. by vm_compute in H0.
  - apply search_validates_its_input; [done|lia|]. intros [_ H1]. by vm_compute in H1.
  - apply (search_validates_its_input Sample.env "marché informatique" "historique_ao" 1
             None None 0 Sample.new_engine); [done|lia|]. split; by vm_compute.
  - apply (search_validates_its_input Sample.env "marché informatique" "historique_ao" 100
             None None 1 Sample.new_engine); [done|lia|]. split; by vm_compute.
Defined.



End EngineExamples.

(** ** The embedding service *)

Section CacheOfTheService.
Import EmbeddingCache.
Context `{PyRuntime}.

(** Whatever is on disk, [get] returns; it keeps the directory and the
    time to live, adds no file, and what it returns was a usable entry. *)
Lemma get_cases now text model self :
  exists r self',
    get now text model self = (Ok r, self')
    /\ cache_dir self' = cache_dir self
    /\ ttl_hours self' = ttl_hours self
    /\ (forall p f, disk self' !! p = Some f -> disk self !! p = Some f)
    /\ (forall e, r = Some e -> usable now self text model e).
Proof.
  destruct (disk self !! entry_path self text model) as [f|] eqn:Hf.
  2:{ eexists _, _. split.
      - apply get_miss. unfold _is_cache_entry_valid. by rewrite Hf.
      - by repeat split. }
  destruct (now <? st_mtime f + ttl_hours self * hour)%Z eqn:Hfr.
  2:{ eexists _, _. split.
      - apply get_miss. unfold _is_cache_entry_valid. by rewrite Hf, Hfr.
      - by repeat split. }
  apply valid_ltb in Hfr.
  destruct (data f) as [| |v] eqn:Hd.
  1,2: (eexists _, _; split; [ eapply get_unreadable; eauto | by repeat split ]).
  destruct (_validate_cache_data_total v text model) as [[] Hb].
  - pose proof Hb as Hvalid. apply _validate_cache_data_spec in Hvalid.
    destruct (valid_entry_embedding _ _ _ Hvalid) as [items He].
    assert (usable now self text model (PyList items)) as Hu
      by (exists f, v; eauto 10).
    pose proof (proj2 (valid_ltb now self f) Hfr) as Hfresh'.
    eexists (Some (PyList items)), _. split.
    + unfold get, _is_cache_entry_valid, entry_path, _get_cache_file_path in *.
      repeat progress
        (cbv beta iota delta [bind try_except modify gets ret raise lift unlink load];
         repeat (progress (cbv beta; cbn [fst snd disk with_stats with_disk cache_dir
                                           ttl_hours max_cache_size_mb
                                           compression_enabled]));
         rewrite ?Hf, ?Hfresh', ?Hd, ?Hb, ?He; cbn [negb]).
      reflexivity.
    + repeat split; try done. by intros e [= <-].
  - eexists _, _. split; [eapply get_invalid; eauto|].
    repeat split; try done.
    cbn. intros p f' Hp. by apply lookup_delete_Some in Hp as [_ ?].
Qed.

Lemma usable_mono now self self' text model e :
  cache_dir self' = cache_dir self ->
  ttl_hours self' = ttl_hours self ->
  (forall p f, disk self' !! p = Some f -> disk self !! p = Some f) ->
  usable now self' text model e -> usable now self text model e.
Proof.
  intros Hdir Httl Hsub (f & v & Hf & Hfresh & Hrest).
  exists f, v. split.
  - apply Hsub. unfold entry_path, _get_cache_file_path in *. by rewrite <- Hdir.
  - split; [|done]. unfold fresh in *. by rewrite <- Httl.
Qed.

End CacheOfTheService.

Section Embed.
Import OpenAIEmbeddingService.
Context `{PyRuntime}.

Ltac sred :=
  cbv beta iota delta [bind try_except modify gets ret raise lift on_cache];
  repeat (progress (cbv beta; cbn [fst snd cache model create _stats cost_per_1k_tokens
                                   with_stats with_cache total_requests incr_cache_hits
                                   incr_api_calls add_usage incr_total_requests
                                   set_avg_latency_ms])).

(** A look-up in a cache that agrees with [vec] misses or returns the
    vector of the text, and leaves a cache that agrees with [vec]. *)
Lemma on_cache_get vec now text mdl self :
  is_Some (cache self) ->
  cache_agrees vec self ->
  exists r self',
    on_cache (EmbeddingCache.get now text mdl) self = (Ok r, self')
    /\ (r = None \/ r = Some (PyList (vec text)))
    /\ is_Some (cache self')
    /\ cache_agrees vec self'
    /\ create self' = create self
    /\ total_requests (_stats self') = total_requests (_stats self).
Proof.
  intros [c Hc] Hagree.
  destruct (get_cases now text mdl c) as (r & c' & Hget & Hdir & Httl & Hsub & Hr).
  exists r, (with_cache c' self). unfold on_cache. rewrite Hc, Hget.
  split; [done|]. split; [|split; [by eexists|split; [|done]]].
  - destruct r as [e|]; [|by left]. right. f_equal. eapply Hagree; [done|]. by apply Hr.
  - intros c0 now' text' model' e [= <-] Hu.
    eapply Hagree; [done|]. by eapply usable_mono.
Qed.

Lemma drop_cons_inv {A} (l : list A) i x rest :
  drop i l = x :: rest -> l !! i = Some x /\ drop (S i) l = rest.
Proof.
  intros Hd.
  assert (l !! i = Some x) as Hx.
  { rewrite <- (Nat.add_0_r i), <- lookup_drop, Hd. done. }
  split; [done|]. rewrite (drop_S _ _ _ Hx) in Hd. by injection Hd.
Qed.

(** The loop that consults the cache: it returns, and its bookkeeping
    accounts for every text. *)
Lemma check_cache_spec vec now text_list mdl rest :
  forall i cached todo mapping self,
    drop i text_list = rest ->
    is_Some (cache self) ->
    cache_agrees vec self ->
    accounted vec text_list i cached todo mapping ->
    exists cached' todo' mapping' self',
      check_cache now i rest mdl cached todo mapping self
      = (Ok (cached', todo', mapping'), self')
      /\ accounted vec text_list (length text_list) cached' todo' mapping'
      /\ create self' = create self
      /\ total_requests (_stats self') = total_requests (_stats self).
Proof.
  induction rest as [|text rest IH]; intros i cached todo mapping self Hdrop Hsome Hagree Hacc.
  - exists cached, todo, mapping, self. split; [done|]. split; [|done].
    destruct Hacc as (Hc & Ht & Hall). split; [done|]. split; [done|].
    intros p Hp. apply Hall.
    apply (f_equal length) in Hdrop. rewrite length_drop in Hdrop. simpl in Hdrop. lia.
  - apply drop_cons_inv in Hdrop as [Htext Hdrop].
    cbn [check_cache]. unfold bind at 1.
    destruct (on_cache_get vec now text mdl self Hsome Hagree)
      as (r & self1 & -> & Hr & Hsome1 & Hagree1 & Hcreate1 & Hcount1).
    destruct Hacc as (Hc & Ht & Hall).
    assert (accounted vec text_list (S i) cached (todo ++ [text])
              (<[(length (todo ++ [text]) - 1)%nat := i]> mapping)) as Hmiss.
    { rewrite length_app. cbn [length].
      replace (length todo + 1 - 1)%nat with (length todo) by lia.
      split; [done|]. split.
      - intros k t Hk. apply lookup_app_Some in Hk as [Hk | [Hge Hk]].
        + destruct (Ht k t Hk) as (p & Hm & Hp). exists p. split; [|done].
          rewrite lookup_insert_ne; [done|]. apply lookup_lt_Some in Hk. lia.
        + apply list_lookup_singleton_Some in Hk as [Hk <-].
          assert (k = length todo) as -> by lia.
          exists i. by rewrite lookup_insert_eq.
      - intros p Hp. destruct (decide (p = i)) as [->|Hne].
        + right. exists (length todo), text. split.
          * rewrite lookup_app_r by lia. by rewrite Nat.sub_diag.
          * by rewrite lookup_insert_eq.
        + destruct (Hall p) as [?|(k & t & Hk & Hm)]; [lia|by left|].
          right. exists k, t. split.
          * by apply lookup_app_l_Some.
          * rewrite lookup_insert_ne; [done|]. apply lookup_lt_Some in Hk. lia. }
    destruct Hr as [-> | ->].
    + destruct (IH (S i) cached (todo ++ [text])%list
                  (<[(length (todo ++ [text]) - 1)%nat := i]> mapping) self1)
        as (c' & t' & m' & s' & Hrun & Hacc' & Hcreate' & Hcount'); try done.
      exists c', t', m', s'. split; [exact Hrun|]. split; [done|]. split; congruence.
    + destruct (truthy (PyList (vec text))) eqn:Htruthy.
      * cbn [default]. unfold bind at 1. unfold modify at 1.
        destruct (IH (S i) (cached ++ [(i, PyList (vec text))])%list todo mapping
                    (with_stats incr_cache_hits self1))
          as (c' & t' & m' & s' & Hrun & Hacc' & Hcreate' & Hcount'); try done.
        { split; [|split; [done|]].
          - intros p e [Hin | Hin%list_elem_of_singleton]%elem_of_app; [by apply Hc|].
            injection Hin as -> ->. by exists text.
          - intros p Hp. destruct (decide (p = i)) as [->|Hne].
            + left. exists (PyList (vec text)). apply elem_of_app. right.
              by apply list_elem_of_singleton.
            + destruct (Hall p) as [[e He]|?]; [lia| |by right].
              left. exists e. apply elem_of_app. by left. }
        exists c', t', m', s'. split; [exact Hrun|]. split; [done|].
        split; [by rewrite Hcreate'|]. rewrite Hcount'. cbn. done.
      * destruct (IH (S i) cached (todo ++ [text])%list
                    (<[(length (todo ++ [text]) - 1)%nat := i]> mapping) self1)
          as (c' & t' & m' & s' & Hrun & Hacc' & Hcreate' & Hcount'); try done.
        exists c', t', m', s'. split; [exact Hrun|]. split; [done|]. split; congruence.
Qed.

Lemma identity_mapping_from s n k :
  (k < n)%nat ->
  (list_to_map (map (fun i => (i, i)) (seq s n)) : gmap nat nat) !! (s + k)%nat
  = Some (s + k)%nat.
Proof.
  revert s k. induction n as [|n IH]; intros s k Hk; [lia|].
  cbn [seq map]. rewrite list_to_map_cons. destruct k as [|k].
  - rewrite Nat.add_0_r. apply lookup_insert_eq.
  - rewrite lookup_insert_ne by (cbn; lia).
    replace (s + S k)%nat with (S s + k)%nat by lia. apply IH. lia.
Qed.

Lemma identity_mapping_lookup n k : (k < n)%nat -> identity_mapping n !! k = Some k.
Proof. intros Hk. apply (identity_mapping_from 0 n k Hk). Qed.

(** Without the cache every text is to be processed, at its own position. *)
Lemma accounted_without_cache vec text_list :
  accounted vec text_list (length text_list) [] text_list
    (identity_mapping (length text_list)).
Proof.
  split; [|split].
  - intros p e Hin. by apply elem_of_nil in Hin.
  - intros k t Hk. exists k. split; [|done].
    apply identity_mapping_lookup. by eapply lookup_lt_Some.
  - intros p Hp. right. destruct (lookup_lt_is_Some_2 text_list p Hp) as [t Ht].
    exists p, t. split; [done|]. by apply identity_mapping_lookup.
Qed.

Lemma embeddings_in_order vec texts tokens :
  map embedding (data (in_order_response vec texts tokens)) = map vec texts.
Proof.
  unfold in_order_response. cbn [data].
  generalize (fun i : nat => i) as g.
  change (fun (i : nat) (t : string) => {| index := i; embedding := vec t |})
    with (fun (i : nat) (t : string) => {| index := (fun i : nat => i) i;
                                           embedding := vec t |}).
  generalize (fun i : nat => i) as g'. intros g' _.
  revert g'. induction texts as [|t texts IH]; intros g'; [done|].
  cbn [imap map embedding]. f_equal. apply (IH (fun i => g' (S i))).
Qed.

(** A provider that answers in order gives the vectors of the texts. *)
Lemma _call_openai_api_in_order vec texts mdl self :
  answers_in_order vec self ->
  exists self',
    _call_openai_api texts mdl self = (Ok (map vec texts), self')
    /\ total_requests (_stats self') = total_requests (_stats self).
Proof.
  intros Hanswers. destruct (Hanswers texts mdl) as [tokens Hcreate].
  unfold _call_openai_api. sred. rewrite Hcreate. sred.
  rewrite embeddings_in_order. by eexists.
Qed.

(** Writing the fresh vectors to the cache never fails the call and
    leaves the counters of the service alone. *)
Lemma store_new_returns io now pairs mdl self :
  exists self',
    store_new io now pairs mdl self = (Ok tt, self')
    /\ _stats self' = _stats self.
Proof.
  revert self. induction pairs as [|[text e] pairs IH]; intros self.
  - by exists self.
  - cbn [store_new]. unfold bind at 1, try_except, on_cache.
    destruct (cache self) as [c|].
    + destruct (EmbeddingCache.set io now text mdl e c) as [[[]|err] c'];
        unfold ret; destruct (IH (with_cache c' self)) as (self' & -> & Hst);
        by exists self'.
    + unfold ret. destruct (IH self) as (self' & -> & Hst). by exists self'.
Qed.

Lemma placed_insert vec text_list (l : list pyval) pos t p :
  text_list !! pos = Some t ->
  (pos < length l)%nat ->
  placed vec text_list l p \/ p = pos ->
  placed vec text_list (<[pos := PyList (vec t)]> l) p.
Proof.
  intros Ht Hpos Hp. destruct (decide (p = pos)) as [->|Hne].
  - exists t. split; [done|]. by apply list_lookup_insert_eq.
  - destruct Hp as [(t' & Ht' & Hl)|?]; [|done].
    exists t'. split; [done|]. by rewrite list_lookup_insert_ne.
Qed.

Lemma place_cached_spec vec text_list cached :
  forall base,
    length base = length text_list ->
    (forall p e, (p, e) ∈ cached ->
       exists t, text_list !! p = Some t /\ e = PyList (vec t)) ->
    exists l,
      place_cached cached base = Ok l
      /\ length l = length text_list
      /\ (forall p, placed vec text_list base p -> placed vec text_list l p)
      /\ (forall p e, (p, e) ∈ cached -> placed vec text_list l p).
Proof.
  induction cached as [|[pos e] cached IH]; intros base Hlen Hgood.
  - exists base. repeat split; try done. intros p e Hin. by apply elem_of_nil in Hin.
  - destruct (Hgood pos e) as (t & Ht & ->); [left|].
    assert (pos < length base)%nat as Hpos
      by (rewrite Hlen; by eapply lookup_lt_Some).
    cbn [place_cached]. unfold list_set.
    rewrite (proj2 (Nat.ltb_lt _ _) Hpos). cbn [rbind].
    destruct (IH (<[pos := PyList (vec t)]> base)) as (l & -> & Hl & Hkeep & Hnew).
    { by rewrite length_insert. }
    { intros p e Hin. apply Hgood. by right. }
    exists l. split; [done|]. split; [done|]. split.
    + intros p Hp. apply Hkeep. eapply placed_insert; eauto.
    + intros p e [[= -> ->] | Hin]%elem_of_cons; [|by eapply Hnew].
      apply Hkeep. eapply placed_insert; eauto.
Qed.

Lemma place_new_spec vec text_list (mapping : gmap nat nat) new :
  forall idx base,
    length base = length text_list ->
    (forall j e, new !! j = Some e ->
       exists p t, mapping !! (idx + j)%nat = Some p
                   /\ text_list !! p = Some t /\ e = vec t) ->
    exists l,
      place_new idx new mapping base = Ok l
      /\ length l = length text_list
      /\ (forall p, placed vec text_list base p -> placed vec text_list l p)
      /\ (forall j e p, new !! j = Some e -> mapping !! (idx + j)%nat = Some p ->
            placed vec text_list l p).
Proof.
  induction new as [|e new IH]; intros idx base Hlen Hgood.
  - exists base. repeat split; try done.
  - destruct (Hgood 0%nat e eq_refl) as (pos & t & Hm & Ht & ->).
    rewrite Nat.add_0_r in Hm.
    assert (pos < length base)%nat as Hpos
      by (rewrite Hlen; by eapply lookup_lt_Some).
    cbn [place_new]. rewrite Hm. unfold list_set.
    rewrite (proj2 (Nat.ltb_lt _ _) Hpos). cbn [rbind].
    destruct (IH (S idx) (<[pos := PyList (vec t)]> base)) as (l & -> & Hl & Hkeep & Hnew).
    { by rewrite length_insert. }
    { intros j e Hj. replace (S idx + j)%nat with (idx + S j)%nat by lia.
      by apply Hgood. }
    exists l. split; [done|]. split; [done|]. split.
    + intros p Hp. apply Hkeep. eapply placed_insert; eauto.
    + intros [|j] e p Hj Hp.
      * rewrite Nat.add_0_r in Hp. replace p with pos by congruence.
        apply Hkeep. eapply placed_insert; eauto.
      * eapply (Hnew j e p); [done|].
        by replace (S idx + j)%nat with (idx + S j)%nat by lia.
Qed.

Lemma all_placed vec text_list l :
  length l = length text_list ->
  (forall p, (p < length text_list)%nat -> placed vec text_list l p) ->
  PyList l = vectors_of vec text_list.
Proof.
  intros Hlen Hall. unfold vectors_of. f_equal. apply list_eq. intros p.
  change (map (fun t => PyList (vec t)) text_list)
    with ((fun t => PyList (vec t)) <$> text_list).
  rewrite list_lookup_fmap.
  destruct (decide (p < length text_list)%nat) as [Hp|Hp].
  - destruct (Hall p Hp) as (t & -> & ->). done.
  - rewrite !lookup_ge_None_2; [done|lia..].
Qed.

Lemma _update_stats_returns latency_ms self :
  total_requests (_stats self) <> (-1)%Z ->
  exists self', _update_stats latency_ms self = (Ok tt, self').
Proof.
  intros Hne. unfold _update_stats. sred.
  destruct (total_requests (_stats self) + 1 =? 0)%Z eqn:Hz.
  - apply Z.eqb_eq in Hz. lia.
  - by eexists.
Qed.

Lemma non_blank_texts text_list :
  text_list <> [] ->
  Forall (fun t => strip t <> "") text_list ->
  match text_list with [] => true | _ => false end
  || existsb (fun text => negb (truthy (PyStr (strip text)))) text_list = false.
Proof.
  intros Hne Hall. destruct text_list as [|t text_list]; [done|]. cbn [orb].
  apply not_true_is_false. rewrite existsb_exists. intros (x & Hin & Hx).
  rewrite Forall_forall in Hall. apply list_elem_of_In, Hall in Hin.
  cbn [truthy] in Hx. rewrite negb_involutive in Hx. by apply String.eqb_eq in Hx.
Qed.

(** C5, as amended.  For a non-empty list of texts none of which is
    blank, [embed] returns a list with one vector per text, the vector at
    each position being that of the text at that position, whichever
    texts were found in the cache -- provided the provider lists its
    vectors in the order of the request, one per text, for [embed] places
    the fresh vectors by their rank in the answer.  The cache, if any,
    holds right vectors, and the counter of requests is not at -1. *)
Theorem embed_preserves_order vec io now latency_ms text_list use_cache self :
  text_list <> [] ->
  Forall (fun t => strip t <> "") text_list ->
  answers_in_order vec self ->
  cache_agrees vec self ->
  total_requests (_stats self) <> (-1)%Z ->
  exists self',
    embed io now latency_ms (inr text_list) use_cache self
    = (Ok (vectors_of vec text_list), self').
Proof.
  intros Hne Hnb Hanswers Hagree Hcount.
  unfold embed. rewrite (non_blank_texts text_list Hne Hnb).
  unfold bind at 1, gets at 1. unfold bind at 1, gets at 1.
  set (has_cache := match cache self with Some _ => true | None => false end).
  assert (exists cached todo mapping self1,
    (if use_cache && has_cache
     then check_cache now 0 text_list (model self) [] [] ∅
     else ret ([], text_list, identity_mapping (length text_list))) self
    = (Ok (cached, todo, mapping), self1)
    /\ accounted vec text_list (length text_list) cached todo mapping
    /\ create self1 = create self
    /\ total_requests (_stats self1) = total_requests (_stats self)) as Hlook.
  { destruct (use_cache && has_cache) eqn:Huse.
    - apply (check_cache_spec vec now text_list (model self) text_list); try done.
      + subst has_cache. destruct (cache self); [by eexists|].
        by rewrite andb_false_r in Huse.
      + split; [|split]; [intros ? ? []%elem_of_nil|intros ? ? [=]|intros; lia].
    - eexists [], text_list, _, self. split; [reflexivity|].
      split; [apply accounted_without_cache|done]. }
  destruct Hlook as (cached & todo & mapping & self1 & Hlook & Hacc & Hcreate1 & Hcount1).
  unfold bind at 1. rewrite Hlook.
  assert (answers_in_order vec self1) as Hanswers1
    by (intros texts mdl; rewrite Hcreate1; apply Hanswers).
  assert (exists self2,
    (match todo with
     | [] => ret []
     | _ => let* new_embeddings := _call_openai_api todo (model self) in
            run (if use_cache && has_cache
                 then store_new io now (combine todo new_embeddings) (model self)
                 else ret tt) then
            ret new_embeddings
     end) self1 = (Ok (map vec todo), self2)
    /\ total_requests (_stats self2) = total_requests (_stats self1)) as Hnew.
  { destruct todo as [|t todo]; [by exists self1|].
    destruct (_call_openai_api_in_order vec (t :: todo) (model self) self1 Hanswers1)
      as (self2 & Hcall & Hcount2).
    unfold bind at 1. rewrite Hcall. unfold bind at 1.
    destruct (use_cache && has_cache).
    - destruct (store_new_returns io now (combine (t :: todo) (map vec (t :: todo)))
                  (model self) self2) as (self3 & -> & Hst).
      exists self3. split; [done|]. by rewrite Hst.
    - by exists self2. }
  destruct Hnew as (self2 & Hnew & Hcount2).
  unfold bind at 1. rewrite Hnew.
  destruct Hacc as (Hc & Ht & Hall).
  destruct (place_cached_spec vec text_list cached (repeat PyNone (length text_list)))
    as (l1 & Hl1 & Hlen1 & _ & Hcached); [by rewrite repeat_length|done|].
  destruct (place_new_spec vec text_list mapping (map vec todo) 0 l1)
    as (l2 & Hl2 & Hlen2 & Hkeep & Hfresh); [done| |].
  { intros j e Hj.
    change (map vec todo) with (vec <$> todo) in Hj.
    rewrite list_lookup_fmap in Hj.
    destruct (todo !! j) as [t|] eqn:Htj; [|done]. injection Hj as <-.
    destruct (Ht j t Htj) as (p & Hm & Hp). by exists p, t. }
  unfold bind at 1, lift at 1. rewrite Hl1.
  unfold bind at 1, lift at 1. rewrite Hl2.
  destruct (_update_stats_returns latency_ms self2) as [self3 Hupd]; [congruence|].
  unfold bind at 1. rewrite Hupd. exists self3. unfold ret. f_equal. f_equal.
  apply all_placed; [done|]. intros p Hp.
  destruct (Hall p Hp) as [[e He] | (k & t & Hk & Hm)].
  - apply Hkeep. by eapply Hcached.
  - eapply (Hfresh k (vec t) p); [|done].
    change (map vec todo) with (vec <$> todo). by rewrite list_lookup_fmap, Hk.
Qed.

End Embed.

(** *** The embedding service on sample data *)

Section EmbedExamples.
Import OpenAIEmbeddingService.
#[local] Existing Instance Sample.runtime.

Lemma embed_preserves_order_witness :
  exists self',
    embed Sample.io_ok 0 12 (inr ["alpha"; "be"; "gam"]) true Sample.service
    = (Ok (vectors_of Sample.vec ["alpha"; "be"; "gam"]), self').
Proof.
  apply (embed_preserves_order Sample.vec Sample.io_ok 0 12 ["alpha"; "be"; "gam"] true
           Sample.service).
  - discriminate.
  - repeat constructor; by vm_compute.
  - intros texts mdl. by exists 7%Z.
  - intros c now text mdl e [= <-] (f & v & Hf & _).
    destruct (lookup_empty_Some (M := gmap string) _ _ Hf).
  - discriminate.
Defined.

(** The provider answers the two misses last text first, each item
    stating the position of its text: [embed] hands out the vector of the
    second text for the first and the vector of the first for the second. *)
Lemma embed_follows_the_order_of_the_answer :
  (embed Sample.io_ok 0 12 (inr ["alpha"; "be"]) true Sample.reversing_service).1
  = Ok (PyList [PyList (Sample.vec "be"); PyList (Sample.vec "alpha")])
  /\ vectors_of Sample.vec ["alpha"; "be"]
     = PyList [PyList (Sample.vec "alpha"); PyList (Sample.vec "be")]
  /\ Sample.vec "alpha" <> Sample.vec "be".
Proof. split; [by vm_compute|]. split; [reflexivity|discriminate]. Qed.

(** A second call finds the first text in the cache and asks the provider
    for the other two only; the vectors come back in the order of the
    texts. *)
Example embed_mixes_cached_and_fresh_vectors :
  let self1 := (embed Sample.io_ok 0 12 (inr ["be"]) true Sample.service).2 in
  let r := embed Sample.io_ok 5 12 (inr ["alpha"; "be"; "gam"]) true self1 in
  r.1 = Ok (vectors_of Sample.vec ["alpha"; "be"; "gam"])
  /\ cache_hits (_stats r.2) = 1%Z
  /\ api_calls (_stats r.2) = 2%Z.
Proof. repeat split; by vm_compute. Qed.

End EmbedExamples.

(** ** More on the embedding cache *)

Section CacheMore.
Import EmbeddingCache.
Context `{PyRuntime}.

(** The four ways a [get] can end, with the state each leaves. *)
Lemma get_outcome now text model self :
  let counted := with_stats incr_total_requests self in
  get now text model self = (Ok None, with_stats incr_cache_misses counted)
  \/ get now text model self = (Ok None, with_stats incr_cache_errors counted)
  \/ get now text model self
     = (Ok None, with_stats incr_cache_misses
                   (with_disk (delete (entry_path self text model)) counted))
  \/ exists e cost_saved,
       get now text model self
       = (Ok (Some e), with_stats (add_savings cost_saved)
                         (with_stats incr_cache_hits counted)).
Proof.
  intros counted.
  destruct (disk self !! entry_path self text model) as [f|] eqn:Hf.
  2:{ left. apply get_miss. unfold _is_cache_entry_valid. by rewrite Hf. }
  destruct (now <? st_mtime f + ttl_hours self * hour)%Z eqn:Hfr.
  2:{ left. apply get_miss. unfold _is_cache_entry_valid. by rewrite Hf, Hfr. }
  pose proof (proj1 (valid_ltb now self f) Hfr) as Hfresh.
  destruct (data f) as [| |v] eqn:Hd.
  1,2: (right; left; eapply get_unreadable; eauto).
  destruct (_validate_cache_data_total v text model) as [[] Hb].
  - right. right. right.
    pose proof Hb as Hvalid. apply _validate_cache_data_spec in Hvalid.
    destruct (valid_entry_embedding _ _ _ Hvalid) as [items He].
    eexists (PyList items), _.
    unfold get, _is_cache_entry_valid, entry_path, _get_cache_file_path in *.
    repeat progress
      (cbv beta iota delta [bind try_except modify gets ret raise lift unlink load];
       repeat (progress (cbv beta; cbn [fst snd disk with_stats with_disk cache_dir
                                         ttl_hours max_cache_size_mb
                                         compression_enabled]));
       rewrite ?Hf, ?Hfr, ?Hd, ?Hb, ?He; cbn [negb]).
    reflexivity.
  - right. right. left. eapply get_invalid; eauto.
Qed.

(** X1.  A file that is stale, or that cannot be opened or unpickled, is
    not deleted by [get]: the call returns nothing and the file stays. *)
Theorem get_leaves_stale_and_unreadable_files now text model self :
  stale_or_unreadable now self text model ->
  exists self', get now text model self = (Ok None, self') /\ disk self' = disk self.
Proof.
  intros (f & Hf & Hwhy).
  destruct (now <? st_mtime f + ttl_hours self * hour)%Z eqn:Hfr.
  - apply valid_ltb in Hfr. destruct Hwhy as [Hstale | Hbad]; [done|].
    eexists. split; [by eapply get_unreadable|done].
  - eexists. split; [|].
    + apply get_miss. unfold _is_cache_entry_valid. by rewrite Hf, Hfr.
    + reflexivity.
Qed.

(** X2.  [get] always returns, and counts the request exactly once: the
    number of requests grows by one, and so does one of the numbers of
    hits, misses and errors -- the hits when a vector is returned, the
    misses or the errors when nothing is. *)
Theorem get_counts_each_request_once now text model self :
  exists r self',
    get now text model self = (Ok r, self')
    /\ total_requests (_stats self') = (total_requests (_stats self) + 1)%Z
    /\ cache_hits (_stats self')
       = (cache_hits (_stats self) + match r with Some _ => 1 | None => 0 end)%Z
    /\ (cache_misses (_stats self') + cache_errors (_stats self')
        = cache_misses (_stats self) + cache_errors (_stats self)
          + match r with Some _ => 0 | None => 1 end)%Z.
Proof.
  destruct (get_outcome now text model self) as [-> | [-> | [-> | (e & c & ->)]]];
    eexists _, _; (split; [reflexivity|]); cbn; lia.
Qed.

(** *** Expired entries *)

Lemma drop_expired_keeps now files n sz self :
  ttl_hours (drop_expired now files n sz self).1.1 = ttl_hours self.
Proof.
  revert n sz self. induction files as [|[p f] files IH]; intros n sz self; [done|].
  cbn [drop_expired]. destruct (negb _); by rewrite IH.
Qed.

Lemma drop_expired_lookup now files :
  forall n sz self,
    NoDup files.*1 ->
    (forall p f, (p, f) ∈ files -> disk self !! p = Some f) ->
    forall q,
      disk (drop_expired now files n sz self).1.1 !! q
      = match disk self !! q with
        | Some f =>
            if decide (q ∈ files.*1)
            then if (now <? st_mtime f + ttl_hours self * hour)%Z then Some f else None
            else Some f
        | None => None
        end.
Proof.
  induction files as [|[p f] files IH]; intros n sz self Hnd Hin q.
  - cbn. destruct (disk self !! q); [|done]. by rewrite decide_False by apply not_elem_of_nil.
  - apply NoDup_cons in Hnd as [Hp Hnd]. cbn [drop_expired].
    pose proof (Hin p f ltac:(left)) as Hpf.
    unfold _is_cache_entry_valid at 1. rewrite Hpf. cbn zeta.
    destruct (now <? st_mtime f + ttl_hours self * hour)%Z eqn:Hfresh; cbn [negb].
    + rewrite IH; [|done|intros; apply Hin; by right].
      destruct (disk self !! q) as [g|] eqn:Hq; [|done].
      destruct (decide (q = p)) as [->|Hne].
      * rewrite decide_False by done. rewrite decide_True by (cbn; left).
        replace g with f by congruence. by rewrite Hfresh.
      * destruct (decide (q ∈ files.*1)) as [Hqs|Hqs].
        -- by rewrite decide_True by (cbn; by right).
        -- rewrite decide_False; [done|]. cbn. by intros [?|?]%elem_of_cons.
    + rewrite IH; [|done|].
      2:{ intros p' f' Hin'. cbn. rewrite lookup_delete_ne; [apply Hin; by right|].
          intros <-. apply Hp. apply list_elem_of_fmap. by exists (p, f'). }
      cbn [disk with_disk ttl_hours].
      destruct (decide (q = p)) as [->|Hne].
      * rewrite lookup_delete_eq, Hpf. rewrite decide_True by (cbn; left).
        by rewrite Hfresh.
      * rewrite lookup_delete_ne by done.
        destruct (disk self !! q) as [g|] eqn:Hq; [|done].
        destruct (decide (q ∈ files.*1)) as [Hqs|Hqs].
        -- by rewrite decide_True by (cbn; by right).
        -- rewrite decide_False; [done|]. cbn. by intros [?|?]%elem_of_cons.
Qed.

(** X3.  The clean-up of expired entries never raises; it deletes the
    files whose time to live has elapsed and no other: a file is on disk
    afterwards exactly when it was there before and is still fresh. *)
Theorem _cleanup_expired_entries_keeps_the_fresh now self :
  exists self',
    _cleanup_expired_entries now self = (Ok tt, self')
    /\ forall p f, disk self' !! p = Some f
                   <-> disk self !! p = Some f /\ fresh now self f.
Proof.
  eexists. split; [reflexivity|]. intros p f. cbn [snd].
  rewrite (drop_expired_lookup now (rglob self) 0 0 self).
  - destruct (disk self !! p) as [g|] eqn:Hg.
    + rewrite decide_True.
      2:{ apply list_elem_of_fmap. exists (p, g). split; [done|].
          by apply elem_of_map_to_list. }
      destruct (now <? st_mtime g + ttl_hours self * hour)%Z eqn:Hfresh.
      * apply valid_ltb in Hfresh. split; [by intros [= <-]|by intros [[= <-] _]].
      * split; [done|]. intros [[= <-] Hf%valid_ltb]. congruence.
    + split; [done|by intros [? _]].
  - apply NoDup_fst_map_to_list.
  - intros p' f'. apply elem_of_map_to_list.
Qed.

(** *** Clearing *)

Lemma delete_files_spec files :
  forall n sz self,
    delete_files files n sz self
    = (with_disk (fun d => foldl (fun d p => delete p d) d files.*1) self,
       (n + Z.of_nat (length files))%Z, (sz + total_size files)%N).
Proof.
  induction files as [|[p f] files IH]; intros n sz self.
  - cbn. destruct self. unfold with_disk. cbn. by rewrite Z.add_0_r, N.add_0_r.
  - cbn [delete_files]. rewrite IH. cbn [length total_size foldr fmap list_fmap foldl fst snd].
    unfold with_disk. cbn [disk cache_dir ttl_hours max_cache_size_mb compression_enabled
                           _stats].
    fold (total_size files). f_equal; [f_equal|]; lia.
Qed.

Lemma delete_all_files (d : gmap string file) :
  foldl (fun d p => delete p d) d (map_to_list d).*1 = ∅.
Proof.
  apply map_eq. intros q. rewrite lookup_foldl_delete, lookup_empty.
  destruct (decide (q ∈ (map_to_list d).*1)) as [|Hq]; [done|].
  destruct (d !! q) as [g|] eqn:Hg; [|done].
  destruct Hq. apply list_elem_of_fmap. exists (q, g). split; [done|].
  by apply elem_of_map_to_list.
Qed.

(** X4.  [clear_cache] returns the number of files that were in the cache
    and their size in MB as [_get_cache_size_mb] measured it; it leaves no
    file and counters at zero, so that a [get] that follows finds
    nothing, whatever the text. *)
Theorem clear_cache_empties_the_cache self :
  exists self',
    clear_cache self
    = (Ok [("files_deleted", PyInt (Z.of_nat (size (disk self))));
           ("size_deleted_mb", PyFloat (_get_cache_size_mb self))], self')
    /\ disk self' = ∅
    /\ _stats self' = reset_stats (_stats self)
    /\ cache_dir self' = cache_dir self
    /\ forall now text model,
         exists self'', get now text model self' = (Ok None, self'').
Proof.
  exists (with_stats reset_stats (with_disk (fun _ => ∅) self)).
  split; [|split; [done|split; [done|split; [done|]]]].
  - unfold clear_cache.
    cbv beta iota delta [bind try_except modify gets ret raise lift].
    rewrite delete_files_spec. cbn [fst snd].
    unfold _get_cache_size_mb, rglob. rewrite N.add_0_l, Z.add_0_l, length_map_to_list.
    f_equal. unfold with_stats, with_disk.
    cbn [disk cache_dir ttl_hours max_cache_size_mb compression_enabled _stats].
    by rewrite delete_all_files.
  - intros now text model. eexists. apply get_miss.
    unfold _is_cache_entry_valid. cbn [disk with_stats with_disk].
    by rewrite lookup_empty.
Qed.

(** *** The counters *)

Lemma evict_keeps_stats files target cur n self :
  _stats (evict files target cur n self).1.1 = _stats self.
Proof.
  revert cur n self. induction files as [|[[p m] sz] files IH]; intros cur n self; [done|].
  cbn [evict]. destruct (Qle_bool cur target); [done|]. by rewrite IH.
Qed.

Lemma _cleanup_if_needed_counters self :
  cache_hits (_stats (_cleanup_if_needed self).2) = cache_hits (_stats self)
  /\ total_requests (_stats (_cleanup_if_needed self).2) = total_requests (_stats self)
  /\ cache_errors (_stats (_cleanup_if_needed self).2) = cache_errors (_stats self).
Proof.
  destruct (Qle_bool (_get_cache_size_mb self) (inject_Z (max_cache_size_mb self))) eqn:Hle.
  - by rewrite _cleanup_if_needed_within.
  - rewrite _cleanup_if_needed_over by done. unfold _cleanup_oldest_entries.
    cbn [snd]. by rewrite evict_keeps_stats.
Qed.

Lemma set_counters io now text model embedding self :
  cache_hits (_stats (set io now text model embedding self).2) = cache_hits (_stats self)
  /\ total_requests (_stats (set io now text model embedding self).2)
     = total_requests (_stats self).
Proof.
  destruct (mkdir_fails io) eqn:Hm; [by rewrite set_mkdir_fails|].
  destruct (Z.of_N (pickle_len DEFAULT_PROTOCOL (PyList embedding)) >? size_limit)%Z
    eqn:Hbig.
  { apply oversized_gtb in Hbig. by rewrite set_oversized. }
  apply not_oversized_gtb in Hbig.
  destruct (open_fails io) eqn:Ho; [by rewrite set_open_fails|].
  rewrite set_written by done.
  destruct (_cleanup_if_needed_counters
              (with_disk (insert (entry_path self text model)
                                 (file_of self now text model embedding)) self))
    as (Hh & Ht & _).
  by rewrite Hh, Ht.
Qed.

Lemma hit_rate_bounds self :
  counted self -> (0 <= hit_rate self)%Q /\ (hit_rate self <= 1)%Q.
Proof.
  unfold counted, hit_rate. intros [Hh Ht].
  destruct (total_requests (_stats self) >? 0)%Z eqn:Hpos; [|split; lra].
  apply Z.gtb_lt in Hpos.
  assert (0 < inject_Z (total_requests (_stats self)))%Q as Hq
    by (change 0%Q with (inject_Z 0); by rewrite <- Zlt_Qlt).
  split.
  - apply Qle_shift_div_l; [done|]. rewrite Qmult_0_l.
    change 0%Q with (inject_Z 0). by rewrite <- Zle_Qle.
  - apply Qle_shift_div_r; [done|]. rewrite Qmult_1_l. by rewrite <- Zle_Qle.
Qed.

(** X5.  The hit rate that [get_stats] reports is 0.0 while no request
    has been counted and lies between 0.0 and 1.0 as long as the hits are
    counted among the requests; [get] and [set] keep the counters so. *)
Theorem hit_rate_stays_in_the_unit_interval self :
  counted self ->
  dict_get (get_stats self) "hit_rate" = Some (PyFloat (hit_rate self))
  /\ (total_requests (_stats self) = 0%Z -> hit_rate self = 0%Q)
  /\ (0 <= hit_rate self)%Q /\ (hit_rate self <= 1)%Q
  /\ (forall now text model, counted (get now text model self).2)
  /\ (forall io now text model embedding,
        counted (set io now text model embedding self).2).
Proof.
  intros Hc. split; [reflexivity|]. split.
  { intros Hz. unfold hit_rate. by rewrite Hz. }
  destruct (hit_rate_bounds self Hc) as [H0 H1]. split; [done|]. split; [done|].
  unfold counted in *. split.
  - intros now text model.
    destruct (get_outcome now text model self) as [-> | [-> | [-> | (e & c & ->)]]];
      cbn; lia.
  - intros io now text model embedding.
    destruct (set_counters io now text model embedding self) as [-> ->]. done.
Qed.

(** *** Writes *)

(** X6.  A write that goes through and leaves the cache within its
    maximum size does not disturb the entry of another text: what was
    usable before under another path is usable after, and nothing else. *)
Theorem set_keeps_the_other_entries io now text model embedding other other_model self :
  mkdir_fails io = false ->
  open_fails io = false ->
  ~ oversized embedding ->
  (size_after_write self now text model embedding
   <= inject_Z (max_cache_size_mb self))%Q ->
  entry_path self other other_model <> entry_path self text model ->
  exists s1,
    set io now text model embedding self = (Ok tt, s1)
    /\ forall now' e,
         usable now' s1 other other_model e <-> usable now' self other other_model e.
Proof.
  intros Hm Ho Hsmall Hsize Hpath.
  destruct (set_stores io now text model embedding self Hm Ho Hsmall Hsize)
    as (s1 & Hset & Hdisk & Hdir & Httl).
  exists s1. split; [done|]. intros now' e.
  assert (entry_path s1 other other_model = entry_path self other other_model) as Hp
    by (unfold entry_path, _get_cache_file_path; by rewrite Hdir).
  unfold usable, fresh. rewrite Hp, Hdisk, Httl.
  by rewrite lookup_insert_ne.
Qed.

(** X7.  A write that fails -- the directory cannot be made, the vector
    is larger than the ceiling of one entry, or the file cannot be opened
    -- leaves the files of the cache as they were and counts one error. *)
Theorem set_failure_leaves_the_files io now text model embedding self :
  mkdir_fails io = true \/ oversized embedding \/ open_fails io = true ->
  exists r self',
    set io now text model embedding self = (r, self')
    /\ disk self' = disk self
    /\ cache_errors (_stats self') = (cache_errors (_stats self) + 1)%Z.
Proof.
  intros Hfail.
  destruct (mkdir_fails io) eqn:Hm.
  { eexists _, _. split; [by apply set_mkdir_fails|done]. }
  destruct (Z.of_N (pickle_len DEFAULT_PROTOCOL (PyList embedding)) >? size_limit)%Z
    eqn:Hbig.
  { apply oversized_gtb in Hbig. eexists _, _. split; [by apply set_oversized|done]. }
  apply not_oversized_gtb in Hbig.
  destruct Hfail as [? | [? | Ho]]; [done..|].
  eexists _, _. split; [by apply set_open_fails|done].
Qed.

End CacheMore.

Section CacheMoreExamples.
Import EmbeddingCache.
#[local] Existing Instance Sample.runtime.

Lemma get_leaves_stale_and_unreadable_files_witness :
  exists self',
    get 5 "hello" "m" Sample.undecodable_cache = (Ok None, self')
    /\ disk self' = disk Sample.undecodable_cache.
Proof.
  apply (get_leaves_stale_and_unreadable_files 5 "hello" "m" Sample.undecodable_cache).
  exists Sample.undecodable_file. split; [by vm_compute|]. right. by right.
Defined.

Lemma hit_rate_stays_in_the_unit_interval_witness :
  (0 <= hit_rate Sample.empty_cache)%Q /\ (hit_rate Sample.empty_cache <= 1)%Q.
Proof.
  destruct (hit_rate_stays_in_the_unit_interval Sample.empty_cache)
    as (_ & _ & H0 & H1 & _); [by vm_compute|].
  by split.
Defined.

Lemma set_keeps_the_other_entries_witness :
  exists s1,
    set Sample.io_ok 1 "world" "m" Sample.vector
      (set Sample.io_ok 0 "hello" "m" Sample.vector Sample.empty_cache).2 = (Ok tt, s1)
    /\ forall now' e,
         usable now' s1 "hello" "m" e
         <-> usable now'
               (set Sample.io_ok 0 "hello" "m" Sample.vector Sample.empty_cache).2
               "hello" "m" e.
Proof.
  apply (set_keeps_the_other_entries Sample.io_ok 1 "world" "m" Sample.vector "hello" "m").
  - reflexivity.
  - reflexivity.
  - unfold oversized. vm_compute. discriminate.
  - apply Qle_bool_iff. by vm_compute.
  - intros Heq. vm_compute in Heq. discriminate.
Defined.

Lemma set_failure_leaves_the_files_witness :
  exists r self',
    set Sample.io_no_mkdir 0 "hello" "m" Sample.vector Sample.empty_cache = (r, self')
    /\ disk self' = disk Sample.empty_cache
    /\ cache_errors (_stats self') = (cache_errors (_stats Sample.empty_cache) + 1)%Z.
Proof.
  apply (set_failure_leaves_the_files Sample.io_no_mkdir 0 "hello" "m" Sample.vector
           Sample.empty_cache).
  by left.
Defined.

End CacheMoreExamples.

(** ** More on the embedding service *)

Section EmbedMore.
Import OpenAIEmbeddingService.
Context `{PyRuntime}.

Ltac sred :=
  cbv beta iota delta [bind try_except modify gets ret raise lift on_cache];
  repeat (progress (cbv beta; cbn [fst snd cache model create _stats cost_per_1k_tokens
                                   with_stats with_cache total_requests incr_cache_hits
                                   incr_api_calls add_usage incr_total_requests
                                   set_avg_latency_ms incr_errors errors api_calls])).

(** The texts of a call, as a list. *)
Lemma blank_texts text_list :
  text_list = [] \/ Exists (fun t => strip t = "") text_list ->
  match text_list with [] => true | _ => false end
  || existsb (fun text => negb (truthy (PyStr (strip text)))) text_list = true.
Proof.
  intros [-> | Hex]; [done|]. apply orb_true_iff. right.
  apply existsb_exists. apply Exists_exists in Hex as (t & Hin & Ht).
  exists t. split; [by apply list_elem_of_In|]. cbn [truthy]. by rewrite Ht.
Qed.

(** X8.  [embed] refuses an empty list of texts, and a list or a single
    string with a text that is empty or white space only: it raises a
    ValidationError on the field "texts" before it looks into the cache or
    calls the provider, and the service is as it was. *)
Theorem embed_rejects_blank_texts io now latency_ms texts use_cache self :
  let text_list := match texts with inl t => [t] | inr l => l end in
  text_list = [] \/ Exists (fun t => strip t = "") text_list ->
  embed io now latency_ms texts use_cache self
  = (Raise (ValidationError "VALIDATION_ERROR" "texts" (PyList (map PyStr text_list)) []),
     self).
Proof.
  intros text_list Hbad. unfold embed. fold text_list.
  by rewrite (blank_texts text_list Hbad).
Qed.

Lemma _update_stats_counts latency_ms self :
  total_requests (_stats self) <> (-1)%Z ->
  exists self',
    _update_stats latency_ms self = (Ok tt, self')
    /\ create self' = create self
    /\ cache self' = cache self
    /\ total_requests (_stats self') = (total_requests (_stats self) + 1)%Z.
Proof.
  intros Hne. unfold _update_stats. sred.
  destruct (total_requests (_stats self) + 1 =? 0)%Z eqn:Hz.
  - apply Z.eqb_eq in Hz. lia.
  - by eexists.
Qed.

Lemma store_new_full io now pairs mdl self :
  exists self',
    store_new io now pairs mdl self = (Ok tt, self')
    /\ _stats self' = _stats self
    /\ create self' = create self.
Proof.
  revert self. induction pairs as [|[text e] pairs IH]; intros self.
  - by exists self.
  - cbn [store_new]. unfold bind at 1, try_except, on_cache.
    destruct (cache self) as [c|].
    + destruct (EmbeddingCache.set io now text mdl e c) as [[[]|err] c'];
        unfold ret; destruct (IH (with_cache c' self)) as (self' & -> & Hst & Hcr);
        by exists self'.
    + unfold ret. destruct (IH self) as (self' & -> & Hst & Hcr). by exists self'.
Qed.

(** What [embed] returns for a provider that answers in order, for a
    single string as for a list, and what it leaves of the service. *)
Lemma embed_in_order vec io now latency_ms texts use_cache self :
  let text_list := match texts with inl t => [t] | inr l => l end in
  text_list <> [] ->
  Forall (fun t => strip t <> "") text_list ->
  answers_in_order vec self ->
  cache_agrees vec self ->
  total_requests (_stats self) <> (-1)%Z ->
  exists self',
    embed io now latency_ms texts use_cache self
    = (Ok (match texts with
           | inl t => PyList (vec t)
           | inr l => vectors_of vec l
           end), self')
    /\ create self' = create self
    /\ total_requests (_stats self') = (total_requests (_stats self) + 1)%Z.
Proof.
  intros text_list Hne Hnb Hanswers Hagree Hcount.
  unfold embed. fold text_list. rewrite (non_blank_texts text_list Hne Hnb).
  unfold bind at 1, gets at 1. unfold bind at 1, gets at 1.
  set (has_cache := match cache self with Some _ => true | None => false end).
  assert (exists cached todo mapping self1,
    (if use_cache && has_cache
     then check_cache now 0 text_list (model self) [] [] ∅
     else ret ([], text_list, identity_mapping (length text_list))) self
    = (Ok (cached, todo, mapping), self1)
    /\ accounted vec text_list (length text_list) cached todo mapping
    /\ create self1 = create self
    /\ total_requests (_stats self1) = total_requests (_stats self)) as Hlook.
  { destruct (use_cache && has_cache) eqn:Huse.
    - apply (check_cache_spec vec now text_list (model self) text_list); try done.
      + subst has_cache. destruct (cache self); [by eexists|].
        by rewrite andb_false_r in Huse.
      + split; [|split]; [intros ? ? []%elem_of_nil|intros ? ? [=]|intros; lia].
    - eexists [], text_list, _, self. split; [reflexivity|].
      split; [apply accounted_without_cache|done]. }
  destruct Hlook as (cached & todo & mapping & self1 & Hlook & Hacc & Hcreate1 & Hcount1).
  unfold bind at 1. rewrite Hlook.
  assert (answers_in_order vec self1) as Hanswers1
    by (intros texts' mdl; rewrite Hcreate1; apply Hanswers).
  assert (exists self2,
    (match todo with
     | [] => ret []
     | _ => let* new_embeddings := _call_openai_api todo (model self) in
            run (if use_cache && has_cache
                 then store_new io now (combine todo new_embeddings) (model self)
                 else ret tt) then
            ret new_embeddings
     end) self1 = (Ok (map vec todo), self2)
    /\ create self2 = create self1
    /\ total_requests (_stats self2) = total_requests (_stats self1)) as Hnew.
  { destruct todo as [|t todo]; [by exists self1|].
    destruct (Hanswers1 (t :: todo) (model self)) as [tokens Hcreate].
    unfold bind at 1. unfold _call_openai_api. sred. rewrite Hcreate. sred.
    rewrite embeddings_in_order.
    destruct (use_cache && has_cache).
    - match goal with
      | |- context [store_new io now ?pairs ?mdl ?s] =>
          destruct (store_new_full io now pairs mdl s) as (self3 & -> & Hst & Hcr)
      end.
      exists self3. split; [done|]. rewrite Hst, Hcr. done.
    - by eexists. }
  destruct Hnew as (self2 & Hnew & Hcreate2 & Hcount2).
  unfold bind at 1. rewrite Hnew.
  destruct Hacc as (Hc & Ht & Hall).
  destruct (place_cached_spec vec text_list cached (repeat PyNone (length text_list)))
    as (l1 & Hl1 & Hlen1 & _ & Hcached); [by rewrite repeat_length|done|].
  destruct (place_new_spec vec text_list mapping (map vec todo) 0 l1)
    as (l2 & Hl2 & Hlen2 & Hkeep & Hfresh); [done| |].
  { intros j e Hj.
    change (map vec todo) with (vec <$> todo) in Hj.
    rewrite list_lookup_fmap in Hj.
    destruct (todo !! j) as [t|] eqn:Htj; [|done]. injection Hj as <-.
    destruct (Ht j t Htj) as (p & Hm & Hp). by exists p, t. }
  unfold bind at 1, lift at 1. rewrite Hl1.
  unfold bind at 1, lift at 1. rewrite Hl2.
  destruct (_update_stats_counts latency_ms self2) as (self3 & Hupd & Hcr3 & _ & Hcount3);
    [congruence|].
  unfold bind at 1. rewrite Hupd.
  assert (PyList l2 = vectors_of vec text_list) as Hall2.
  { apply all_placed; [done|]. intros p Hp.
    destruct (Hall p Hp) as [[e He] | (k & t & Hk & Hm)].
    - apply Hkeep. by eapply Hcached.
    - eapply (Hfresh k (vec t) p); [|done].
      change (map vec todo) with (vec <$> todo). by rewrite list_lookup_fmap, Hk. }
  exists self3. split; [|split; congruence].
  injection Hall2 as ->. subst text_list. destruct texts as [t|l]; done.
Qed.

(** X9.  For a single string [embed] returns the vector itself, not a
    list of one vector (provider in order, cache right, counter not at
    -1), and counts one request. *)
Theorem embed_of_one_string vec io now latency_ms t use_cache self :
  strip t <> "" ->
  answers_in_order vec self ->
  cache_agrees vec self ->
  total_requests (_stats self) <> (-1)%Z ->
  exists self',
    embed io now latency_ms (inl t) use_cache self = (Ok (PyList (vec t)), self')
    /\ total_requests (_stats self') = (total_requests (_stats self) + 1)%Z.
Proof.
  intros Ht Hanswers Hagree Hcount.
  destruct (embed_in_order vec io now latency_ms (inl t) use_cache self)
    as (self' & Hrun & _ & Hc); try done.
  - by repeat constructor.
  - by exists self'.
Qed.

(** X10.  When the provider fails, [embed] (here without the cache)
    raises an OpenAIError; the call is counted among the API calls and the
    errors, not among the requests. *)
Theorem embed_surfaces_provider_failures io now latency_ms text_list e self :
  text_list <> [] ->
  Forall (fun t => strip t <> "") text_list ->
  create self text_list (model self) = Raise e ->
  exists code,
    embed io now latency_ms (inr text_list) false self
    = (Raise (OpenAIError code), with_stats incr_errors (with_stats incr_api_calls self)).
Proof.
  intros Hne Hnb Hfail. exists "OPENAI_ERROR".
  unfold embed. rewrite (non_blank_texts text_list Hne Hnb). cbn [andb].
  destruct text_list as [|t text_list]; [done|].
  unfold _call_openai_api. sred. rewrite Hfail. reflexivity.
Qed.

Lemma identity_mapping_beyond s n k :
  (k < s \/ s + n <= k)%nat ->
  (list_to_map (map (fun i => (i, i)) (seq s n)) : gmap nat nat) !! k = None.
Proof.
  revert s. induction n as [|n IH]; intros s Hk; [done|].
  cbn [seq map]. rewrite list_to_map_cons, lookup_insert_ne by lia. apply IH. lia.
Qed.

Lemma drop_repeat {A} (x : A) k n : drop k (repeat x n) = repeat x (n - k).
Proof.
  revert k. induction n as [|n IH]; intros [|k]; cbn; done.
Qed.

(** Placing the vectors of the provider when no text came from the
    cache: one position after the other, and a KeyError past the last
    position. *)
Lemma place_new_identity n new :
  forall idx base,
    length base = n ->
    (idx <= n)%nat ->
    place_new idx new (identity_mapping n) base
    = if decide (idx + length new <= n)%nat
      then Ok (take idx base ++ map PyList new ++ drop (idx + length new) base)%list
      else Raise KeyError.
Proof.
  induction new as [|e new IH]; intros idx base Hlen Hidx.
  - cbn [place_new length map app]. rewrite Nat.add_0_r.
    rewrite decide_True by done. by rewrite take_drop.
  - cbn [place_new length].
    destruct (decide (idx < n)%nat) as [Hlt|Hge].
    + rewrite identity_mapping_lookup by done. unfold list_set.
      rewrite (proj2 (Nat.ltb_lt idx (length base))) by lia. cbn [rbind].
      rewrite IH by (rewrite ?length_insert; lia).
      replace (S idx + length new)%nat with (idx + S (length new))%nat by lia.
      destruct (decide (idx + S (length new) <= n)%nat) as [Hle|Hgt]; [|done].
      f_equal. rewrite (take_S_r _ _ (PyList e)) by (apply list_lookup_insert_eq; lia).
      rewrite take_insert_ge by done. rewrite drop_insert_lt by lia.
      cbn [map]. by rewrite <- app_assoc.
    + unfold identity_mapping. rewrite identity_mapping_beyond by lia.
      by rewrite decide_False by lia.
Qed.

(** X11.  [embed] does not compare the number of vectors in the answer of
    the provider with the number of texts it sent (here without the
    cache): with fewer vectors the texts left over get None in the list
    returned, and with more vectors the call raises a KeyError. *)
Theorem embed_trusts_the_number_of_vectors io now latency_ms text_list answer self :
  text_list <> [] ->
  Forall (fun t => strip t <> "") text_list ->
  create self text_list (model self) = Ok answer ->
  total_requests (_stats self) <> (-1)%Z ->
  exists self',
    embed io now latency_ms (inr text_list) false self
    = (if decide (length (data answer) <= length text_list)%nat
       then Ok (PyList (map (fun item => PyList (embedding item)) (data answer)
                        ++ repeat PyNone (length text_list - length (data answer))))
       else Raise KeyError, self').
Proof.
  intros Hne Hnb Hanswer Hcount.
  unfold embed. rewrite (non_blank_texts text_list Hne Hnb). cbn [andb].
  destruct text_list as [|t text_list]; [done|].
  unfold _call_openai_api. sred. rewrite Hanswer. sred.
  cbn [place_cached]. sred.
  rewrite (place_new_identity (length (t :: text_list)));
    [|by rewrite repeat_length|lia].
  rewrite length_map. cbn [take app Nat.add].
  destruct (decide (length (data answer) <= length (t :: text_list))%nat) as [Hle|Hgt].
  - cbn [rbind]. unfold _update_stats. sred.
    destruct (total_requests (_stats self) + 1 =? 0)%Z eqn:Hz.
    { apply Z.eqb_eq in Hz. lia. }
    eexists. rewrite drop_repeat, map_map. reflexivity.
  - by eexists.
Qed.

(** *** Failures of the cache *)

Lemma _update_stats_by_stats latency_ms self self' :
  _stats self = _stats self' ->
  (_update_stats latency_ms self).1 = (_update_stats latency_ms self').1
  /\ _stats (_update_stats latency_ms self).2 = _stats (_update_stats latency_ms self').2.
Proof.
  intros Hst. unfold _update_stats. sred. rewrite Hst.
  destruct (total_requests (_stats self') + 1 =? 0)%Z; sred; by rewrite ?Hst.
Qed.

Lemma bind_same {A B} (m : M service A) (k k' : A -> M service B) self :
  (forall a s, (k a s).1 = (k' a s).1 /\ _stats (k a s).2 = _stats (k' a s).2) ->
  (bind m k self).1 = (bind m k' self).1
  /\ _stats (bind m k self).2 = _stats (bind m k' self).2.
Proof. intros Hk. unfold bind. destruct (m self) as [[a|e] s]; [apply Hk|done]. Qed.

Lemma bind_alike {A B} (m m' : M service A) (k : A -> M service B) self :
  (m self).1 = (m' self).1 ->
  _stats (m self).2 = _stats (m' self).2 ->
  (forall a s s', _stats s = _stats s' ->
     (k a s).1 = (k a s').1 /\ _stats (k a s).2 = _stats (k a s').2) ->
  (bind m k self).1 = (bind m' k self).1
  /\ _stats (bind m k self).2 = _stats (bind m' k self).2.
Proof.
  intros Hr Hs Hk. unfold bind.
  destruct (m self) as [[a|e] s], (m' self) as [[a'|e'] s']; cbn in *; try done.
  - injection Hr as ->. by apply Hk.
  - by injection Hr as ->.
Qed.

Lemma bind_lift_alike {A B} (r : result A) (k : A -> M service B) s s' :
  _stats s = _stats s' ->
  (forall a, (k a s).1 = (k a s').1 /\ _stats (k a s).2 = _stats (k a s').2) ->
  (bind (lift r) k s).1 = (bind (lift r) k s').1
  /\ _stats (bind (lift r) k s).2 = _stats (bind (lift r) k s').2.
Proof. intros Hst Hk. unfold bind, lift. destruct r; [apply Hk|done]. Qed.

(** X12.  Whether the cache can be written to or not makes no difference
    to what [embed] returns, nor to the counters of the service: a vector
    that cannot be stored costs the caller nothing. *)
Theorem embed_ignores_failures_of_the_cache io io' now latency_ms texts use_cache self :
  (embed io now latency_ms texts use_cache self).1
  = (embed io' now latency_ms texts use_cache self).1
  /\ _stats (embed io now latency_ms texts use_cache self).2
     = _stats (embed io' now latency_ms texts use_cache self).2.
Proof.
  unfold embed.
  set (text_list := match texts with inl t => [t] | inr l => l end).
  destruct (_ || _); [done|].
  apply bind_same. intros mdl s0. apply bind_same. intros has_cache s1.
  apply bind_same. intros [[cached todo] mapping] s2.
  apply bind_alike.
  - destruct todo as [|t todo]; [done|].
    unfold bind at 1 3.
    destruct (_call_openai_api (t :: todo) mdl s2) as [[new|e] s3]; [|done].
    unfold bind.
    destruct (use_cache && has_cache); [|done].
    destruct (store_new_full io now (combine (t :: todo) new) mdl s3) as (s & -> & _).
    by destruct (store_new_full io' now (combine (t :: todo) new) mdl s3) as (s' & -> & _).
  - destruct todo as [|t todo]; [done|].
    unfold bind at 1 3.
    destruct (_call_openai_api (t :: todo) mdl s2) as [[new|e] s3]; [|done].
    unfold bind.
    destruct (use_cache && has_cache); [|done].
    destruct (store_new_full io now (combine (t :: todo) new) mdl s3)
      as (s & -> & Hs & _).
    destruct (store_new_full io' now (combine (t :: todo) new) mdl s3)
      as (s' & -> & Hs' & _).
    cbn. congruence.
  - intros new s s' Hst.
    apply bind_lift_alike; [done|]. intros l1.
    apply bind_lift_alike; [done|]. intros l2.
    unfold bind.
    destruct (_update_stats_by_stats latency_ms s s' Hst) as [Hr Hs].
    destruct (_update_stats latency_ms s) as [[[]|e] s4],
             (_update_stats latency_ms s') as [[[]|e'] s4']; cbn in *; try done.
    + destruct texts; [destruct l2|]; done.
    + by injection Hr as ->.
Qed.

(** *** Batches *)

(** X13.  [embed_batch] at its edges: no text gives the empty list and
    touches nothing; texts that fit into one batch are handed to [embed]
    as they are; with more texts than one batch holds, a batch size of
    zero raises a ValueError and a negative batch size returns the empty
    list without embedding anything. *)
Theorem embed_batch_at_its_edges io now latency_ms texts batch_size use_cache self :
  embed_batch io now latency_ms [] batch_size use_cache self = (Ok (PyList []), self)
  /\ (texts <> [] -> (Z.of_nat (length texts) <= batch_size)%Z ->
      embed_batch io now latency_ms texts batch_size use_cache self
      = embed io now latency_ms (inr texts) use_cache self)
  /\ (texts <> [] -> batch_size = 0%Z ->
      embed_batch io now latency_ms texts batch_size use_cache self
      = (Raise ValueError, self))
  /\ (texts <> [] -> (batch_size < 0)%Z ->
      embed_batch io now latency_ms texts batch_size use_cache self
      = (Ok (PyList []), self)).
Proof.
  split; [done|]. unfold embed_batch. destruct texts as [|t texts].
  { repeat split; done. }
  split; [|split].
  - intros _ Hfit. by rewrite (proj2 (Z.leb_le _ _) Hfit).
  - intros _ ->. rewrite (proj2 (Z.leb_gt _ _)) by (cbn [length]; lia). done.
  - intros _ Hneg. rewrite (proj2 (Z.leb_gt _ _)) by (cbn [length]; lia).
    unfold range_step. rewrite (proj2 (Z.eqb_neq _ _)) by lia.
    by rewrite (proj2 (Z.ltb_lt _ _)) by lia.
Qed.

End EmbedMore.

Section EmbedMoreExamples.
Import OpenAIEmbeddingService.
#[local] Existing Instance Sample.runtime.

Lemma embed_rejects_blank_texts_witness :
  embed Sample.io_ok 0 12 (inr ["alpha"; "  "]) true Sample.service
  = (Raise (ValidationError "VALIDATION_ERROR" "texts"
              (PyList [PyStr "alpha"; PyStr "  "]) []), Sample.service).
Proof.
  apply (embed_rejects_blank_texts Sample.io_ok 0 12 (inr ["alpha"; "  "]) true
           Sample.service).
  right. apply Exists_cons_tl, Exists_cons_hd. by vm_compute.
Defined.

Lemma sample_cache_agrees : cache_agrees Sample.vec Sample.service.
Proof.
  intros c now text mdl e [= <-] (f & v & Hf & _).
  destruct (lookup_empty_Some (M := gmap string) _ _ Hf).
Qed.

Lemma embed_of_one_string_witness :
  exists self',
    embed Sample.io_ok 0 12 (inl "alpha") true Sample.service
    = (Ok (PyList (Sample.vec "alpha")), self')
    /\ total_requests (_stats self') = (0 + 1)%Z.
Proof.
  apply (embed_of_one_string Sample.vec Sample.io_ok 0 12 "alpha" true Sample.service).
  - by vm_compute.
  - intros texts mdl. by exists 7%Z.
  - exact sample_cache_agrees.
  - discriminate.
Defined.

Lemma embed_surfaces_provider_failures_witness :
  exists code,
    embed Sample.io_ok 0 12 (inr ["alpha"; "be"]) false Sample.failing_service
    = (Raise (OpenAIError code),
       with_stats incr_errors (with_stats incr_api_calls Sample.failing_service)).
Proof.
  apply (embed_surfaces_provider_failures Sample.io_ok 0 12 ["alpha"; "be"] OSError
           Sample.failing_service).
  - discriminate.
  - repeat constructor; by vm_compute.
  - reflexivity.
Defined.

Lemma embed_trusts_the_number_of_vectors_witness :
  exists self',
    embed Sample.io_ok 0 12 (inr ["alpha"; "be"]) false Sample.short_service
    = (Ok (PyList [PyList (Sample.vec "alpha"); PyNone]), self').
Proof.
  destruct (embed_trusts_the_number_of_vectors Sample.io_ok 0 12 ["alpha"; "be"]
              (in_order_response Sample.vec ["alpha"] 7) Sample.short_service)
    as [self' Hrun].
  - discriminate.
  - repeat constructor; by vm_compute.
  - reflexivity.
  - discriminate.
  - by exists self'.
Defined.

End EmbedMoreExamples.

(** ** More on the search engine *)

Section EngineMore.
Import ScorpiusRAGEngine.
Context `{PyRuntime}.

(** *** The results of a search *)

Lemma insert_by_key_sorted r l :
  StronglySorted (fun a b => (sort_key b <= sort_key a)%Q) l ->
  StronglySorted (fun a b => (sort_key b <= sort_key a)%Q) (insert_by_key r l).
Proof.
  induction 1 as [|r' l Hs IH Hr']; simpl.
  - repeat constructor.
  - destruct (Qle_bool (sort_key r') (sort_key r)) eqn:Hle.
    + apply Qle_bool_iff in Hle. constructor; [by constructor|].
      constructor; [done|]. eapply Forall_impl; [exact Hr'|].
      simpl. intros x Hx. by eapply Qle_trans.
    + assert (sort_key r <= sort_key r')%Q as Hlt.
      { destruct (Qlt_le_dec (sort_key r) (sort_key r')) as [?|Hge];
          [by apply Qlt_le_weak|].
        apply Qle_bool_iff in Hge. congruence. }
      constructor; [done|]. rewrite insert_by_key_perm. by constructor.
Qed.

Lemma sort_by_relevance_sorted l :
  StronglySorted (fun a b => (sort_key b <= sort_key a)%Q) (sort_by_relevance l).
Proof. induction l; simpl; [constructor|]. by apply insert_by_key_sorted. Qed.

Lemma StronglySorted_take_n {A} (R : A -> A -> Prop) n l :
  StronglySorted R l -> StronglySorted R (take n l).
Proof.
  intros Hs. revert n. induction Hs as [|x l Hs IH Hx]; intros [|n]; cbn;
    try constructor; [apply IH|by apply Forall_take].
Qed.

(** The loop over the neighbours builds well-scored results only. *)
Lemma process_neighbors_scores raw docs mds dists collection floor context :
  first_row (documents raw) = Ok docs ->
  first_row (metadatas raw) = Ok mds ->
  first_row (distances raw) = Ok dists ->
  length mds = length docs ->
  length dists = length docs ->
  Forall (fun d => 0 <= d)%Q dists ->
  Forall (fun md => organisme_is_text (default [] md)) mds ->
  forall n k acc,
    (k + n = length docs)%nat ->
    Forall well_scored acc ->
    exists all,
      process_neighbors (seq k n) raw collection floor context acc = Ok all
      /\ Forall well_scored all.
Proof.
  intros Hdocs Hmds Hdists Hlm Hld Hpos Htext.
  induction n as [|n IH]; intros k acc Hk Hacc.
  - by exists acc.
  - destruct (lookup_lt_is_Some_2 docs k) as [doc Hdoc]; [lia|].
    destruct (lookup_lt_is_Some_2 mds k) as [md Hmd]; [lia|].
    destruct (lookup_lt_is_Some_2 dists k) as [d Hd]; [lia|].
    cbn [seq process_neighbors]. unfold list_get.
    rewrite Hdocs; cbn [rbind]; rewrite Hdoc; cbn [rbind].
    rewrite Hmds; cbn [rbind]; rewrite Hmd; cbn [rbind].
    rewrite Hdists; cbn [rbind]; rewrite Hd; cbn [rbind].
    assert (match md with Some (kv :: more) => kv :: more | _ => [] end = default [] md)
      as -> by (by destruct md as [[|]|]).
    destruct (Qltb (similarity_of_distance d) floor) eqn:Hlow.
    + apply IH; [lia|done].
    + assert (0 <= d)%Q as Hd0
        by (rewrite Forall_forall in Hpos; apply Hpos; by eapply list_elem_of_lookup_2).
      assert (organisme_is_text (default [] md)) as Hmdt
        by (rewrite Forall_forall in Htext; apply (Htext md); by eapply list_elem_of_lookup_2).
      destruct (relevance_bounds (default [] md) context (similarity_of_distance d) Hmdt
                  (similarity_le_1 d Hd0)) as (score & -> & Hlo & Hhi).
      cbn [rbind]. unfold new_SearchResult.
      rewrite (outside_unit_false (similarity_of_distance d))
        by (apply similarity_nonneg || by apply similarity_le_1).
      rewrite (outside_unit_false score)
        by (done || (eapply Qle_trans; [apply (similarity_nonneg d)|done])).
      cbn [rbind]. apply IH; [lia|].
      apply Forall_app. split; [done|]. constructor; [|constructor].
      split; [apply similarity_nonneg|]. split; [by apply similarity_le_1|].
      by exists score.
Qed.

(** X14.  Under the conditions of the score-and-filter step and for a
    limit that is not negative, [_process_search_results] returns at most
    [limit] results, in the order of decreasing relevance (the similarity
    standing in for a relevance of zero); each has its scores in [0, 1] and
    a relevance that is at least its similarity. *)
Theorem results_are_cut_and_sorted raw docs mds dists collection floor context limit :
  first_row (documents raw) = Ok docs ->
  first_row (metadatas raw) = Ok mds ->
  first_row (distances raw) = Ok dists ->
  length mds = length docs ->
  length dists = length docs ->
  Forall (fun d => 0 <= d)%Q dists ->
  Forall (fun md => organisme_is_text (default [] md)) mds ->
  (0 <= limit)%Z ->
  exists results,
    _process_search_results raw collection floor context limit = Ok results
    /\ (Z.of_nat (length results) <= limit)%Z
    /\ StronglySorted (fun a b => (sort_key b <= sort_key a)%Q) results
    /\ Forall well_scored results.
Proof.
  intros Hdocs Hmds Hdists Hlm Hld Hpos Htext Hlimit.
  destruct (process_neighbors_scores raw docs mds dists collection floor context
              Hdocs Hmds Hdists Hlm Hld Hpos Htext (length docs) 0 [])
    as (processed & Hrun & Hscores); [lia|constructor|].
  exists (slice_to limit (sort_by_relevance processed)).
  assert (slice_to limit (sort_by_relevance processed)
          = take (Z.to_nat limit) (sort_by_relevance processed)) as Hslice
    by (unfold slice_to; by rewrite (proj2 (Z.leb_le 0 limit) Hlimit)).
  split; [|split; [|split]].
  - unfold _process_search_results.
    destruct (documents raw) as [[|docs' more]|] eqn:Hd; try discriminate.
    injection Hdocs as ->.
    destruct docs as [|doc docs].
    + cbn in Hrun. injection Hrun as <-. rewrite Hslice. cbn. by rewrite take_nil.
    + by rewrite Hrun.
  - rewrite Hslice, length_take. lia.
  - rewrite Hslice. apply StronglySorted_take_n, sort_by_relevance_sorted.
  - apply slice_to_Forall. by rewrite sort_by_relevance_perm.
Qed.

Lemma Qgtb_true a b : Qgtb a b = true <-> (b < a)%Q.
Proof.
  unfold Qgtb. rewrite negb_true_iff. split.
  - intros Hle. destruct (Qlt_le_dec b a) as [|Hge]; [done|].
    apply Qle_bool_iff in Hge. congruence.
  - intros Hlt. destruct (Qle_bool a b) eqn:Hle; [|done].
    apply Qle_bool_iff in Hle. lra.
Qed.

(** What [_process_search_results] returns reaches the floor. *)
Lemma score_and_filter_results raw docs mds dists collection floor context limit :
  first_row (documents raw) = Ok docs ->
  first_row (metadatas raw) = Ok mds ->
  first_row (distances raw) = Ok dists ->
  length mds = length docs ->
  length dists = length docs ->
  Forall (fun d => 0 <= d)%Q dists ->
  Forall (fun md => organisme_is_text (default [] md)) mds ->
  exists results,
    _process_search_results raw collection floor context limit = Ok results
    /\ Forall (fun r => (floor <= similarity_score r)%Q) results.
Proof.
  intros Hdocs Hmds Hdists Hlm Hld Hpos Htext.
  destruct (process_neighbors_spec raw docs mds dists collection floor context
              Hdocs Hmds Hdists Hlm Hld Hpos Htext (length docs) 0 [])
    as (processed & Hrun & Hrel); [lia|].
  rewrite drop_0 in Hrel. cbn [app] in Hrun.
  exists (slice_to limit (sort_by_relevance processed)). split.
  - unfold _process_search_results.
    destruct (documents raw) as [[|docs' more]|] eqn:Hd; try discriminate.
    injection Hdocs as ->.
    destruct docs as [|doc docs].
    + cbn in Hrun. injection Hrun as <-. unfold slice_to. cbn.
      destruct (0 <=? limit)%Z; by rewrite take_nil.
    + by rewrite Hrun.
  - apply slice_to_Forall. rewrite sort_by_relevance_perm.
    by eapply results_reach_the_floor.
Qed.

(** X15.  A result is highly relevant exactly when its confidence level
    is "Haute", and its confidence level is "Faible" exactly when its
    similarity is at most 0.6.  So, under the conditions of the
    score-and-filter step, a floor above 0.8 leaves only highly relevant
    results, and a floor above 0.6 no result of low confidence. *)
Theorem confidence_follows_the_floor raw docs mds dists collection floor context limit :
  first_row (documents raw) = Ok docs ->
  first_row (metadatas raw) = Ok mds ->
  first_row (distances raw) = Ok dists ->
  length mds = length docs ->
  length dists = length docs ->
  Forall (fun d => 0 <= d)%Q dists ->
  Forall (fun md => organisme_is_text (default [] md)) mds ->
  (forall r, is_highly_relevant r = true <-> confidence_level r = "Haute")
  /\ (forall r, confidence_level r = "Faible" <-> (similarity_score r <= 0.6)%Q)
  /\ exists results,
       _process_search_results raw collection floor context limit = Ok results
       /\ ((0.8 < floor)%Q -> Forall (fun r => is_highly_relevant r = true) results)
       /\ ((0.6 < floor)%Q -> Forall (fun r => confidence_level r <> "Faible") results).
Proof.
  intros Hdocs Hmds Hdists Hlm Hld Hpos Htext.
  assert (forall r, confidence_level r = "Faible" <-> (similarity_score r <= 0.6)%Q) as Hlow.
  { intros r. unfold confidence_level.
    destruct (Qgtb (similarity_score r) 0.8) eqn:H8.
    { apply Qgtb_true in H8. split; [done|]. intros; exfalso; lra. }
    destruct (Qgtb (similarity_score r) 0.6) eqn:H6.
    { apply Qgtb_true in H6. split; [done|]. intros; exfalso; lra. }
    split; [|done]. intros _.
    destruct (Qlt_le_dec 0.6 (similarity_score r)) as [Hlt|]; [|done].
    apply Qgtb_true in Hlt. congruence. }
  split; [|split; [exact Hlow|]].
  { intros r. unfold is_highly_relevant, confidence_level.
    destruct (Qgtb (similarity_score r) 0.8); [done|].
    by destruct (Qgtb (similarity_score r) 0.6). }
  destruct (score_and_filter_results raw docs mds dists collection floor context limit
              Hdocs Hmds Hdists Hlm Hld Hpos Htext) as (results & Hrun & Hfloor).
  exists results. split; [done|]. split; intros Hf.
  - eapply Forall_impl; [exact Hfloor|]. cbn. intros r Hr.
    apply Qgtb_true. lra.
  - eapply Forall_impl; [exact Hfloor|]. cbn. intros r Hr Hc.
    apply Hlow in Hc. lra.
Qed.

(** *** Errors of a search *)

Ltac estep :=
  cbv beta iota delta [bind try_except modify gets ret raise lift log_call
                       remember_collection];
  repeat (progress (cbv beta; cbn [fst snd calls _stats _collections with_stats
                                   total_searches incr_total_searches
                                   incr_collections_created collections_created
                                   negb is_ScorpiusError])).

(** X16.  Whatever goes wrong, [search] raises an error of the family of
    ScorpiusError.  When the arguments pass the checks and the embedding
    service raises, an error of that family goes through as it is, and
    any other is replaced by a ScorpiusError "RAG_SEARCH_FAILED" that
    carries the length of the query, the collection and the limit. *)
Theorem search_raises_scorpius_errors env query collection limit context filters floor
  self :
  match (search env query collection limit context filters floor self).1 with
  | Ok _ => True
  | Raise e => is_ScorpiusError e = true
  end
  /\ (forall e,
        acceptable query limit floor ->
        embedding_service_embed env (_enrich_query_with_context query context) = Raise e ->
        (search env query collection limit context filters floor self).1
        = Raise (if is_ScorpiusError e then e
                 else ScorpiusError "RAG_SEARCH_FAILED"
                        [("query_length", PyInt (Z.of_nat (str_len query)));
                         ("collection", PyStr collection);
                         ("limit", PyInt limit)])).
Proof.
  split.
  - unfold search.
    destruct (_ || _); [done|]. destruct (_ || _); [done|].
    destruct (outside_unit floor); [done|].
    unfold try_except at 1.
    match goal with |- context [let (_, _) := ?body self in _] => destruct (body self) as [[r|e] s] end;
      [done|].
    estep. by destruct (is_ScorpiusError e) eqn:He.
  - intros e (Hq%not_blank_test & Hl%limit_test & Hf0 & Hf1) Hembed.
    unfold search. rewrite Hq, Hl, (outside_unit_false floor Hf0 Hf1).
    estep. rewrite Hembed. estep. by destruct (is_ScorpiusError e).
Qed.

(** *** Collections *)

Lemma known_after_remember name self x :
  existsb (String.eqb name) (_collections self ++ [name] ++ x) = true.
Proof.
  rewrite existsb_app. apply orb_true_iff. right. cbn. by rewrite String.eqb_refl.
Qed.

(** X17.  [_get_or_create_collection] asks ChromaDB for a collection
    once: for a collection the engine holds it returns at once and
    nothing is called or changed; when it returns for another, the engine
    holds that collection from then on; and when it raises, it raises a
    ChromaDBError "COLLECTION_ACCESS_FAILED" and the engine holds what it
    held before. *)
Theorem _get_or_create_collection_remembers env name self :
  exists r self',
    _get_or_create_collection env name self = (r, self')
    /\ (known self name -> r = Ok tt /\ self' = self)
    /\ (r = Ok tt -> known self' name)
    /\ (forall e, r = Raise e ->
          e = ChromaDBError "COLLECTION_ACCESS_FAILED"
          /\ _collections self' = _collections self).
Proof.
  unfold _get_or_create_collection, known. estep.
  destruct (existsb (String.eqb name) (_collections self)) eqn:Hknown.
  { eexists _, _. split; [reflexivity|]. split; [done|]. split; [done|]. by intros e [=]. }
  assert (forall x, existsb (String.eqb name) (_collections self ++ [name] ++ x) = true)
    as Hnow by apply known_after_remember.
  destruct (chroma_get_collection env name) as [[]|e].
  { eexists _, _. split; [reflexivity|]. split; [done|]. split; [|by intros e [=]].
    intros _. cbn. apply (Hnow []). }
  destruct e; estep;
    try (eexists _, _; split; [reflexivity|]; split; [done|]; split; [done|];
         by intros ? [= <-]).
  destruct (chroma_create_collection env name) as [[]|e]; estep.
  - eexists _, _. split; [reflexivity|]. split; [done|]. split; [|by intros e [=]].
    intros _. cbn. apply (Hnow []).
  - eexists _, _. split; [reflexivity|]. split; [done|]. split; [done|].
    by intros ? [= <-].
Qed.

(** *** Filters *)

Lemma dict_get_dict_set d k v k' :
  dict_get (dict_set d k v) k' = if String.eqb k k' then Some v else dict_get d k'.
Proof.
  induction d as [|[k0 v0] d IH]; cbn.
  - done.
  - destruct (String.eqb k0 k) eqn:E0; cbn.
    + apply String.eqb_eq in E0 as ->. by destruct (String.eqb k k').
    + destruct (String.eqb k0 k') eqn:E1.
      * apply String.eqb_eq in E1 as ->.
        rewrite String.eqb_sym in E0. by rewrite E0.
      * exact IH.
Qed.

Lemma dict_get_dict_update other :
  forall d k,
    NoDup other.*1 ->
    dict_get (dict_update d other) k
    = match dict_get other k with Some v => Some v | None => dict_get d k end.
Proof.
  unfold dict_update. induction other as [|[k0 v0] other IH]; intros d k Hnd; [done|].
  apply NoDup_cons in Hnd as [Hk0 Hnd]. cbn [fold_left fst snd dict_get].
  rewrite IH by done. rewrite dict_get_dict_set.
  destruct (String.eqb k0 k) eqn:E.
  - apply String.eqb_eq in E as ->.
    destruct (dict_get other k) as [v|] eqn:Hv; [|done].
    destruct Hk0. clear -Hv. induction other as [|[k1 v1] other IH]; [done|].
    cbn in *. destruct (String.eqb k1 k) eqn:E1.
    + apply String.eqb_eq in E1 as ->. left.
    + right. by apply IH.
  - done.
Qed.

(** X18.  The filters that [_build_metadata_filters] hands to ChromaDB:
    none at all without a context and without additional filters; with a
    context, the sector and the kind of call for tenders always, and the
    range of amounts when an amount is given; and an additional filter
    takes the place of the filter of the context on the same key.  The
    additional filters are a dict: no key twice. *)
Theorem additional_filters_take_precedence context (additional : list (string * pyval)) :
  NoDup additional.*1 ->
  _build_metadata_filters None None = None
  /\ _build_metadata_filters None (Some []) = None
  /\ (exists filters,
        _build_metadata_filters (Some context) None = Some filters
        /\ dict_get filters "secteur" = Some (PyStr (Sector_value (sector context)))
        /\ dict_get filters "type_ao" = Some (PyStr (AOType_value (ao_type context)))
        /\ dict_get filters "fourchette_montant"
           = if amount_given context then Some (PyStr (get_amount_range context))
             else None)
  /\ (additional <> [] ->
      exists base filters,
        _build_metadata_filters (Some context) None = Some base
        /\ _build_metadata_filters (Some context) (Some additional) = Some filters
        /\ forall k,
             dict_get filters k
             = match dict_get additional k with
               | Some v => Some v
               | None => dict_get base k
               end).
Proof.
  intros Hnd. split; [done|]. split; [done|].
  unfold _build_metadata_filters.
  set (base := match technical_domains context with [] => _ | _ => _ end).
  assert (base <> []) as Hbase.
  { subst base. destruct (technical_domains context), (amount_given context); done. }
  assert (dict_get base "secteur" = Some (PyStr (Sector_value (sector context)))
          /\ dict_get base "type_ao" = Some (PyStr (AOType_value (ao_type context)))
          /\ dict_get base "fourchette_montant"
             = if amount_given context then Some (PyStr (get_amount_range context))
               else None) as Hkeys.
  { subst base. destruct (technical_domains context), (amount_given context); done. }
  split.
  - exists base. split; [by destruct base|]. exact Hkeys.
  - intros Hne. exists base, (dict_update base additional).
    split; [by destruct base|]. split.
    + destruct additional as [|kv more]; [done|].
      destruct (dict_update base (kv :: more)) eqn:Hupd; [|done].
      exfalso. destruct kv as [k v].
      assert (dict_get (dict_update base ((k, v) :: more)) k = Some v) as Hk
        by (rewrite dict_get_dict_update by done; cbn; by rewrite String.eqb_refl).
      by rewrite Hupd in Hk.
    + intros k. by apply dict_get_dict_update.
Qed.

(** X19.  An estimated amount of 0 counts as no amount at all: the query
    is enriched, the filters are built and the relevance is computed as
    for a context without an amount -- no range of amounts in the query
    or the filters, no bonus for the range -- although [get_amount_range]
    puts the amount 0 in the range "0-25k". *)
Theorem amount_zero_is_no_amount ao_type sector technical_domains organisme query
  additional metadata base :
  let zero := {| ao_type := ao_type; sector := sector; estimated_amount := Some 0%Z;
                 technical_domains := technical_domains; organisme := organisme |} in
  let none := {| ao_type := ao_type; sector := sector; estimated_amount := None;
                 technical_domains := technical_domains; organisme := organisme |} in
  get_amount_range zero = "0-25k"
  /\ _enrich_query_with_context query (Some zero)
     = _enrich_query_with_context query (Some none)
  /\ _build_metadata_filters (Some zero) additional
     = _build_metadata_filters (Some none) additional
  /\ _calculate_contextual_relevance metadata (Some zero) base
     = _calculate_contextual_relevance metadata (Some none) base
  /\ amount_range_matches metadata zero = false.
Proof. intros zero none. repeat split. Qed.

End EngineMore.

Section EngineMoreExamples.
Import ScorpiusRAGEngine.
#[local] Existing Instance Sample.runtime.

Lemma sample_distances_not_negative : Forall (fun d => 0 <= d)%Q Sample.distances.
Proof. repeat constructor; by vm_compute. Qed.

Lemma sample_metadatas_are_text :
  Forall (fun md => organisme_is_text (default [] md)) Sample.metadatas.
Proof.
  repeat constructor.
  - apply matching_metadata_is_text.
  - intros v [=].
  - intros v [=].
Qed.

Lemma results_are_cut_and_sorted_witness :
  exists results,
    _process_search_results Sample.neighbours "historique_ao" 0.1 (Some Sample.context) 1
    = Ok results
    /\ (Z.of_nat (length results) <= 1)%Z
    /\ StronglySorted (fun a b => (sort_key b <= sort_key a)%Q) results
    /\ Forall well_scored results.
Proof.
  apply (results_are_cut_and_sorted Sample.neighbours Sample.documents Sample.metadatas
           Sample.distances "historique_ao" 0.1 (Some Sample.context) 1);
    try reflexivity.
  - exact sample_distances_not_negative.
  - exact sample_metadatas_are_text.
  - lia.
Defined.

Lemma confidence_follows_the_floor_witness :
  exists results,
    _process_search_results Sample.neighbours "historique_ao" 0.7 (Some Sample.context) 5
    = Ok results
    /\ ((0.8 < 0.7)%Q -> Forall (fun r => is_highly_relevant r = true) results)
    /\ ((0.6 < 0.7)%Q -> Forall (fun r => confidence_level r <> "Faible") results).
Proof.
  apply (confidence_follows_the_floor Sample.neighbours Sample.documents Sample.metadatas
           Sample.distances "historique_ao" 0.7 (Some Sample.context) 5);
    try reflexivity.
  - exact sample_distances_not_negative.
  - exact sample_metadatas_are_text.
Defined.

Lemma additional_filters_take_precedence_witness :
  exists base filters,
    _build_metadata_filters (Some Sample.context) None = Some base
    /\ _build_metadata_filters (Some Sample.context)
         (Some [("secteur", PyStr "Hospitalier")]) = Some filters
    /\ forall k,
         dict_get filters k
         = match dict_get [("secteur", PyStr "Hospitalier")] k with
           | Some v => Some v
           | None => dict_get base k
           end.
Proof.
  destruct (additional_filters_take_precedence Sample.context
              [("secteur", PyStr "Hospitalier")]) as (_ & _ & _ & Hadd).
  - repeat constructor. by intros []%elem_of_nil.
  - by apply Hadd.
Defined.

End EngineMoreExamples.

(** ** Adding documents *)

Section AddDocuments.
Import ScorpiusRAGEngine.
Context `{PyRuntime}.

Ltac dstep :=
  cbv beta iota delta [bind try_except modify gets ret raise lift log_call
                       remember_collection];
  repeat (progress (cbv beta; cbn [fst snd calls _stats _collections with_stats
                                   total_searches total_documents_added
                                   total_embeddings_generated
                                   incr_collections_created add_documents_added
                                   negb is_ScorpiusError])).

(** The first check of [add_documents]. *)
Lemma documents_test documents :
  negb (truthy (PyList (map PyStr documents)))
  || negb (forallb (fun doc => truthy (PyStr (strip doc))) documents) = false
  <-> documents <> [] /\ Forall (fun doc => ~ blank doc) documents.
Proof.
  rewrite orb_false_iff, !negb_false_iff, forallb_forall, Forall_forall.
  split.
  - intros [Hne Hall]. split; [by destruct documents|].
    intros doc Hdoc Hblank. apply list_elem_of_In, Hall in Hdoc.
    cbn [truthy] in Hdoc. apply negb_true_iff, String.eqb_neq in Hdoc.
    by apply Hdoc, strip_empty.
  - intros [Hne Hall]. split; [by destruct documents|].
    intros doc Hdoc%list_elem_of_In. cbn [truthy].
    apply negb_true_iff, String.eqb_neq. intros Hs%strip_empty. by apply (Hall doc).
Qed.

Lemma ids_used_eq ing collection documents ids :
  match ids with
  | Some (id :: more) => id :: more
  | _ => generate_ids collection (timestamp_ms ing) (length documents)
  end = ids_used ing collection documents ids.
Proof. by destruct ids as [[|id more]|]. Qed.

Lemma metadatas_used_eq documents (metadatas : option (list (list (string * pyval)))) :
  match metadatas with
  | Some (metadata :: more) => metadata :: more
  | _ => map (fun _ => []) documents
  end = metadatas_used documents metadatas.
Proof. by destruct metadatas as [[|metadata more]|]. Qed.

Lemma length_metadatas_used documents metadatas :
  (given metadatas = true -> len_of metadatas = length documents) ->
  length (metadatas_used documents metadatas) = length documents.
Proof.
  unfold metadatas_used. destruct (given metadatas) eqn:Hg.
  - intros Hlen. destruct metadatas as [metadatas|]; [by apply Hlen|done].
  - intros _. by rewrite length_map.
Qed.

Lemma enrich_metadatas_spec ing collection documents :
  forall metadatas i acc,
    i + length metadatas <= length documents ->
    exists out,
      enrich_metadatas ing collection documents i metadatas acc = Ok (acc ++ out)%list
      /\ length out = length metadatas
      /\ forall k metadata,
           metadatas !! k = Some metadata ->
           exists document,
             documents !! (i + k) = Some document
             /\ out !! k = Some (enriched_of ing collection (i + k) metadata document).
Proof.
  intros mds. induction mds as [|metadata rest IH]; intros i acc Hlen.
  { exists []. by rewrite app_nil_r. }
  cbn [length] in Hlen. cbn [enrich_metadatas]. unfold list_get.
  destruct (lookup_lt_is_Some_2 documents i) as [document Hdoc]; [lia|].
  rewrite Hdoc. cbn [rbind].
  destruct (IH (S i) (acc ++ [enriched_of ing collection i metadata document])%list)
    as (out & Hrun & Hout & Hat); [lia|].
  exists (enriched_of ing collection i metadata document :: out).
  split; [|split].
  - unfold enriched_of in Hrun. rewrite Hrun. by rewrite <- app_assoc.
  - cbn. by rewrite Hout.
  - intros [|k] metadata' Hk.
    + injection Hk as <-. exists document. by rewrite Nat.add_0_r.
    + cbn in Hk. destruct (Hat k metadata' Hk) as (document' & Hdoc' & Hk').
      exists document'. by replace (i + S k) with (S i + k) by lia.
Qed.

(** Getting or creating a collection leaves the counters of searches and
    of documents alone, and raises errors of the repository only. *)
Lemma _get_or_create_collection_documents env name self :
  exists r self',
    _get_or_create_collection env name self = (r, self')
    /\ total_searches (_stats self') = total_searches (_stats self)
    /\ total_documents_added (_stats self') = total_documents_added (_stats self)
    /\ total_embeddings_generated (_stats self')
       = total_embeddings_generated (_stats self)
    /\ (r = Ok tt -> known self' name)
    /\ (forall e, r = Raise e -> is_ScorpiusError e = true).
Proof.
  unfold _get_or_create_collection, known. dstep.
  destruct (existsb (String.eqb name) (_collections self)) eqn:Hknown.
  { eexists _, _. split; [reflexivity|]. repeat apply conj; try done. }
  assert (forall x, existsb (String.eqb name) (_collections self ++ [name] ++ x)%list = true)
    as Hnow by apply known_after_remember.
  destruct (chroma_get_collection env name) as [[]|e].
  { eexists _, _. split; [reflexivity|]. repeat apply conj; try done.
    intros _. cbn. apply (Hnow []). }
  destruct e; dstep;
    try (eexists _, _; split; [reflexivity|]; repeat apply conj; try done;
         by intros ? [= <-]).
  destruct (chroma_create_collection env name) as [[]|e]; dstep.
  - eexists _, _. split; [reflexivity|]. repeat apply conj; try done.
    intros _. cbn. apply (Hnow []).
  - eexists _, _. split; [reflexivity|]. repeat apply conj; try done.
    by intros ? [= <-].
Qed.

(** The body of [add_documents], once its three checks have passed. *)
Lemma add_documents_addable env ing collection documents metadatas ids self :
  addable documents metadatas ids ->
  add_documents env ing collection documents metadatas ids self
  = try_except
      (run _get_or_create_collection env collection then
       let* enriched_metadatas :=
         lift (enrich_metadatas ing collection documents 0
                 (metadatas_used documents metadatas) []) in
       run lift (collection_add ing collection documents enriched_metadatas
                   (ids_used ing collection documents ids)) then
       run modify (with_stats (add_documents_added (Z.of_nat (length documents)))) then
       ret [("documents_added", PyInt (Z.of_nat (length documents)));
            ("collection", PyStr collection);
            ("duration_ms", PyFloat (add_duration_ms ing));
            ("estimated_cost_usd", PyFloat (embedding_service_estimate_cost ing documents));
            ("total_characters", PyInt (Z.of_nat (list_sum (map str_len documents))));
            ("ids_generated", PyList (map PyStr (ids_used ing collection documents ids)))])
      (fun e =>
         if negb (is_ScorpiusError e) then
           raise (ScorpiusError "ADD_DOCUMENTS_FAILED"
                    [("collection", PyStr collection);
                     ("documents_count", PyInt (Z.of_nat (length documents)))])
         else raise e) self.
Proof.
  intros (Hne & Hall & Hmd & Hids). unfold add_documents.
  rewrite (proj2 (documents_test documents)) by done.
  replace (given metadatas && negb (len_of metadatas =? length documents)%nat) with false.
  2:{ destruct (given metadatas); [|done]. by rewrite Hmd, Nat.eqb_refl. }
  replace (given ids && negb (len_of ids =? length documents)%nat) with false.
  2:{ destruct (given ids); [|done]. by rewrite Hids, Nat.eqb_refl. }
  by rewrite ids_used_eq, metadatas_used_eq.
Qed.

(** X20.  [add_documents] checks its arguments before anything else: an
    empty list of documents, or one that holds an empty or blank document,
    raises a ValidationError on the field documents, whose value is the
    number of documents followed by the word documents; otherwise a
    non-empty list of metadatas of another length than the documents raises
    one on the field metadatas; otherwise a non-empty list of ids of
    another length raises one on the field ids.  In the three cases the
    engine is left as it was. *)
Theorem add_documents_validates_its_input env ing collection documents metadatas ids self :
  ((documents = [] \/ Exists blank documents) ->
   add_documents env ing collection documents metadatas ids self
   = (Raise (ValidationError "VALIDATION_ERROR" "documents"
               (PyStr (pretty (length documents) +:+ " documents")) []), self))
  /\ (documents <> [] -> Forall (fun doc => ~ blank doc) documents ->
      given metadatas = true -> len_of metadatas <> length documents ->
      add_documents env ing collection documents metadatas ids self
      = (Raise (ValidationError "VALIDATION_ERROR" "metadatas" PyNone []), self))
  /\ (documents <> [] -> Forall (fun doc => ~ blank doc) documents ->
      (given metadatas = true -> len_of metadatas = length documents) ->
      given ids = true -> len_of ids <> length documents ->
      add_documents env ing collection documents metadatas ids self
      = (Raise (ValidationError "VALIDATION_ERROR" "ids" PyNone []), self)).
Proof.
  split; [|split].
  - intros Hbad. unfold add_documents.
    destruct (negb (truthy (PyList (map PyStr documents))) || _) eqn:Htest; [done|].
    apply documents_test in Htest as [Hne Hall]. destruct Hbad as [->|Hex]; [done|].
    apply Exists_exists in Hex as (doc & Hdoc & Hblank).
    rewrite Forall_forall in Hall. by destruct (Hall doc Hdoc).
  - intros Hne Hall Hg Hlen. unfold add_documents.
    rewrite (proj2 (documents_test documents)) by done. rewrite Hg.
    by apply Nat.eqb_neq in Hlen as ->.
  - intros Hne Hall Hmd Hg Hlen. unfold add_documents.
    rewrite (proj2 (documents_test documents)) by done.
    replace (given metadatas && negb (len_of metadatas =? length documents)%nat)
      with false.
    2:{ destruct (given metadatas); [|done]. by rewrite Hmd, Nat.eqb_refl. }
    rewrite Hg. by apply Nat.eqb_neq in Hlen as ->.
Qed.

(** X21.  When the arguments pass the checks and the collection can be
    got or created, [add_documents] hands the documents to the collection
    with one enriched metadata per document and with the ids given (or
    generated ones); if the collection takes them, the call returns the
    number of documents, the collection, the duration, the estimated cost,
    the number of characters and the ids used, the two counters of
    documents and of embeddings have grown by the number of documents, the
    counter of searches has not moved, and the engine holds the
    collection. *)
Theorem add_documents_adds_and_counts env ing collection documents metadatas ids self :
  addable documents metadatas ids ->
  (_get_or_create_collection env collection self).1 = Ok tt ->
  exists enriched,
    enrich_metadatas ing collection documents 0 (metadatas_used documents metadatas) []
    = Ok enriched
    /\ (collection_add ing collection documents enriched
          (ids_used ing collection documents ids) = Ok tt ->
        exists self',
          add_documents env ing collection documents metadatas ids self
          = (Ok [("documents_added", PyInt (Z.of_nat (length documents)));
                 ("collection", PyStr collection);
                 ("duration_ms", PyFloat (add_duration_ms ing));
                 ("estimated_cost_usd",
                  PyFloat (embedding_service_estimate_cost ing documents));
                 ("total_characters",
                  PyInt (Z.of_nat (list_sum (map str_len documents))));
                 ("ids_generated",
                  PyList (map PyStr (ids_used ing collection documents ids)))], self')
          /\ total_documents_added (_stats self')
             = (total_documents_added (_stats self) + Z.of_nat (length documents))%Z
          /\ total_embeddings_generated (_stats self')
             = (total_embeddings_generated (_stats self) + Z.of_nat (length documents))%Z
          /\ total_searches (_stats self') = total_searches (_stats self)
          /\ known self' collection).
Proof.
  intros Hok Hgot.
  destruct (enrich_metadatas_spec ing collection documents
              (metadatas_used documents metadatas) 0 []) as (enriched & Hrun & _).
  { rewrite length_metadatas_used; [lia|]. apply Hok. }
  change ([] ++ enriched)%list with enriched in Hrun.
  exists enriched. split; [done|]. intros Hadd.
  rewrite add_documents_addable by done.
  destruct (_get_or_create_collection_documents env collection self)
    as (r & self1 & Hgoc & Hs & Hd & He & Hknown & _).
  rewrite Hgoc in Hgot. cbn in Hgot. subst r.
  unfold try_except, bind at 1. rewrite Hgoc. dstep. rewrite Hrun. dstep.
  rewrite Hadd. dstep.
  eexists. split; [reflexivity|]. dstep.
  rewrite Hs, Hd, He. repeat apply conj; try done. by apply Hknown.
Qed.

(** X22.  [add_documents] raises errors of the repository only, and a
    call that raises counts nothing: the counters of documents, of
    embeddings and of searches are what they were.  When the arguments
    pass the checks and the collection can be got or created, an exception
    of the collection's [add] that is not one of the repository comes out
    as the ScorpiusError "ADD_DOCUMENTS_FAILED", which carries the name of
    the collection and the number of documents. *)
Theorem add_documents_raises_scorpius_errors env ing collection documents metadatas ids
  self :
  exists r self',
    add_documents env ing collection documents metadatas ids self = (r, self')
    /\ total_searches (_stats self') = total_searches (_stats self)
    /\ (forall e, r = Raise e ->
          is_ScorpiusError e = true
          /\ total_documents_added (_stats self') = total_documents_added (_stats self)
          /\ total_embeddings_generated (_stats self')
             = total_embeddings_generated (_stats self))
    /\ (addable documents metadatas ids ->
        (_get_or_create_collection env collection self).1 = Ok tt ->
        forall enriched e,
          enrich_metadatas ing collection documents 0
            (metadatas_used documents metadatas) [] = Ok enriched ->
          collection_add ing collection documents enriched
            (ids_used ing collection documents ids) = Raise e ->
          is_ScorpiusError e = false ->
          r = Raise (ScorpiusError "ADD_DOCUMENTS_FAILED"
                       [("collection", PyStr collection);
                        ("documents_count", PyInt (Z.of_nat (length documents)))])).
Proof.
  destruct (_get_or_create_collection_documents env collection self)
    as (r1 & self1 & Hgoc & Hs & Hd & He & _ & Hr1).
  unfold add_documents.
  destruct (negb (truthy (PyList (map PyStr documents))) || _) eqn:Htest.
  { eexists _, _. split; [reflexivity|]. split; [done|]. split.
    - by intros e [= <-].
    - intros (Hne & Hall & _) _.
      rewrite (proj2 (documents_test documents)) in Htest; done. }
  destruct (given metadatas && _) eqn:Hmd.
  { eexists _, _. split; [reflexivity|]. split; [done|]. split.
    - by intros e [= <-].
    - intros (_ & _ & Hlen & _) _. apply andb_true_iff in Hmd as [Hg Hneq].
      rewrite (Hlen Hg), Nat.eqb_refl in Hneq. done. }
  destruct (given ids && _) eqn:Hids.
  { eexists _, _. split; [reflexivity|]. split; [done|]. split.
    - by intros e [= <-].
    - intros (_ & _ & _ & Hlen) _. apply andb_true_iff in Hids as [Hg Hneq].
      rewrite (Hlen Hg), Nat.eqb_refl in Hneq. done. }
  rewrite ids_used_eq, metadatas_used_eq.
  unfold try_except, bind at 1. rewrite Hgoc.
  destruct r1 as [[]|e1].
  2:{ rewrite (Hr1 e1 eq_refl). dstep. eexists _, _. split; [reflexivity|].
      split; [done|]. split.
      - intros e [= <-]. by rewrite (Hr1 e1 eq_refl).
      - intros _ Hgot. by cbn in Hgot. }
  dstep.
  destruct (enrich_metadatas ing collection documents 0
              (metadatas_used documents metadatas) []) as [enriched|e2] eqn:Hrun.
  2:{ destruct (is_ScorpiusError e2) eqn:He2; dstep;
        eexists _, _; (split; [reflexivity|]); (split; [done|]); split;
        try (intros e [= <-]; by rewrite ?He2); by intros. }
  dstep.
  destruct (collection_add ing collection documents enriched
              (ids_used ing collection documents ids)) as [[]|e3] eqn:Hadd.
  { dstep. eexists _, _. split; [reflexivity|]. dstep. split; [done|]. split.
    - by intros e [=].
    - intros _ _ enriched' e [= <-]. by rewrite Hadd. }
  destruct (is_ScorpiusError e3) eqn:He3; dstep;
    eexists _, _; (split; [reflexivity|]); (split; [done|]); split;
    try (intros e [= <-]; by rewrite ?He3).
  - intros _ _ enriched' e [= <-]. rewrite Hadd. intros [= <-]. by rewrite He3.
  - by intros.
Qed.

(** X23.  The metadata of each document, as the collection receives it:
    there is one per document, in the order of the documents; it holds the
    time of the addition, the name of the collection, the number of
    characters of its document and the version "1.0.0" under the four keys
    [reserved_keys], whatever the caller had put there; and under every
    other key it holds what the caller gave (nothing when no metadata was
    given). *)
Theorem add_documents_enriches_the_metadata ing collection documents metadatas :
  (given metadatas = true -> len_of metadatas = length documents) ->
  exists enriched,
    enrich_metadatas ing collection documents 0 (metadatas_used documents metadatas) []
    = Ok enriched
    /\ length enriched = length documents
    /\ forall i document,
         documents !! i = Some document ->
         exists e,
           enriched !! i = Some e
           /\ dict_get e "added_at" = Some (PyStr (added_at ing i))
           /\ dict_get e "collection" = Some (PyStr collection)
           /\ dict_get e "document_length" = Some (PyInt (Z.of_nat (str_len document)))
           /\ dict_get e "scorpius_version" = Some (PyStr "1.0.0")
           /\ forall key,
                key ∉ reserved_keys ->
                dict_get e key
                = dict_get (default [] (metadatas_used documents metadatas !! i)) key.
Proof.
  intros Hlen%length_metadatas_used.
  destruct (enrich_metadatas_spec ing collection documents
              (metadatas_used documents metadatas) 0 []) as (enriched & Hrun & Hout & Hat).
  { lia. }
  change ([] ++ enriched)%list with enriched in Hrun.
  exists enriched. split; [done|]. split; [lia|].
  intros i document Hdoc.
  destruct (lookup_lt_is_Some_2 (metadatas_used documents metadatas) i)
    as [metadata Hmd].
  { rewrite Hlen. by apply lookup_lt_Some in Hdoc. }
  destruct (Hat i metadata Hmd) as (document' & Hdoc' & He).
  cbn [Nat.add] in Hdoc', He. rewrite Hdoc in Hdoc'. injection Hdoc' as <-.
  exists (enriched_of ing collection i metadata document).
  split; [done|]. rewrite Hmd. unfold enriched_of, dict_update.
  cbn [fold_left fst snd default].
  repeat apply conj; try (by rewrite !dict_get_dict_set).
  intros key Hkey. rewrite !dict_get_dict_set.
  unfold reserved_keys in Hkey. rewrite !not_elem_of_cons in Hkey.
  destruct Hkey as (H1 & H2 & H3 & H4 & _).
  by rewrite !(proj2 (String.eqb_neq _ _)) by done.
Qed.

Lemma generate_ids_NoDup collection timestamp n :
  NoDup (generate_ids collection timestamp n).
Proof.
  unfold generate_ids. apply NoDup_fmap_2_strong; [|apply NoDup_seq].
  intros i j _ _ Heq. by repeat apply (inj (String.app _)) in Heq; apply (inj pretty) in Heq.
Qed.

(** X24.  The ids that [add_documents] uses: one per document; and when
    the caller gives none (no list, or an empty one) they are generated
    from the collection, the clock and the rank of the document, and no
    two documents of the call get the same. *)
Theorem generated_ids_are_distinct ing collection documents ids :
  (given ids = true -> len_of ids = length documents) ->
  length (ids_used ing collection documents ids) = length documents
  /\ (given ids = false ->
      NoDup (ids_used ing collection documents ids)
      /\ forall i, i < length documents ->
           ids_used ing collection documents ids !! i
           = Some (collection +:+ "_" +:+ pretty (timestamp_ms ing) +:+ "_" +:+ pretty i)).
Proof.
  intros Hlen. unfold ids_used. destruct (given ids) eqn:Hg.
  - split; [|done]. destruct ids as [ids|]; [by apply Hlen|done].
  - split.
    + unfold generate_ids. by rewrite length_map, length_seq.
    + intros _. split; [apply generate_ids_NoDup|].
      intros i Hi. unfold generate_ids. rewrite list_lookup_fmap, lookup_seq_lt by done.
      done.
Qed.

End AddDocuments.

Section AddDocumentsExamples.
Import ScorpiusRAGEngine.
#[local] Existing Instance Sample.runtime.

Lemma sample_documents_addable : addable Sample.documents None None.
Proof.
  split; [done|]. split; [|done].
  repeat constructor; intros Hb; by inversion Hb.
Qed.

Lemma add_documents_adds_and_counts_witness :
  exists enriched,
    enrich_metadatas Sample.ingest "historique_ao" Sample.documents 0
      (metadatas_used Sample.documents None) [] = Ok enriched
    /\ (collection_add Sample.ingest "historique_ao" Sample.documents enriched
          (ids_used Sample.ingest "historique_ao" Sample.documents None) = Ok tt ->
        exists self',
          add_documents Sample.env Sample.ingest "historique_ao" Sample.documents None None
            Sample.new_engine
          = (Ok [("documents_added", PyInt (Z.of_nat (length Sample.documents)));
                 ("collection", PyStr "historique_ao");
                 ("duration_ms", PyFloat (add_duration_ms Sample.ingest));
                 ("estimated_cost_usd",
                  PyFloat (embedding_service_estimate_cost Sample.ingest Sample.documents));
                 ("total_characters",
                  PyInt (Z.of_nat (list_sum (map str_len Sample.documents))));
                 ("ids_generated",
                  PyList (map PyStr
                            (ids_used Sample.ingest "historique_ao" Sample.documents
                               None)))], self')
          /\ total_documents_added (_stats self')
             = (total_documents_added (_stats Sample.new_engine)
                + Z.of_nat (length Sample.documents))%Z
          /\ total_embeddings_generated (_stats self')
             = (total_embeddings_generated (_stats Sample.new_engine)
                + Z.of_nat (length Sample.documents))%Z
          /\ total_searches (_stats self') = total_searches (_stats Sample.new_engine)
          /\ known self' "historique_ao").
Proof.
  apply (add_documents_adds_and_counts Sample.env Sample.ingest "historique_ao"
           Sample.documents None None Sample.new_engine).
  - exact sample_documents_addable.
  - reflexivity.
Defined.

Lemma add_documents_enriches_the_metadata_witness :
  exists enriched,
    enrich_metadatas Sample.ingest "historique_ao" Sample.documents 0
      (metadatas_used Sample.documents
         (Some [[("organisme", PyStr "Région"); ("collection", PyStr "autre")]; []; []]))
      [] = Ok enriched
    /\ length enriched = length Sample.documents
    /\ forall i document,
         Sample.documents !! i = Some document ->
         exists e,
           enriched !! i = Some e
           /\ dict_get e "added_at" = Some (PyStr (added_at Sample.ingest i))
           /\ dict_get e "collection" = Some (PyStr "historique_ao")
           /\ dict_get e "document_length" = Some (PyInt (Z.of_nat (str_len document)))
           /\ dict_get e "scorpius_version" = Some (PyStr "1.0.0")
           /\ forall key,
                key ∉ reserved_keys ->
                dict_get e key
                = dict_get
                    (default []
                       (metadatas_used Sample.documents
                          (Some [[("organisme", PyStr "Région");
                                  ("collection", PyStr "autre")]; []; []]) !! i)) key.
Proof.
  apply (add_documents_enriches_the_metadata Sample.ingest "historique_ao"
           Sample.documents
           (Some [[("organisme", PyStr "Région"); ("collection", PyStr "autre")]; []; []])).
  reflexivity.
Defined.

Lemma generated_ids_are_distinct_witness :
  length (ids_used Sample.ingest "historique_ao" Sample.documents (Some []))
  = length Sample.documents
  /\ (given (Some ([] : list string)) = false ->
      NoDup (ids_used Sample.ingest "historique_ao" Sample.documents (Some []))
      /\ forall i, i < length Sample.documents ->
           ids_used Sample.ingest "historique_ao" Sample.documents (Some []) !! i
           = Some ("historique_ao" +:+ "_" +:+ pretty (timestamp_ms Sample.ingest)
                   +:+ "_" +:+ pretty i)).
Proof.
  apply (generated_ids_are_distinct Sample.ingest "historique_ao" Sample.documents
           (Some [])).
  intros [=].
Defined.

End AddDocumentsExamples.

(** ** Batches of texts *)

Section BatchOrder.
Import OpenAIEmbeddingService.
Context `{PyRuntime}.

Ltac bred :=
  cbv beta iota delta [bind try_except modify gets ret raise lift on_cache];
  repeat (progress (cbv beta; cbn [fst snd cache model create _stats cost_per_1k_tokens
                                   with_stats with_cache total_requests incr_cache_hits
                                   incr_api_calls add_usage incr_total_requests
                                   set_avg_latency_ms incr_errors errors api_calls])).

(** A service without cache has none after [embed]. *)
Lemma embed_keeps_absent_cache io now latency_ms texts use_cache self :
  cache self = None ->
  cache (embed io now latency_ms texts use_cache self).2 = None.
Proof.
  intros Hnone. unfold embed.
  destruct (_ || _); [done|].
  unfold bind at 1, gets at 1. unfold bind at 1, gets at 1. rewrite Hnone, andb_false_r.
  unfold bind at 1, ret at 1.
  set (text_list := match texts with inl t => [t] | inr l => l end).
  assert (forall l, exists r self1,
    (match l with
     | [] => ret []
     | _ => let* new_embeddings := _call_openai_api l (model self) in
            run ret tt then ret new_embeddings
     end) self = (r, self1) /\ cache self1 = None) as Hcall.
  { intros [|t l]; [by eexists _, _|].
    unfold _call_openai_api. bred.
    destruct (create self (t :: l) (model self)); bred; by eexists _, _. }
  destruct (Hcall text_list) as (r & self1 & Hr & Hnone1).
  unfold bind at 1. rewrite Hr. destruct r as [new|e]; [|done].
  unfold bind at 1, lift at 1.
  destruct (place_cached [] (repeat PyNone (length text_list))) as [l1|e]; [|done].
  unfold bind at 1, lift at 1.
  destruct (place_new 0 new (identity_mapping (length text_list)) l1) as [l2|e]; [|done].
  unfold _update_stats. bred.
  destruct (total_requests (_stats self1) + 1 =? 0)%Z; bred; [done|].
  destruct texts as [t|l]; [destruct l2|]; done.
Qed.

(** [embed] on a list, for a service without cache. *)
Lemma embed_without_cache vec io now latency_ms l use_cache self :
  l <> [] ->
  Forall (fun t => strip t <> "") l ->
  answers_in_order vec self ->
  cache self = None ->
  (0 <= total_requests (_stats self))%Z ->
  exists self',
    embed io now latency_ms (inr l) use_cache self = (Ok (vectors_of vec l), self')
    /\ answers_in_order vec self'
    /\ cache self' = None
    /\ total_requests (_stats self') = (total_requests (_stats self) + 1)%Z.
Proof.
  intros Hne Hnb Hanswers Hnone Hcount.
  destruct (embed_in_order vec io now latency_ms (inr l) use_cache self)
    as (self' & Hembed & Hcreate & Hcount'); try done.
  { intros c now' text mdl e Hc. by rewrite Hnone in Hc. }
  { lia. }
  exists self'. split; [done|]. split; [|split; [|done]].
  - intros texts mdl. rewrite Hcreate. apply Hanswers.
  - pose proof (embed_keeps_absent_cache io now latency_ms (inr l) use_cache self Hnone)
      as Hkeep.
    by rewrite Hembed in Hkeep.
Qed.

(** The tasks of one group, run by [gather]. *)
Lemma gather_in_order vec io now latency_ms use_cache :
  forall tasks self,
    Forall (fun b => b <> [] /\ Forall (fun t => strip t <> "") b) tasks ->
    answers_in_order vec self ->
    cache self = None ->
    (0 <= total_requests (_stats self))%Z ->
    exists self',
      gather io now latency_ms tasks use_cache self
      = (Ok (map (fun b => Ok (vectors_of vec b)) tasks), self')
      /\ answers_in_order vec self'
      /\ cache self' = None
      /\ (0 <= total_requests (_stats self'))%Z.
Proof.
  induction tasks as [|b tasks IH]; intros self Hall Hanswers Hnone Hcount.
  { by exists self. }
  apply Forall_cons in Hall as [[Hne Hnb] Hall].
  destruct (embed_without_cache vec io now latency_ms b use_cache self)
    as (self1 & Hembed & Hanswers1 & Hnone1 & Hcount1); try done.
  destruct (IH self1) as (self2 & Hrest & Hanswers2 & Hnone2 & Hcount2); try done; [lia|].
  exists self2. cbn [gather map]. rewrite Hembed, Hrest. done.
Qed.

Lemma extend_all_in_order vec :
  forall tasks all_embeddings,
    extend_all (map (fun b => Ok (vectors_of vec b)) tasks) all_embeddings
    = Ok (all_embeddings ++ map (fun t => PyList (vec t)) (concat tasks))%list.
Proof.
  induction tasks as [|b tasks IH]; intros acc.
  { cbn. by rewrite app_nil_r. }
  cbn [map extend_all vectors_of]. rewrite IH. cbn [concat].
  by rewrite map_app, app_assoc.
Qed.

(** The loop of [embed_batch], from the index [i] on: [all_embeddings]
    and the tasks that wait hold the texts before [i]. *)
Lemma batch_loop_in_order vec io now latency_ms texts batch_size use_cache :
  (0 < batch_size)%Z ->
  Forall (fun t => strip t <> "") texts ->
  forall fuel i tasks all_embeddings self,
    (0 <= i)%Z ->
    (Z.of_nat (length texts) - i <= Z.of_nat fuel)%Z ->
    ((Z.of_nat (length texts) <= i)%Z -> tasks = []) ->
    (all_embeddings ++ map (fun t => PyList (vec t)) (concat tasks))%list
    = map (fun t => PyList (vec t)) (take (Z.to_nat i) texts) ->
    Forall (fun b => b <> [] /\ Forall (fun t => strip t <> "") b) tasks ->
    answers_in_order vec self ->
    cache self = None ->
    (0 <= total_requests (_stats self))%Z ->
    exists self',
      batch_loop io now latency_ms
        (range_from fuel i (Z.of_nat (length texts)) batch_size)
        texts batch_size use_cache tasks all_embeddings self
      = (Ok (map (fun t => PyList (vec t)) texts), self').
Proof.
  intros Hsize Hnb. induction fuel as [|fuel IH];
    intros i tasks acc self Hi Hfuel Hlast Hinv Hall Hanswers Hnone Hcount.
  { cbn [range_from batch_loop]. rewrite Hlast in Hinv by lia.
    cbn in Hinv. rewrite app_nil_r, take_ge in Hinv by lia. subst acc. by exists self. }
  cbn [range_from]. destruct (i <? Z.of_nat (length texts))%Z eqn:Hlt.
  2:{ apply Z.ltb_ge in Hlt. cbn [batch_loop]. rewrite Hlast in Hinv by lia.
      cbn in Hinv. rewrite app_nil_r, take_ge in Hinv by lia. subst acc. by exists self. }
  apply Z.ltb_lt in Hlt. cbn [batch_loop].
  set (batch := slice texts i (i + batch_size)).
  assert (batch = take (Z.to_nat batch_size) (drop (Z.to_nat i) texts)) as Hbatch.
  { unfold batch, slice. f_equal. f_equal. lia. }
  assert (batch <> []) as Hne.
  { rewrite Hbatch. intros Hnil%(f_equal length).
    rewrite length_take, length_drop in Hnil. cbn in Hnil. lia. }
  assert (Forall (fun t => strip t <> "") batch) as Hbnb.
  { rewrite Hbatch. by apply Forall_take, Forall_drop. }
  assert ((acc ++ map (fun t => PyList (vec t)) (concat (tasks ++ [batch])))%list
          = map (fun t => PyList (vec t)) (take (Z.to_nat (i + batch_size)) texts))
    as Hinv'.
  { rewrite concat_app, map_app, app_assoc, Hinv. cbn [concat]. rewrite app_nil_r.
    rewrite <- map_app. f_equal. rewrite Hbatch.
    rewrite Z2Nat.inj_add by lia. apply take_take_drop. }
  assert (Forall (fun b => b <> [] /\ Forall (fun t => strip t <> "") b)
            (tasks ++ [batch])) as Hall'.
  { apply Forall_app. split; [done|]. by repeat constructor. }
  destruct ((max_concurrent <=? length (tasks ++ [batch]))%nat
            || (Z.of_nat (length texts) <=? i + batch_size)%Z) eqn:Hflush.
  - destruct (gather_in_order vec io now latency_ms use_cache (tasks ++ [batch]) self)
      as (self1 & Hgather & Hanswers1 & Hnone1 & Hcount1); try done.
    unfold bind at 1. rewrite Hgather.
    unfold bind at 1, lift at 1. rewrite extend_all_in_order.
    apply IH; try done; try lia.
    cbn [concat map]. by rewrite app_nil_r.
  - apply orb_false_iff in Hflush as [_ Hmore%Z.leb_gt].
    apply IH; try done; lia.
Qed.

(** X25.  [embed_batch] keeps the order of the texts, whatever the size
    of the batches: for a service without cache whose provider lists its
    vectors in the order of each request, texts none of which is blank and
    a batch size of one or more, it returns one vector per text, the vector
    at each position being that of the text at that position.  The counter
    of requests is not negative. *)
Theorem embed_batch_preserves_order vec io now latency_ms texts batch_size use_cache self :
  Forall (fun t => strip t <> "") texts ->
  (0 < batch_size)%Z ->
  answers_in_order vec self ->
  cache self = None ->
  (0 <= total_requests (_stats self))%Z ->
  exists self',
    embed_batch io now latency_ms texts batch_size use_cache self
    = (Ok (vectors_of vec texts), self').
Proof.
  intros Hnb Hsize Hanswers Hnone Hcount. unfold embed_batch.
  destruct texts as [|t texts]; [by exists self|].
  set (all := t :: texts) in *.
  destruct (Z.of_nat (length all) <=? batch_size)%Z.
  { destruct (embed_without_cache vec io now latency_ms all use_cache self)
      as (self' & Hembed & _); try done. by exists self'. }
  unfold range_step.
  rewrite (proj2 (Z.eqb_neq _ _)), (proj2 (Z.ltb_ge _ _)) by lia.
  unfold bind at 1, lift at 1.
  assert (exists self',
    batch_loop io now latency_ms
      (range_from (Z.to_nat (Z.of_nat (length all))) 0 (Z.of_nat (length all)) batch_size)
      all batch_size use_cache [] [] self
    = (Ok (map (fun t => PyList (vec t)) all), self')) as (self' & Hloop).
  { apply (batch_loop_in_order vec); try done; lia. }
  unfold bind at 1. rewrite Hloop. by exists self'.
Qed.

End BatchOrder.

Section BatchOrderExamples.
Import OpenAIEmbeddingService.
#[local] Existing Instance Sample.runtime.

Lemma embed_batch_preserves_order_witness :
  exists self',
    embed_batch Sample.io_ok 0 12 ["alpha"; "be"; "gam"; "delta"; "ep"; "z"; "eta"; "th"]
      2 true Sample.plain_service
    = (Ok (vectors_of Sample.vec ["alpha"; "be"; "gam"; "delta"; "ep"; "z"; "eta"; "th"]),
       self').
Proof.
  apply (embed_batch_preserves_order Sample.vec Sample.io_ok 0 12
           ["alpha"; "be"; "gam"; "delta"; "ep"; "z"; "eta"; "th"] 2 true
           Sample.plain_service).
  - repeat constructor; by vm_compute.
  - lia.
  - intros texts mdl. by exists 7%Z.
  - reflexivity.
  - by vm_compute.
Defined.

End BatchOrderExamples.

(** ** Texts that are all in the cache *)

Section AllCached.
Import OpenAIEmbeddingService.
Context `{PyRuntime}.

Ltac cred :=
  cbv beta iota delta [bind try_except modify gets ret raise lift on_cache];
  repeat (progress (cbv beta; cbn [fst snd cache model create _stats cost_per_1k_tokens
                                   with_stats with_cache total_requests incr_cache_hits
                                   incr_api_calls add_usage incr_total_requests
                                   set_avg_latency_ms incr_errors errors api_calls
                                   cache_hits])).

(** A usable entry holds a vector that is not empty. *)
Lemma usable_truthy now c text mdl e :
  EmbeddingCache.usable now c text mdl e -> truthy e = true.
Proof.
  intros (f & v & _ & _ & _ & (d & items & -> & _ & _ & _ & Hitems & Hne & _) & He).
  cbn in He. rewrite Hitems in He. injection He as <-. by destruct items.
Qed.

(** A hit leaves every usable entry usable. *)
Lemma get_hit_keeps now c text mdl e :
  EmbeddingCache.usable now c text mdl e ->
  exists c',
    EmbeddingCache.get now text mdl c = (Ok (Some e), c')
    /\ forall text' mdl' e',
         EmbeddingCache.usable now c text' mdl' e' ->
         EmbeddingCache.usable now c' text' mdl' e'.
Proof.
  intros Hu. destruct (get_hit now text mdl c e Hu) as (c' & Hget & Hdisk).
  destruct (get_cases now text mdl c) as (r & c'' & Hget' & Hdir & Httl & _).
  rewrite Hget in Hget'. injection Hget' as <- <-.
  exists c'. split; [done|]. intros text' mdl' e'.
  apply usable_mono; [done|done|]. intros p f. by rewrite Hdisk.
Qed.

(** What [get] returns is a usable entry. *)
Lemma usable_by_get now c text mdl e :
  (EmbeddingCache.get now text mdl c).1 = Ok (Some e) ->
  EmbeddingCache.usable now c text mdl e.
Proof.
  destruct (get_cases now text mdl c) as (r & c' & -> & _ & _ & _ & Hr).
  intros [= ->]. by apply Hr.
Qed.

(** The loop that consults the cache, when every text is found. *)
Lemma check_cache_all_hits vec now text_list mdl rest :
  forall i cached self c,
    drop i text_list = rest ->
    cache self = Some c ->
    (forall t, t ∈ rest -> EmbeddingCache.usable now c t mdl (PyList (vec t))) ->
    accounted vec text_list i cached [] ∅ ->
    exists cached' self',
      check_cache now i rest mdl cached [] ∅ self = (Ok (cached', [], ∅), self')
      /\ accounted vec text_list (length text_list) cached' [] ∅
      /\ total_requests (_stats self') = total_requests (_stats self)
      /\ api_calls (_stats self') = api_calls (_stats self)
      /\ errors (_stats self') = errors (_stats self)
      /\ cache_hits (_stats self')
         = (cache_hits (_stats self) + Z.of_nat (length rest))%Z.
Proof.
  induction rest as [|text rest IH]; intros i cached self c Hdrop Hc Husable Hacc.
  - exists cached, self. split; [done|]. split; [|cbn; repeat split; lia].
    destruct Hacc as (Hcached & Ht & Hall). split; [done|]. split; [done|].
    intros p Hp. apply Hall.
    apply (f_equal length) in Hdrop. rewrite length_drop in Hdrop. simpl in Hdrop. lia.
  - apply drop_cons_inv in Hdrop as [Htext Hdrop].
    cbn [check_cache]. unfold bind at 1, on_cache. rewrite Hc.
    destruct (get_hit_keeps now c text mdl (PyList (vec text))) as (c' & -> & Hkeep).
    { apply Husable. by left. }
    rewrite (usable_truthy now c text mdl) by (apply Husable; by left).
    cbn [default]. unfold bind at 1, modify at 1.
    destruct Hacc as (Hcached & Ht & Hall).
    destruct (IH (S i) (cached ++ [(i, PyList (vec text))])%list
                (with_stats incr_cache_hits (with_cache c' self)) c')
      as (cached' & self' & Hrun & Hacc' & Hreq & Hapi & Herr & Hhits); try done.
    { intros t Hin. apply Hkeep, Husable. by right. }
    { split; [|split; [done|]].
      - intros p e [Hin | Hin%list_elem_of_singleton]%elem_of_app; [by apply Hcached|].
        injection Hin as -> ->. by exists text.
      - intros p Hp. destruct (decide (p = i)) as [->|Hne].
        + left. exists (PyList (vec text)). apply elem_of_app. right.
          by apply list_elem_of_singleton.
        + destruct (Hall p) as [[e He]|(k & t & Hk & _)]; [lia| |done].
          left. exists e. apply elem_of_app. by left. }
    exists cached', self'. split; [exact Hrun|]. split; [done|].
    rewrite Hreq, Hapi, Herr, Hhits. cbn. repeat split; lia.
Qed.

(** X26.  When every text of the list has a usable entry in the cache,
    [embed] answers from the cache alone: it returns the stored vectors in
    the order of the texts, and the provider is not called, whatever it
    would have answered -- the counters of calls and of errors stay as they
    were.  The counter of cache hits grows by one per text, while the
    counter of requests grows by one for the whole call. *)
Theorem embed_answers_from_the_cache vec io now latency_ms text_list self c :
  text_list <> [] ->
  Forall (fun t => strip t <> "") text_list ->
  cache self = Some c ->
  (forall t, t ∈ text_list ->
     EmbeddingCache.usable now c t (model self) (PyList (vec t))) ->
  total_requests (_stats self) <> (-1)%Z ->
  exists self',
    embed io now latency_ms (inr text_list) true self
    = (Ok (vectors_of vec text_list), self')
    /\ api_calls (_stats self') = api_calls (_stats self)
    /\ errors (_stats self') = errors (_stats self)
    /\ cache_hits (_stats self')
       = (cache_hits (_stats self) + Z.of_nat (length text_list))%Z
    /\ total_requests (_stats self') = (total_requests (_stats self) + 1)%Z.
Proof.
  intros Hne Hnb Hc Husable Hcount.
  unfold embed. rewrite (non_blank_texts text_list Hne Hnb).
  unfold bind at 1, gets at 1. unfold bind at 1, gets at 1. rewrite Hc. cbn [andb].
  destruct (check_cache_all_hits vec now text_list (model self) text_list 0 [] self c)
    as (cached & self1 & Hrun & Hacc & Hreq & Hapi & Herr & Hhits); try done.
  { split; [|split]; [intros ? ? []%elem_of_nil|intros ? ? [=]|intros; lia]. }
  unfold bind at 1. rewrite Hrun. unfold bind at 1, ret at 1.
  destruct Hacc as (Hcached & _ & Hall).
  destruct (place_cached_spec vec text_list cached (repeat PyNone (length text_list)))
    as (l1 & Hl1 & Hlen1 & _ & Hplaced); [by rewrite repeat_length|done|].
  unfold bind at 1, lift at 1. rewrite Hl1.
  unfold bind at 1, lift at 1. cbn [place_new].
  destruct (_update_stats_counts latency_ms self1) as (self2 & Hupd & _ & _ & Hreq2);
    [congruence|].
  assert (api_calls (_stats self2) = api_calls (_stats self1)
          /\ errors (_stats self2) = errors (_stats self1)
          /\ cache_hits (_stats self2) = cache_hits (_stats self1)) as (Hapi2 & Herr2 & Hhits2).
  { revert Hupd. unfold _update_stats. cred.
    destruct (total_requests (_stats self1) + 1 =? 0)%Z; [done|]. by intros [= <-]. }
  unfold bind at 1. rewrite Hupd. unfold ret.
  assert (PyList l1 = vectors_of vec text_list) as ->.
  { apply all_placed; [done|]. intros p Hp.
    destruct (Hall p Hp) as [[e He] | (k & t & Hk & _)]; [|done]. by eapply Hplaced. }
  exists self2. split; [done|]. rewrite Hapi2, Herr2, Hhits2, Hreq2. repeat split; lia.
Qed.

End AllCached.

Section AllCachedExamples.
Import OpenAIEmbeddingService.
#[local] Existing Instance Sample.runtime.

(** The service once it has embedded two texts, and its cache. *)
Lemma embed_answers_from_the_cache_witness :
  let self := (embed Sample.io_ok 0 12 (inr ["alpha"; "be"]) true Sample.service).2 in
  exists self',
    embed Sample.io_ok 5 12 (inr ["be"; "alpha"; "be"]) true self
    = (Ok (vectors_of Sample.vec ["be"; "alpha"; "be"]), self')
    /\ api_calls (_stats self') = api_calls (_stats self)
    /\ errors (_stats self') = errors (_stats self)
    /\ cache_hits (_stats self')
       = (cache_hits (_stats self) + Z.of_nat (length ["be"; "alpha"; "be"]))%Z
    /\ total_requests (_stats self') = (total_requests (_stats self) + 1)%Z.
Proof.
  intros self.
  apply (embed_answers_from_the_cache Sample.vec Sample.io_ok 5 12 ["be"; "alpha"; "be"]
           self (default Sample.empty_cache (cache self))).
  - discriminate.
  - repeat constructor; by vm_compute.
  - by vm_compute.
  - intros t Ht. apply usable_by_get.
    repeat (apply elem_of_cons in Ht as [-> | Ht]; [by vm_compute|]).
    by apply elem_of_nil in Ht.
  - by vm_compute.
Defined.

End AllCachedExamples.

(** ** The mean latency of the service *)

Section MeanLatency.
Import OpenAIEmbeddingService.
Context `{PyRuntime}.















End MeanLatency.

Section MeanLatencyExamples.
Import OpenAIEmbeddingService.
#[local] Existing Instance Sample.runtime.


End MeanLatencyExamples.

(** ** The context of a call for tenders *)

Section Context.
Import ScorpiusRAGEngine.

Lemma complexity_cases self :
  let ds := technical_domains self in
  let has_complex := existsb (fun domain => bool_decide (domain ∈ complex_domains)) ds in
  get_technical_complexity self
  = if (3 <=? length ds)%nat || has_complex then "Élevée"
    else if (length ds =? 2)%nat then "Moyenne"
    else "Faible".
Proof.
  unfold get_technical_complexity. by destruct (technical_domains self).
Qed.

(** X28.  [get_technical_complexity] never goes down when domains are
    added to a context: a context that is "Élevée" stays so, and a context
    that is "Faible" with the domains added was "Faible" without them.
    "Faible" is the answer for at most one domain, none of cybersecurity,
    data/AI and integration; "Élevée" is the answer for three domains or
    more (a domain named twice counts twice) or for one of these three. *)
Theorem technical_complexity_grows_with_the_domains self self' more :
  technical_domains self' = (technical_domains self ++ more)%list ->
  (get_technical_complexity self = "Élevée" -> get_technical_complexity self' = "Élevée")
  /\ (get_technical_complexity self' = "Faible" -> get_technical_complexity self = "Faible")
  /\ (get_technical_complexity self = "Faible"
      <-> length (technical_domains self) <= 1
          /\ Forall (fun d => d ∉ complex_domains) (technical_domains self))
  /\ (get_technical_complexity self = "Élevée"
      <-> 3 <= length (technical_domains self)
          \/ Exists (fun d => d ∈ complex_domains) (technical_domains self)).
Proof.
  intros Hmore. rewrite !complexity_cases. cbv zeta. rewrite Hmore.
  rewrite existsb_app, length_app.
  set (ds := technical_domains self).
  set (hc := existsb (fun domain => bool_decide (domain ∈ complex_domains)) ds).
  assert (hc = true <-> Exists (fun d => d ∈ complex_domains) ds) as Hhc.
  { unfold hc. rewrite existsb_exists, Exists_exists. split.
    - intros (d & Hin & Hd). exists d. split; [by apply list_elem_of_In|].
      by apply bool_decide_eq_true in Hd.
    - intros (d & Hin & Hd). exists d. split; [by apply list_elem_of_In|].
      by apply bool_decide_eq_true. }
  assert (hc = false <-> Forall (fun d => d ∉ complex_domains) ds) as Hnc.
  { rewrite <- not_true_iff_false, Hhc. rewrite <- Forall_Exists_neg. done. }
  clearbody hc.
  destruct (3 <=? length ds)%nat eqn:H3; destruct hc;
    destruct (length ds =? 2)%nat eqn:H2;
    destruct (3 <=? length ds + length more)%nat eqn:H3';
    destruct (existsb _ more);
    destruct (length ds + length more =? 2)%nat eqn:H2';
    cbn [orb];
    repeat match goal with
           | H : (_ <=? _)%nat = true |- _ => apply Nat.leb_le in H
           | H : (_ <=? _)%nat = false |- _ => apply Nat.leb_gt in H
           | H : (_ =? _)%nat = true |- _ => apply Nat.eqb_eq in H
           | H : (_ =? _)%nat = false |- _ => apply Nat.eqb_neq in H
           end;
    try lia;
    repeat apply conj; intros Hx;
    first [ done
          | lazymatch type of Hx with
            | _ /\ _ => by (destruct Hx as [? Hall]; first [lia | apply Hnc in Hall])
            | _ \/ _ => by (destruct Hx as [? | Hex%Hhc]; first [lia | done])
            end
          | by (split; [lia | apply Hnc])
          | by (left; lia)
          | by (right; apply Hhc) ].
Qed.

(** X29.  [get_formalism_level] against [get_amount_range]: a MAPA is
    "Minimum" and a competitive dialogue, an innovation partnership or a
    contest is "Maximum", whatever the amount; an open or restricted call
    is "Maximum" exactly when its amount is above one million, and then
    its range is "1M-5M" or "5M+"; at one million sharp the range is
    "1M-5M" already while the level is still "Standard". *)
Theorem formalism_follows_the_amount self :
  (ao_type self = MAPA -> get_formalism_level self = "Minimum")
  /\ (ao_type self <> MAPA -> ao_type self <> OUVERT -> ao_type self <> RESTREINT ->
      get_formalism_level self = "Maximum")
  /\ (ao_type self = OUVERT \/ ao_type self = RESTREINT ->
      (get_formalism_level self = "Maximum"
       <-> exists amount, estimated_amount self = Some amount /\ (1000000 < amount)%Z)
      /\ (get_formalism_level self = "Maximum" ->
          get_amount_range self = "1M-5M" \/ get_amount_range self = "5M+")
      /\ (get_formalism_level self <> "Maximum" -> get_formalism_level self = "Standard")
      /\ (estimated_amount self = Some 1000000%Z ->
          get_amount_range self = "1M-5M" /\ get_formalism_level self = "Standard")).
Proof.
  unfold get_formalism_level, get_amount_range, amount_given.
  split; [by intros ->|]. split; [by destruct (ao_type self)|].
  intros Hopen.
  assert ((if match estimated_amount self with
              | Some n => negb (n =? 0)%Z
              | None => false
              end
              && match estimated_amount self with
                 | Some amount => (amount >? 1000000)%Z
                 | None => false
                 end
           then "Maximum" else "Standard")
          = match ao_type self with
            | MAPA => "Minimum"
            | OUVERT | RESTREINT =>
                if match estimated_amount self with
                   | Some n => negb (n =? 0)%Z
                   | None => false
                   end
                   && match estimated_amount self with
                      | Some amount => (amount >? 1000000)%Z
                      | None => false
                      end
                then "Maximum" else "Standard"
            | _ => "Maximum"
            end) as <- by (by destruct Hopen as [-> | ->]).
  destruct (estimated_amount self) as [amount|]; cbn [andb].
  2:{ split; [split|split; [|split]]; try done. by intros (amount & [=] & _). }
  destruct (amount >? 1000000)%Z eqn:Hgt; rewrite Z.gtb_ltb in Hgt.
  - apply Z.ltb_lt in Hgt.
    rewrite (proj2 (Z.eqb_neq amount 0)) by lia. cbn [negb andb].
    rewrite !(proj2 (Z.ltb_ge _ _)) by lia.
    split; [split|split; [|split]]; try done.
    + intros _. by exists amount.
    + intros _. destruct (amount <? 5000000)%Z; [by left|by right].
    + intros [= ->]. lia.
  - apply Z.ltb_ge in Hgt. rewrite andb_false_r.
    split; [split|split; [|split]]; try done.
    + intros (amount' & [= <-] & Hlt). lia.
    + by intros [= ->].
Qed.

End Context.

Section ContextExamples.
Import ScorpiusRAGEngine.

Lemma technical_complexity_grows_with_the_domains_witness :
  let one :=
    {| ao_type := OUVERT; sector := TERRITORIAL; estimated_amount := None;
       technical_domains := [DEVELOPPEMENT]; organisme := None |} in
  let two :=
    {| ao_type := OUVERT; sector := TERRITORIAL; estimated_amount := None;
       technical_domains := [DEVELOPPEMENT; SUPPORT]; organisme := None |} in
  (get_technical_complexity one = "Élevée" -> get_technical_complexity two = "Élevée")
  /\ (get_technical_complexity two = "Faible" -> get_technical_complexity one = "Faible")
  /\ (get_technical_complexity one = "Faible"
      <-> length (technical_domains one) <= 1
          /\ Forall (fun d => d ∉ complex_domains) (technical_domains one))
  /\ (get_technical_complexity one = "Élevée"
      <-> 3 <= length (technical_domains one)
          \/ Exists (fun d => d ∈ complex_domains) (technical_domains one)).
Proof.
  intros one two.
  apply (technical_complexity_grows_with_the_domains one two [SUPPORT]).
  reflexivity.
Defined.

End ContextExamples.

(** ** The configuration of the embedding service *)

Section Config.
Import EmbeddingConfig.

Lemma inject_Z_pos n : (0 < n)%Z -> (0 < inject_Z n)%Q.
Proof. intros Hn. unfold Qlt. cbn. lia. Qed.

(** X30.  What [__post_init__] accepts is a configuration the service can
    work with: it is the configuration given, with the key of the
    environment when none was given; its key is not empty and its model is
    one of the three known ones, so that the price and the dimensions come
    from the tables and not from their defaults, and the price is above
    zero; the delay between two requests is defined (no division by zero),
    above zero and at most a minute; and the estimated cost of a number of
    tokens that is not negative is not negative. *)
Theorem accepted_configurations_are_usable getenv self self' :
  __post_init__ getenv self = Ok self' ->
  self' = match api_key self with None => with_api_key getenv self | Some _ => self end
  /\ (exists key, api_key self' = Some key /\ key <> "")
  /\ model self' ∈ valid_models
  /\ (cost_per_1k_tokens self', embedding_dimensions self')
     ∈ [(0.00013%Q, 3072%Z); (0.00002%Q, 1536%Z); (0.0001%Q, 1536%Z)]
  /\ (0 < cost_per_1k_tokens self')%Q
  /\ (exists delay,
        get_rate_limit_delay self' = Ok delay /\ (0 < delay)%Q /\ (delay <= 60)%Q)
  /\ (forall total_tokens, (0 <= total_tokens)%Z ->
        (0 <= estimate_cost self' total_tokens)%Q)
  /\ (0 < timeout self')%Z /\ (0 <= max_retries self')%Z /\ (0 <= retry_delay self')%Q
  /\ (0 < batch_size self')%Z /\ (0 < cache_ttl_hours self')%Z.
Proof.
  unfold __post_init__.
  set (s := match api_key self with None => with_api_key getenv self | Some _ => self end).
  destruct (api_key s) as [key|] eqn:Hkey; [|done].
  destruct (truthy (PyStr key)) eqn:Htruthy; [|done]. cbn [negb].
  destruct (bool_decide (model s ∈ valid_models)) eqn:Hmodel; [|done]. cbn [negb].
  destruct (timeout s <=? 0)%Z eqn:Htimeout; [done|].
  destruct (max_retries s <? 0)%Z eqn:Hretries; [done|].
  destruct (Qle_bool 0 (retry_delay s)) eqn:Hdelay; [|done]. cbn [negb].
  destruct (batch_size s <=? 0)%Z eqn:Hbatch; [done|].
  destruct (rate_limit_rpm s <=? 0)%Z eqn:Hrate; [done|].
  destruct (cache_ttl_hours s <=? 0)%Z eqn:Httl; [done|].
  intros [= <-].
  apply Z.leb_gt in Htimeout, Hbatch, Hrate, Httl. apply Z.ltb_ge in Hretries.
  apply Qle_bool_iff in Hdelay. apply bool_decide_eq_true in Hmodel.
  assert ((cost_per_1k_tokens s, embedding_dimensions s)
          ∈ [(0.00013%Q, 3072%Z); (0.00002%Q, 1536%Z); (0.0001%Q, 1536%Z)]) as Htables.
  { unfold cost_per_1k_tokens, embedding_dimensions, valid_models in *.
    repeat (apply elem_of_cons in Hmodel as [-> | Hmodel];
            [cbn; rewrite !elem_of_cons; auto|]).
    by apply elem_of_nil in Hmodel. }
  assert (0 < cost_per_1k_tokens s)%Q as Hcost.
  { revert Htables. generalize (cost_per_1k_tokens s), (embedding_dimensions s).
    intros c d Hin.
    repeat (apply elem_of_cons in Hin as [[= -> _] | Hin]; [done|]).
    by apply elem_of_nil in Hin. }
  split; [done|]. split.
  { exists key. split; [done|]. cbn [truthy] in Htruthy.
    by apply negb_true_iff, String.eqb_neq in Htruthy. }
  split; [done|]. split; [done|]. split; [done|]. split.
  { unfold get_rate_limit_delay. rewrite (proj2 (Z.eqb_neq _ _)) by lia.
    eexists. split; [reflexivity|].
    assert (1 <= inject_Z (rate_limit_rpm s))%Q as Hone.
    { unfold Qle. cbn. lia. }
    split.
    - apply Qlt_shift_div_l; lra.
    - apply Qle_shift_div_r; lra. }
  split.
  { intros tokens Htokens. unfold estimate_cost.
    assert (0 <= inject_Z tokens)%Q as Hpos by (unfold Qle; cbn; lia).
    apply Qmult_le_0_compat; [|lra].
    apply Qle_shift_div_l; lra. }
  repeat apply conj; done.
Qed.

End Config.

Section ConfigExamples.
Import EmbeddingConfig.

Lemma accepted_configurations_are_usable_witness :
  let self' := with_api_key (Some "sk-test") Sample.default_config in
  self' = match api_key Sample.default_config with
          | None => with_api_key (Some "sk-test") Sample.default_config
          | Some _ => Sample.default_config
          end
  /\ (exists key, api_key self' = Some key /\ key <> "")
  /\ model self' ∈ valid_models
  /\ (cost_per_1k_tokens self', embedding_dimensions self')
     ∈ [(0.00013%Q, 3072%Z); (0.00002%Q, 1536%Z); (0.0001%Q, 1536%Z)]
  /\ (0 < cost_per_1k_tokens self')%Q
  /\ (exists delay,
        get_rate_limit_delay self' = Ok delay /\ (0 < delay)%Q /\ (delay <= 60)%Q)
  /\ (forall total_tokens, (0 <= total_tokens)%Z ->
        (0 <= estimate_cost self' total_tokens)%Q)
  /\ (0 < timeout self')%Z /\ (0 <= max_retries self')%Z /\ (0 <= retry_delay self')%Q
  /\ (0 < batch_size self')%Z /\ (0 < cache_ttl_hours self')%Z.
Proof.
  intros self'.
  apply (accepted_configurations_are_usable (Some "sk-test") Sample.default_config self').
  reflexivity.
Defined.

End ConfigExamples.
